(** * kicad-import: merging vendor component records into local KiCad libraries

    A shallow embedding of [kicad-import.py].  The Python functions
    [check_file], [import_dcm], [import_model], [import_footprint],
    [import_lib] and [import_all] are rendered as computations in a small
    state-and-exception monad over
    - a file system (a finite map from paths to directories and files),
    - the module-level modification ledger [modified_objects],
    - the operator's replies to [input(...)], consumed in order.

    A text file is held as the list of its lines, each line without its
    terminating newline: this is what [splitlines()] returns for the archive
    members and what iterating over an open file yields (up to the newline
    each yielded line carries).  An empty list is a file of size 0. *)

From Stdlib Require Import String Ascii.
From stdpp Require Import base option list gmap strings.

Open Scope string_scope.
Open Scope list_scope.

(** ** Python string methods used by the program (on byte strings) *)

Module PyStr.

Definition startswith (s p : string) : bool := String.prefix p s.

Fixpoint drop (n : nat) (s : string) : string :=
  match n, s with
  | O, _ => s
  | S n', String _ s' => drop n' s'
  | S _, EmptyString => EmptyString
  end.

Fixpoint take (n : nat) (s : string) : string :=
  match n, s with
  | S n', String c s' => String c (take n' s')
  | _, _ => EmptyString
  end.

Fixpoint rev_onto (s acc : string) : string :=
  match s with
  | EmptyString => acc
  | String c s' => rev_onto s' (String c acc)
  end.

Definition rev (s : string) : string := rev_onto s EmptyString.

Definition endswith (s suffix : string) : bool :=
  String.prefix (rev suffix) (rev s).

(** ASCII white space as [str.isspace] sees it: TAB, LF, VT, FF, CR,
    the separators 28..31 and the blank. *)
Definition isspace (c : ascii) : bool :=
  let n := nat_of_ascii c in
  (Nat.leb 9 n && Nat.leb n 13) || (Nat.leb 28 n && Nat.leb n 32).

Fixpoint lstrip_by (f : ascii -> bool) (s : string) : string :=
  match s with
  | String c s' => if f c then lstrip_by f s' else s
  | EmptyString => EmptyString
  end.

Definition strip_by (f : ascii -> bool) (s : string) : string :=
  rev (lstrip_by f (rev (lstrip_by f s))).

(** [s.strip()] *)
Definition strip (s : string) : string := strip_by isspace s.

(** [s.strip(chars)] *)
Definition strip_chars (chars s : string) : string :=
  strip_by (fun c => existsb (Ascii.eqb c) (list_ascii_of_string chars)) s.

(** [s.split()]: maximal runs of non-blank characters. *)
Fixpoint split_aux (s : string) (cur : string) : list string :=
  match s with
  | EmptyString =>
      match cur with EmptyString => [] | _ => [rev cur] end
  | String c s' =>
      if isspace c
      then match cur with
           | EmptyString => split_aux s' EmptyString
           | _ => rev cur :: split_aux s' EmptyString
           end
      else split_aux s' (String c cur)
  end.

Definition split (s : string) : list string := split_aux s EmptyString.

(** [s.replace(old, new, 1)]: the leftmost occurrence only; an empty
    [old] matches at position 0. *)
Fixpoint replace1 (old new s : string) : string :=
  if String.prefix old s then new +:+ drop (String.length old) s
  else match s with
       | EmptyString => EmptyString
       | String c s' => String c (replace1 old new s')
       end.

Definition lower_ascii (c : ascii) : ascii :=
  let n := nat_of_ascii c in
  if Nat.leb 65 n && Nat.leb n 90 then ascii_of_nat (n + 32) else c.

Fixpoint lower (s : string) : string :=
  match s with
  | EmptyString => EmptyString
  | String c s' => String (lower_ascii c) (lower s')
  end.

(** ['\n'.join(...)] is not needed: a written block of lines is kept as
    the list of those lines. *)

(** [re.match('# *end ', line, re.IGNORECASE)] *)
Definition match_end (line : string) : bool :=
  match line with
  | String "#" r =>
      String.prefix "end "
        (lower (take 4 (lstrip_by (Ascii.eqb " ") r)))
  | _ => false
  end.

End PyStr.

(** ** Data model *)

Inductive Modification := MKDIR | TOUCH_FILE | MODIFIED_FILE | EXTRACTED_FILE.

Inductive REMOTE_TYPES := OCTOPART | SAMACSYS | ULTRA_LIBRARIAN | SNAPEDA.

(** [remote_type.name] *)
Definition remote_name (rt : REMOTE_TYPES) : string :=
  match rt with
  | OCTOPART => "OCTOPART"
  | SAMACSYS => "SAMACSYS"
  | ULTRA_LIBRARIAN => "ULTRA_LIBRARIAN"
  | SNAPEDA => "SNAPEDA"
  end.

(** A [pathlib.Path], as its components from the root. *)
Abbreviation path := (list string).

(** [p / name] *)
Definition path_join (p : path) (name : string) : path := p ++ [name].

(** [p.parent]; the root is its own parent. *)
Definition parent (p : path) : path := removelast p.

(** What a path of the file system holds: a directory, or a regular file
    with its lines. *)
Inductive node :=
| Dir
| File (content : list string).

(** Keys of the ledger: [check_file] and [import_model] log
    [pathlib.Path]s, and [import_model] also logs the [zipfile.Path] of the
    extracted member. *)
Inductive obj :=
| FsPath (p : path)
| ZipPath (member : string).

#[global] Instance Modification_eq_dec : EqDecision Modification.
Proof. solve_decision. Defined.

#[global] Instance REMOTE_TYPES_eq_dec : EqDecision REMOTE_TYPES.
Proof. solve_decision. Defined.

#[global] Instance node_eq_dec : EqDecision node.
Proof. solve_decision. Defined.

#[global] Instance obj_eq_dec : EqDecision obj.
Proof. solve_decision. Defined.

(** The exceptions the program can end with.  [Warning] is what the
    program raises itself; the others come from the Python runtime.  All
    of them are subclasses of [Exception].  [KeyboardInterrupt] and
    [SystemExit], which an [except Exception] clause lets pass, are not
    modelled: the operator answers a prompt or ends the input, and does
    not interrupt the program. *)
Inductive warning := UnexpectedDevice | MultipleDevices | DeviceNotFound.

Inductive exn :=
| Warning (w : warning)
| IndexError
| AttributeError
| AssertionError
| ValueError
| KeyError
| EOFError
| FileNotFoundError
| FileExistsError
| IsADirectoryError
| NotADirectoryError.

(** *** [class ModifiedObject]

    [self.dict] is a Python [dict]: keyed by the logged object, iterated in
    the order in which the keys were first inserted. *)
Definition ModifiedObject := list (obj * Modification).

(** [self.dict[obj] = modification] *)
Fixpoint dict_set (d : ModifiedObject) (k : obj) (v : Modification)
  : ModifiedObject :=
  match d with
  | [] => [(k, v)]
  | (k', v') :: d' =>
      if decide (k' = k) then (k', v) :: d' else (k', v') :: dict_set d' k v
  end.

Fixpoint dict_get (d : ModifiedObject) (k : obj) : option Modification :=
  match d with
  | [] => None
  | (k', v') :: d' => if decide (k' = k) then Some v' else dict_get d' k
  end.

(** ** Machine state and the monad of the program *)

Record state := mkState {
  fs : gmap path node;
  modified_objects : ModifiedObject;
  replies : list string
}.

Definition M (A : Type) : Type := state -> (exn + A) * state.

Definition ret {A} (a : A) : M A := fun s => (inr a, s).

Definition bind {A B} (c : M A) (k : A -> M B) : M B :=
  fun s =>
    match c s with
    | (inl e, s') => (inl e, s')
    | (inr a, s') => k a s'
    end.

Definition raise {A} (e : exn) : M A := fun s => (inl e, s).

Notation "x <- c ;; k" := (bind c (fun x => k))
  (at level 90, c at level 80, right associativity).
Notation "c ;;; k" := (bind c (fun _ => k))
  (at level 90, right associativity).

Definition lift {A} (r : exn + A) : M A :=
  match r with inl e => raise e | inr a => ret a end.

Definition get_fs : M (gmap path node) := fun s => (inr (fs s), s).

Definition put_fs (f : gmap path node) : M unit :=
  fun s => (inr tt, mkState f (modified_objects s) (replies s)).

(** [modified_objects.append(obj, modification)] *)
Definition append (o : obj) (m : Modification) : M unit :=
  fun s => (inr tt, mkState (fs s) (dict_set (modified_objects s) o m) (replies s)).

(** [input(prompt)]: the next reply of the operator; end of input raises. *)
Definition input : M string :=
  fun s =>
    match replies s with
    | [] => (inl EOFError, s)
    | r :: rs => (inr r, mkState (fs s) (modified_objects s) rs)
    end.

Definition get_replies : M (list string) := fun s => (inr (replies s), s).

Definition put_replies (rs : list string) : M unit :=
  fun s => (inr tt, mkState (fs s) (modified_objects s) rs).

(** [x or "Yes"] *)
Definition or_default (x default : string) : string :=
  if decide (x = EmptyString) then default else x.

(** ** The file system calls the program makes *)

(** The root always exists and is a directory. *)
Definition node_at (f : gmap path node) (p : path) : option node :=
  match p with
  | [] => Some Dir
  | _ => f !! p
  end.

(** [p.exists()] *)
Definition path_exists (f : gmap path node) (p : path) : bool :=
  match node_at f p with Some _ => true | None => false end.

(** [p.is_dir()] *)
Definition is_dir (f : gmap path node) (p : path) : bool :=
  match node_at f p with Some Dir => true | _ => false end.

(** Creates the missing directories along [todo] below [base]. *)
Fixpoint mkdir_chain (f : gmap path node) (base : path) (todo : list string)
  : exn + gmap path node :=
  match todo with
  | [] => inr f
  | c :: todo' =>
      let q := path_join base c in
      match f !! q with
      | Some Dir => mkdir_chain f q todo'
      | Some (File _) => inl NotADirectoryError
      | None => mkdir_chain (<[q := Dir]> f) q todo'
      end
  end.

(** [p.mkdir(parents=True)] *)
Definition mkdir_parents (p : path) : M unit :=
  f <- get_fs ;;
  if path_exists f p then raise FileExistsError
  else f' <- lift (mkdir_chain f [] p) ;; put_fs f'.

(** What opening a path for creation needs of its parent. *)
Definition parent_ready (f : gmap path node) (p : path) : M unit :=
  match node_at f (parent p) with
  | Some Dir => ret tt
  | Some (File _) => raise NotADirectoryError
  | None => raise FileNotFoundError
  end.

(** [p.touch(mode=0o666)] *)
Definition touch (p : path) : M unit :=
  f <- get_fs ;;
  match node_at f p with
  | Some _ => ret tt
  | None => parent_ready f p ;;; put_fs (<[p := File []]> f)
  end.

(** [p.open('wt')]: the file is created or truncated at once. *)
Definition open_wt (p : path) : M unit :=
  f <- get_fs ;;
  match node_at f p with
  | Some Dir => raise IsADirectoryError
  | Some (File _) => put_fs (<[p := File []]> f)
  | None => parent_ready f p ;;; put_fs (<[p := File []]> f)
  end.

(** Leaving the [with] block of a file opened with ['wt']: the file holds
    what was written to it. *)
Definition close_wt (p : path) (written : list string) : M unit :=
  f <- get_fs ;; put_fs (<[p := File written]> f).

(** [p.open('rt')] *)
Definition open_rt (p : path) : M unit :=
  f <- get_fs ;;
  match node_at f p with
  | Some (File _) => ret tt
  | Some Dir => raise IsADirectoryError
  | None => raise FileNotFoundError
  end.

(** The lines an open file yields when it is read from its start. *)
Definition read_lines (p : path) : M (list string) :=
  f <- get_fs ;;
  match node_at f p with
  | Some (File c) => ret c
  | Some Dir => raise IsADirectoryError
  | None => raise FileNotFoundError
  end.

(** [stat(p).st_size == 0] *)
Definition size_is_zero (p : path) : M bool :=
  f <- get_fs ;;
  match node_at f p with
  | Some (File c) => ret (bool_decide (c = []))
  | Some Dir => ret false
  | None => raise FileNotFoundError
  end.

(** The path [p] seen from [dst] when it lies at or below [src]. *)
Fixpoint rebase (src dst p : path) : path :=
  match src, p with
  | [], _ => dst ++ p
  | a :: src', b :: p' => if decide (a = b) then rebase src' dst p' else []
  | _ :: _, [] => []
  end.

Fixpoint below (src p : path) : bool :=
  match src, p with
  | [], _ => true
  | a :: src', b :: p' => bool_decide (a = b) && below src' p'
  | _ :: _, [] => false
  end.

Definition move_tree (src dst : path) (f : gmap path node) : gmap path node :=
  list_to_map
    (map (fun e : path * node =>
            if below src e.1 then (rebase src dst e.1, e.2) else e)
         (map_to_list f)).

Definition has_children (f : gmap path node) (p : path) : bool :=
  existsb (fun e : path * node => below p e.1 && negb (bool_decide (e.1 = p)))
          (map_to_list f).

(** [src.replace(dst)], that is [os.replace]: rename over the target. *)
Definition replace (src dst : path) : M unit :=
  f <- get_fs ;;
  match f !! src with
  | None => raise FileNotFoundError
  | Some (File c) =>
      match node_at f dst with
      | Some Dir => raise IsADirectoryError
      | Some (File _) => put_fs (<[dst := File c]> (delete src f))
      | None => parent_ready f dst ;;; put_fs (<[dst := File c]> (delete src f))
      end
  | Some Dir =>
      match node_at f dst with
      | Some (File _) => raise NotADirectoryError
      | Some Dir =>
          if has_children f dst then raise FileExistsError
          else put_fs (move_tree src dst (delete dst f))
      | None => parent_ready f dst ;;; put_fs (move_tree src dst f)
      end
  end.

(** [zf.extract(member, directory)]: the member is looked up by its full
    name in the archive; the directory is created when it is missing. *)
Definition zf_extract (zf : string -> option (list string))
    (member : string) (directory : path) : M unit :=
  match zf member with
  | None => raise KeyError
  | Some c =>
      f <- get_fs ;;
      f' <- lift (mkdir_chain f [] directory) ;;
      match node_at f' (path_join directory member) with
      | Some Dir => raise IsADirectoryError
      | _ => put_fs (<[path_join directory member := File c]> f')
      end
  end.

(** ** [check_file] *)

Definition check_file (p : path) : M unit :=
  f <- get_fs ;;
  if negb (path_exists f p) then
    (if negb (is_dir f (parent p))
     then mkdir_parents (parent p) ;;; append (FsPath (parent p)) MKDIR
     else ret tt) ;;;
    touch p ;;;
    append (FsPath p) TOUCH_FILE
  else ret tt.

(** The operator's reply counts as consent: [x in ('y', 'yes', 'Yes', 'Y', 'YES')]. *)
Definition in_yes (x : string) : bool :=
  bool_decide (x ∈ ["y"; "yes"; "Yes"; "Y"; "YES"]).

(** [l[a:b]] for indices within Python's non-negative range. *)
Definition slice {A} (l : list A) (a b : nat) : list A :=
  firstn (b - a) (skipn a l).

(** ** Locating the record in the archive's file

    The three cursors of the scans of [import_dcm] and [import_lib]. *)
Record cursors := mkCursors {
  index_start : option nat;
  index_end : option nat;
  index_header_start : option nat
}.

Definition no_cursors : cursors := mkCursors None None None.

Definition set_start (c : cursors) (i : nat) : cursors :=
  mkCursors (Some i) (index_end c) (index_header_start c).

Definition set_end (c : cursors) (i : nat) : cursors :=
  mkCursors (index_start c) (Some i) (index_header_start c).

Definition set_header (c : cursors) (h : option nat) : cursors :=
  mkCursors (index_start c) (index_end c) h.

(** The branch shared by both scans for a line that starts with [#] before
    the record is found: the first bare [#] opens the header. *)
Definition comment_line (c : cursors) (line : string) (idx : nat) : cursors :=
  if bool_decide (PyStr.strip line = "#") &&
     bool_decide (index_header_start c = None)
  then set_header c (Some idx)
  else c.

(** A double quote, as a string. *)
Definition dquote : string := String (ascii_of_nat 34) EmptyString.

(** The loop [for line_idx, line in enumerate(lib_lines)] of [import_lib].
    The list is updated at the index being visited only, so the updated
    list is returned element by element. *)
Fixpoint scan_lib (device : string) (remote_type : REMOTE_TYPES)
    (lib_lines : list string) (line_idx : nat) (c : cursors)
  : exn + (list string * cursors) :=
  match lib_lines with
  | [] => inr ([], c)
  | line :: rest =>
      let continue (line' : string) (c' : cursors) :=
        match scan_lib device remote_type rest (S line_idx) c' with
        | inl e => inl e
        | inr (ls, c'') => inr (line' :: ls, c'')
        end in
      match index_start c, index_end c with
      | None, _ =>
          if PyStr.startswith line "#" then
            continue line (comment_line c line line_idx)
          else if PyStr.startswith line "DEF " then
            match PyStr.split line with
            | _ :: component_name :: _ =>
                if negb (PyStr.startswith component_name device)
                then inl (Warning UnexpectedDevice)
                else continue (PyStr.replace1 component_name device line)
                              (set_start c line_idx)
            | _ => inl IndexError
            end
          else continue line (set_header c None)
      | Some _, None =>
          if PyStr.startswith line "F2" then
            match PyStr.split line with
            | _ :: footprint :: _ =>
                let footprint := PyStr.strip_chars dquote footprint in
                continue
                  (PyStr.replace1 footprint
                     (remote_name remote_type +:+ ":" +:+ footprint) line)
                  c
            | _ => inl IndexError
            end
          else if PyStr.startswith line "ENDDEF" then
            continue line (set_end c (line_idx + 1))
          else if PyStr.startswith line "F1 " then
            continue (PyStr.replace1 device device line) c
          else continue line c
      | Some _, Some _ =>
          if PyStr.startswith line "DEF "
          then inl (Warning MultipleDevices)
          else continue line c
      end
  end.

(** [raise Warning(... + dcm_path.name)]: evaluating the message fails
    first when there is no [dcm_path]. *)
Definition raise_named {A} (has_path : bool) (w : warning) : M A :=
  if has_path then raise (Warning w) else raise AttributeError.

(** The loop [for attribute_idx, attribute in enumerate(dcm_attributes)] of
    [import_dcm]; it asks for the description at each [D] line. *)
Fixpoint scan_dcm (device : string) (has_path : bool)
    (dcm_attributes : list string) (attribute_idx : nat) (c : cursors)
  : M (list string * cursors) :=
  match dcm_attributes with
  | [] => ret ([], c)
  | attribute :: rest =>
      let continue (attribute' : string) (c' : cursors) :=
        r <- scan_dcm device has_path rest (S attribute_idx) c' ;;
        ret (attribute' :: r.1, r.2) in
      match index_start c, index_end c with
      | None, _ =>
          if PyStr.startswith attribute "#" then
            continue attribute (comment_line c attribute attribute_idx)
          else if PyStr.startswith attribute "$CMP " then
            let component_name := PyStr.strip (PyStr.drop 5 attribute) in
            if negb (PyStr.startswith component_name device)
            then raise_named has_path UnexpectedDevice
            else continue (PyStr.replace1 component_name device attribute)
                          (set_start c attribute_idx)
          else continue attribute (set_header c None)
      | Some _, None =>
          if PyStr.startswith attribute "$CMP " then
            raise_named has_path MultipleDevices
          else if PyStr.startswith attribute "$ENDCMP" then
            continue attribute (set_end c (attribute_idx + 1))
          else if PyStr.startswith attribute "D" then
            let description := PyStr.strip (PyStr.drop 2 attribute) in
            reply <- input ;;
            let description := or_default reply description in
            if bool_decide (description = "")
            then continue attribute c
            else continue ("D " +:+ description) c
          else if PyStr.startswith attribute "F" then
            let datasheet := PyStr.strip (PyStr.drop 2 attribute) in
            if bool_decide (datasheet = "")
            then continue attribute c
            else continue ("F " +:+ datasheet) c
          else continue attribute c
      | Some _, Some _ => continue attribute c
      end
  end.

(** [lines[index_start if index_header_start is None else index_header_start : index_end]] *)
Definition record_with_header (lines : list string) (c : cursors) : list string :=
  match index_start c, index_end c with
  | Some s, Some e =>
      slice lines (match index_header_start c with None => s | Some h => h end) e
  | _, _ => []
  end.

(** [lines[index_start:index_end]] *)
Definition record_only (lines : list string) (c : cursors) : list string :=
  match index_start c, index_end c with
  | Some s, Some e => slice lines s e
  | _, _ => []
  end.

(** ** Streaming the target library into its staging file *)

(** How the body of a [with] block ends. *)
Inductive control :=
| Completed
| Skipped
| Raised (e : exn).

(** What a pass over the target leaves behind: how it ended, the lines it
    wrote to [writefile], and the replies not yet consumed. *)
Record pass := mkPass {
  ended : control;
  written : list string;
  replies_left : list string
}.

Definition emit (ls : list string) (p : pass) : pass :=
  mkPass (ended p) (ls ++ written p) (replies_left p).

(** The loop [for line in readfile] of [import_lib]. *)
Fixpoint merge_lib (device : string) (with_header record : list string)
    (readfile : list string) (overwrite_existing overwrote_existing : bool)
    (rs : list string) : pass :=
  match readfile with
  | [] => mkPass Completed [] rs
  | line :: rest =>
      if PyStr.match_end line then
        mkPass Completed
          ((if overwrote_existing then [] else with_header) ++ [line]) rs
      else if PyStr.startswith line "DEF " then
        match PyStr.split line with
        | _ :: component_name :: _ =>
            if PyStr.startswith component_name device then
              match rs with
              | [] => mkPass (Raised EOFError) [] rs
              | reply :: rs' =>
                  let yes := or_default reply "Yes" in
                  if PyStr.startswith "yes" (PyStr.lower yes) then
                    emit record (merge_lib device with_header record rest true true rs')
                  else mkPass Skipped [] rs'
              end
            else
              emit [line]
                (merge_lib device with_header record rest
                   overwrite_existing overwrote_existing rs)
        | _ => mkPass (Raised IndexError) [] rs
        end
      else if overwrite_existing then
        merge_lib device with_header record rest
          (negb (PyStr.startswith line "ENDDEF")) overwrote_existing rs
      else
        emit [line]
          (merge_lib device with_header record rest false overwrote_existing rs)
  end.

(** The loop [for line in readfile] of [import_dcm]. *)
Fixpoint merge_dcm (device : string) (with_header record : list string)
    (readfile : list string) (overwrite_existing overwrote_existing : bool)
    (rs : list string) : pass :=
  match readfile with
  | [] => mkPass Completed [] rs
  | line :: rest =>
      if PyStr.match_end line then
        mkPass Completed
          ((if overwrote_existing then [] else with_header) ++ [line]) rs
      else if PyStr.startswith line "$CMP " then
        let component_name := PyStr.strip (PyStr.drop 5 line) in
        if PyStr.startswith component_name device then
          match rs with
          | [] => mkPass (Raised EOFError) [] rs
          | reply :: rs' =>
              if in_yes (or_default reply "Yes") then
                emit record (merge_dcm device with_header record rest true true rs')
              else mkPass Skipped [] rs'
          end
        else
          emit [line]
            (merge_dcm device with_header record rest
               overwrite_existing overwrote_existing rs)
      else if overwrite_existing then
        merge_dcm device with_header record rest
          (negb (PyStr.startswith line "$ENDCMP")) overwrote_existing rs
      else
        emit [line]
          (merge_dcm device with_header record rest false overwrote_existing rs)
  end.

(** ** The archive

    The traversal of the zip file by [get_remote_info] is not modelled: an
    archive is given by what [get_remote_info] returns for it, with the
    text of each entry in place of its [zipfile.Path].  A directory entry
    is given by what [iterdir()] yields, or by the exception it raises. *)
Record remote_info := mkInfo {
  dcm_path : option (list string);
  lib_path : list string;
  footprint_path : exn + list (string * list string);
  model_path : exn + list string;
  remote_type : REMOTE_TYPES
}.

Record archive := mkArchive {
  zip_name : string;
  is_zipfile : bool;
  get_remote_info : exn + remote_info;
  zf : string -> option (list string)
}.

(** The attributes [import_dcm] makes up when the archive has no [.dcm]. *)
Definition default_dcm (device : string) : list string :=
  ["#"; "# " +:+ device; "#"; "$CMP " +:+ device; "D"; "F"; "$ENDCMP"].

Definition dcm_template : list string :=
  ["EESchema-DOCLIB  Version 2.0"; "#End Doc Library"].

Definition lib_template : list string :=
  ["EESchema-LIBRARY Version 2.4"; "#encoding utf-8"; "# End Library"].

(** The five lines of the model block of [import_footprint]. *)
Definition model_block (model_name : string) : list string :=
  ["  (model " +:+ dquote +:+ "${REMOTE_3DMODEL_DIR}/" +:+ model_name +:+ dquote;
   "    (offset (xyz 0 0 0))";
   "    (scale (xyz 1 1 1))";
   "    (rotate (xyz 0 0 0))";
   "  )"].

(** The loop [for line_idx, line in enumerate(lines)] of [import_footprint]. *)
Fixpoint footprint_loop (model : list string) (lines : list string)
    (line_idx len : nat) : list string :=
  match lines with
  | [] => []
  | line :: rest =>
      if decide (line_idx = len - 1) then model ++ [line]
      else line :: footprint_loop model rest (S line_idx) len
  end.

(** Asks the operator and tells whether the reply is a consent. *)
Definition confirm : M bool :=
  reply <- input ;; ret (in_yes (or_default reply "Yes")).

Section Program.

(** The constants of the [config] module. *)
Variable REMOTE_LIB_PATH : path.
Variable REMOTE_FOOTPRINTS_PATH : path.
Variable REMOTE_3DMODEL_PATH : path.

Definition dcm_file_read (rt : REMOTE_TYPES) : path :=
  path_join REMOTE_LIB_PATH (remote_name rt +:+ ".dcm").

Definition dcm_file_write (rt : REMOTE_TYPES) : path :=
  path_join REMOTE_LIB_PATH (remote_name rt +:+ ".dcm~").

Definition lib_file_read (rt : REMOTE_TYPES) : path :=
  path_join REMOTE_LIB_PATH (remote_name rt +:+ ".lib").

Definition lib_file_write (rt : REMOTE_TYPES) : path :=
  path_join REMOTE_LIB_PATH (remote_name rt +:+ ".lib~").

Definition footprint_write_path (rt : REMOTE_TYPES) : path :=
  path_join REMOTE_FOOTPRINTS_PATH (remote_name rt +:+ ".pretty").

Definition footprint_file_read (rt : REMOTE_TYPES) (name : string) : path :=
  path_join (footprint_write_path rt) name.

Definition footprint_file_write (rt : REMOTE_TYPES) (name : string) : path :=
  path_join (footprint_write_path rt) (name +:+ "~").

(** The [with] blocks of [import_dcm] and [import_lib]: both files are
    open, an empty target first receives the template, the target is
    streamed by [loop], and on every way out the staging file holds what was
    written to it. *)
Definition stream (read write : path) (template : list string)
    (loop : list string -> list string -> pass) : M (path * path) :=
  open_rt read ;;;
  open_wt write ;;;
  empty <- size_is_zero read ;;
  (if empty : bool then open_wt read ;;; close_wt read template else ret tt) ;;;
  readfile <- read_lines read ;;
  rs <- get_replies ;;
  let p := loop readfile rs in
  put_replies (replies_left p) ;;;
  close_wt write (written p) ;;;
  match ended p with
  | Raised e => raise e
  | Completed | Skipped => ret (read, write)
  end.

Definition import_dcm (device : string) (rt : REMOTE_TYPES)
    (dcm : option (list string)) : M (path * path) :=
  let has_path := bool_decide (is_Some dcm) in
  r <- scan_dcm device has_path
         (match dcm with Some ls => ls | None => default_dcm device end)
         0 no_cursors ;;
  let dcm_attributes := r.1 in
  let c := r.2 in
  (if bool_decide (index_end c = None)
   then raise_named has_path DeviceNotFound else ret tt) ;;;
  check_file (dcm_file_read rt) ;;;
  check_file (dcm_file_write rt) ;;;
  stream (dcm_file_read rt) (dcm_file_write rt) dcm_template
    (fun readfile rs =>
       merge_dcm device (record_with_header dcm_attributes c)
         (record_only dcm_attributes c) readfile false false rs).

(** The loop [for model_dir_item in model_path.iterdir()]. *)
Fixpoint import_model_items (items : list string)
    (zf : string -> option (list string)) : M (option string) :=
  match items with
  | [] => ret None
  | name :: rest =>
      if PyStr.endswith name ".step" then
        f <- get_fs ;;
        go <- (if path_exists f (path_join REMOTE_3DMODEL_PATH name)
               then confirm else ret true) ;;
        if go : bool then
          zf_extract zf name REMOTE_3DMODEL_PATH ;;;
          append (ZipPath name) EXTRACTED_FILE ;;;
          ret (Some name)
        else ret None
      else import_model_items rest zf
  end.

Definition import_model (model : exn + list string)
    (zf : string -> option (list string)) : M (option string) :=
  f <- get_fs ;;
  (if negb (is_dir f REMOTE_3DMODEL_PATH)
   then mkdir_parents REMOTE_3DMODEL_PATH ;;;
        append (FsPath REMOTE_3DMODEL_PATH) MKDIR
   else ret tt) ;;;
  items <- lift model ;;
  import_model_items items zf.

(** The loop [for footprint_path_item in footprint_path.iterdir()]; [cur]
    holds [footprint_file_read] and [footprint_file_write]. *)
Fixpoint import_footprint_items (rt : REMOTE_TYPES)
    (items : list (string * list string)) (found_model : option string)
    (cur : option (path * path)) : M (option (path * path)) :=
  match items with
  | [] => ret cur
  | (name, footprint) :: rest =>
      if PyStr.endswith name ".kicad_mod" || PyStr.endswith name ".mod" then
        let read := footprint_file_read rt name in
        let write := footprint_file_write rt name in
        match found_model with
        | Some model_name =>
            f <- get_fs ;;
            go <- (if path_exists f read then confirm else ret true) ;;
            if go : bool then
              check_file read ;;;
              open_wt read ;;;
              close_wt read footprint ;;;
              check_file write ;;;
              open_rt read ;;;
              open_wt write ;;;
              _ <- size_is_zero read ;;
              lines <- read_lines read ;;
              close_wt write
                (footprint_loop (model_block model_name) lines 0 (length lines)) ;;;
              import_footprint_items rt rest found_model (Some (read, write))
            else ret (Some (read, write))
        | None =>
            open_wt read ;;;
            close_wt read footprint ;;;
            import_footprint_items rt rest found_model (Some (read, write))
        end
      else import_footprint_items rt rest found_model cur
  end.

Definition import_footprint (rt : REMOTE_TYPES)
    (footprints : exn + list (string * list string))
    (found_model : option string) : M (option (path * path)) :=
  items <- lift footprints ;;
  import_footprint_items rt items found_model None.

Definition import_lib (device : string) (rt : REMOTE_TYPES)
    (lib : list string) : M (path * path) :=
  r <- lift (scan_lib device rt lib 0 no_cursors) ;;
  let lib_lines := r.1 in
  let c := r.2 in
  (if bool_decide (index_end c = None)
   then raise (Warning DeviceNotFound) else ret tt) ;;;
  check_file (lib_file_read rt) ;;;
  check_file (lib_file_write rt) ;;;
  stream (lib_file_read rt) (lib_file_write rt) lib_template
    (fun readfile rs =>
       merge_lib device (record_with_header lib_lines c)
         (record_only lib_lines c) readfile false false rs).

(** [zip_file.name[:-4]] *)
Definition device_of (name : string) : string :=
  PyStr.take (String.length name - 4) name.

Definition import_all (zip_file : archive) : M (option string) :=
  if negb (is_zipfile zip_file) then ret None
  else
    let device := device_of (zip_name zip_file) in
    info <- lift (get_remote_info zip_file) ;;
    d <- import_dcm device (remote_type info) (dcm_path info) ;;
    found_model <- import_model (model_path info) (zf zip_file) ;;
    fp <- import_footprint (remote_type info) (footprint_path info) found_model ;;
    l <- import_lib device (remote_type info) (lib_path info) ;;
    (* replace read files with write files only after all operations succeeded *)
    replace d.2 d.1 ;;;
    match fp with
    | Some (read, write) => replace write read
    | None => raise AttributeError
    end ;;;
    replace l.2 l.1 ;;;
    ret (Some "OK:").

End Program.

(** ** The target loops, seen line by line

    What the [if]/[elif] chain of the loop over the target does with a line
    depends on four tests only; [classify_lib] and [classify_dcm] name their
    outcome. *)
Inductive line_class :=
| Trailer       (* matches ['# *end '] *)
| Opens         (* opens a record whose name starts with the device *)
| OtherRecord   (* opens a record of another name *)
| Broken (e : exn)   (* the name cannot be read *)
| Closes        (* closes a record *)
| Plain.

Definition classify_lib (device line : string) : line_class :=
  if PyStr.match_end line then Trailer
  else if PyStr.startswith line "DEF " then
    match PyStr.split line with
    | _ :: component_name :: _ =>
        if PyStr.startswith component_name device then Opens else OtherRecord
    | _ => Broken IndexError
    end
  else if PyStr.startswith line "ENDDEF" then Closes
  else Plain.

Definition classify_dcm (device line : string) : line_class :=
  if PyStr.match_end line then Trailer
  else if PyStr.startswith line "$CMP " then
    if PyStr.startswith (PyStr.strip (PyStr.drop 5 line)) device
    then Opens else OtherRecord
  else if PyStr.startswith line "$ENDCMP" then Closes
  else Plain.

(** The replies that [import_lib] and [import_dcm] take as a consent. *)
Definition lib_yes (reply : string) : bool :=
  PyStr.startswith "yes" (PyStr.lower (or_default reply "Yes")).

Definition dcm_yes (reply : string) : bool :=
  in_yes (or_default reply "Yes").

(** A line that is copied when no record is being replaced. *)
Definition passes (k : line_class) : bool :=
  match k with
  | OtherRecord | Closes | Plain => true
  | _ => false
  end.

Section Merge.

Variable classify : string -> line_class.
Variable yes : string -> bool.
Variables with_header record : list string.

(** Both loops, over the classes of the lines. *)
Fixpoint merge_gen (readfile : list string)
    (overwrite_existing overwrote_existing : bool) (rs : list string) : pass :=
  match readfile with
  | [] => mkPass Completed [] rs
  | line :: rest =>
      match classify line with
      | Trailer =>
          mkPass Completed
            ((if overwrote_existing then [] else with_header) ++ [line]) rs
      | Opens =>
          match rs with
          | [] => mkPass (Raised EOFError) [] rs
          | reply :: rs' =>
              if yes reply
              then emit record (merge_gen rest true true rs')
              else mkPass Skipped [] rs'
          end
      | OtherRecord =>
          emit [line] (merge_gen rest overwrite_existing overwrote_existing rs)
      | Broken e => mkPass (Raised e) [] rs
      | Closes =>
          if overwrite_existing
          then merge_gen rest false overwrote_existing rs
          else emit [line] (merge_gen rest false overwrote_existing rs)
      | Plain =>
          if overwrite_existing
          then merge_gen rest true overwrote_existing rs
          else emit [line] (merge_gen rest false overwrote_existing rs)
      end
  end.

End Merge.

(** ** One line of the scans

    The body of the loop of [scan_lib], for one line. *)
Definition lib_step (device : string) (remote_type : REMOTE_TYPES)
    (line : string) (line_idx : nat) (c : cursors) : exn + (string * cursors) :=
  match index_start c, index_end c with
  | None, _ =>
      if PyStr.startswith line "#" then
        inr (line, comment_line c line line_idx)
      else if PyStr.startswith line "DEF " then
        match PyStr.split line with
        | _ :: component_name :: _ =>
            if negb (PyStr.startswith component_name device)
            then inl (Warning UnexpectedDevice)
            else inr (PyStr.replace1 component_name device line,
                      set_start c line_idx)
        | _ => inl IndexError
        end
      else inr (line, set_header c None)
  | Some _, None =>
      if PyStr.startswith line "F2" then
        match PyStr.split line with
        | _ :: footprint :: _ =>
            let footprint := PyStr.strip_chars dquote footprint in
            inr (PyStr.replace1 footprint
                   (remote_name remote_type +:+ ":" +:+ footprint) line, c)
        | _ => inl IndexError
        end
      else if PyStr.startswith line "ENDDEF" then
        inr (line, set_end c (line_idx + 1))
      else if PyStr.startswith line "F1 " then
        inr (PyStr.replace1 device device line, c)
      else inr (line, c)
  | Some _, Some _ =>
      if PyStr.startswith line "DEF "
      then inl (Warning MultipleDevices)
      else inr (line, c)
  end.

(** The body of the loop of [scan_dcm], for one line. *)
Definition dcm_step (device : string) (has_path : bool)
    (attribute : string) (attribute_idx : nat) (c : cursors)
  : M (string * cursors) :=
  match index_start c, index_end c with
  | None, _ =>
      if PyStr.startswith attribute "#" then
        ret (attribute, comment_line c attribute attribute_idx)
      else if PyStr.startswith attribute "$CMP " then
        let component_name := PyStr.strip (PyStr.drop 5 attribute) in
        if negb (PyStr.startswith component_name device)
        then raise_named has_path UnexpectedDevice
        else ret (PyStr.replace1 component_name device attribute,
                  set_start c attribute_idx)
      else ret (attribute, set_header c None)
  | Some _, None =>
      if PyStr.startswith attribute "$CMP " then
        raise_named has_path MultipleDevices
      else if PyStr.startswith attribute "$ENDCMP" then
        ret (attribute, set_end c (attribute_idx + 1))
      else if PyStr.startswith attribute "D" then
        let description := PyStr.strip (PyStr.drop 2 attribute) in
        reply <- input ;;
        let description := or_default reply description in
        if bool_decide (description = "")
        then ret (attribute, c)
        else ret ("D " +:+ description, c)
      else if PyStr.startswith attribute "F" then
        let datasheet := PyStr.strip (PyStr.drop 2 attribute) in
        if bool_decide (datasheet = "")
        then ret (attribute, c)
        else ret ("F " +:+ datasheet, c)
      else ret (attribute, c)
  | Some _, Some _ => ret (attribute, c)
  end.

(** The cursors are consistent with [n] lines having been visited. *)
Definition cursors_ok (n : nat) (c : cursors) : Prop :=
  (forall h, index_header_start c = Some h ->
     h < n /\ forall s, index_start c = Some s -> h < s) /\
  (forall s, index_start c = Some s -> s < n) /\
  (forall e, index_end c = Some e ->
     e <= n /\ exists s, index_start c = Some s /\ s < e).

(** Cursors that are set stay as they are, and a record found later starts
    at a later line. *)
Definition cursors_later (n : nat) (c c' : cursors) : Prop :=
  (forall s, index_start c = Some s -> index_start c' = Some s) /\
  (forall e, index_end c = Some e -> index_end c' = Some e) /\
  (index_start c = None -> forall s, index_start c' = Some s -> n <= s).

(** Two states with the same file system and the same ledger. *)
Definition same_store (s s' : state) : Prop :=
  fs s' = fs s /\ modified_objects s' = modified_objects s.

(** ** The footprint field of the end-to-end example *)

Definition field_F2_FP1 : string := "F2 " +:+ dquote +:+ "FP1" +:+ dquote.

Definition field_F2_SAMACSYS_FP1 : string :=
  "F2 " +:+ dquote +:+ "SAMACSYS:FP1" +:+ dquote.

(** What may follow the quoted value on its line: nothing, or blank-separated
    further columns. *)
Definition starts_blank (rest : string) : bool :=
  match rest with
  | EmptyString => true
  | String ch _ => PyStr.isspace ch
  end.

(** ** Lines of the archive's record, as the scan of [import_lib] needs them

    A line between the opening and the closing line: a footprint field has
    a value to read, and no other line closes the record. *)
Definition lib_field_ok (line : string) : bool :=
  if PyStr.startswith line "F2" then
    match PyStr.split line with
    | _ :: _ :: _ => true
    | _ => false
    end
  else negb (PyStr.startswith line "ENDDEF").

(** A line between [$CMP] and [$ENDCMP] that neither opens nor closes. *)
Definition dcm_field_ok (line : string) : bool :=
  negb (PyStr.startswith line "$CMP ") && negb (PyStr.startswith line "$ENDCMP").

(** ** The ledger over a run *)

(** The ledger after the appends [adds], made in that order. *)
Definition appended (adds : list (obj * Modification)) (d : ModifiedObject)
  : ModifiedObject :=
  fold_left (fun acc kv => dict_set acc kv.1 kv.2) adds d.

(** From [s] to [s'] the ledger has only been appended to, and never with
    [MODIFIED_FILE]. *)
Definition logs_only (s s' : state) : Prop :=
  exists adds,
    modified_objects s' = appended adds (modified_objects s) /\
    Forall (fun kv => kv.2 <> MODIFIED_FILE) adds.

(** A computation that only appends to the ledger. *)
Definition logging {A} (c : M A) : Prop := forall s, logs_only s (c s).2.

(** From [s] to [s'] the path [p] holds the same. *)
Definition unchanged_at (p : path) (s s' : state) : Prop :=
  fs s' !! p = fs s !! p.

(** A computation that leaves the path [p] alone. *)
Definition leaves {A} (p : path) (c : M A) : Prop :=
  forall s, unchanged_at p s (c s).2.

(** The name of a footprint file, as [import_footprint] tests it. *)
Definition is_footprint_name (name : string) : bool :=
  PyStr.endswith name ".kicad_mod" || PyStr.endswith name ".mod".

(** The pair of paths [import_footprint] returns, when it returns one, is
    that of a footprint file. *)
Definition footprint_pair (FPS : path) (rt : REMOTE_TYPES)
    (o : option (path * path)) : Prop :=
  match o with
  | None => True
  | Some (r, w) =>
      exists name, is_footprint_name name = true /\
                   r = footprint_file_read FPS rt name /\
                   w = footprint_file_write FPS rt name
  end.

(** What the scan of [import_lib] makes of a line between the opening and
    the closing line of the record. *)
Definition lib_field (device : string) (remote_type : REMOTE_TYPES)
    (line : string) : string :=
  if PyStr.startswith line "F2" then
    match PyStr.split line with
    | _ :: footprint :: _ =>
        PyStr.replace1 (PyStr.strip_chars dquote footprint)
          (remote_name remote_type +:+ ":" +:+ PyStr.strip_chars dquote footprint)
          line
    | _ => line
    end
  else if PyStr.startswith line "ENDDEF" then line
  else if PyStr.startswith line "F1 " then PyStr.replace1 device device line
  else line.

(** A header block: lines that start with [#], the first of them a bare
    [#]. *)
Definition header_block (hdr : list string) : Prop :=
  match hdr with
  | [] => True
  | h :: _ =>
      PyStr.strip h = "#" /\
      Forall (fun l => PyStr.startswith l "#" = true) hdr
  end.

(** ** The replacement as the specification words it

    A second definition, after the words of the specification (its sections
    4.1 and 8) and not after the code, to be compared with [merge_lib]: the
    record of the device is located in the target as it is in the archive's
    file, and the range [headerStart ?? start, end) of the target is
    replaced by the located source record. *)
Definition spec_replace_with_header (device : string) (rt : REMOTE_TYPES)
    (source target : list string) : option (list string) :=
  match scan_lib device rt source 0 no_cursors,
        scan_lib device rt target 0 no_cursors with
  | inr (ls, c), inr (_, ct) =>
      match index_start ct, index_end ct with
      | Some s, Some e =>
          Some (firstn (default s (index_header_start ct)) target ++
                record_with_header ls c ++ skipn e target)
      | _, _ => None
      end
  | _, _ => None
  end.

(** ** Concrete archives and library directories *)

Module Example.

Definition LIB : path := ["kicad"; "lib"].
Definition FPS : path := ["kicad"; "footprints"].
Definition M3D : path := ["kicad"; "3d"].

Definition quoted (s : string) : string := dquote +:+ s +:+ dquote.

(** The symbol file of an archive for the device LM358. *)
Definition lm358_lib : list string :=
  ["EESchema-LIBRARY Version 2.3";
   "#encoding utf-8";
   "#";
   "# LM358";
   "#";
   "DEF LM358 U 0 40 Y Y 1 F N";
   "F0 " +:+ quoted "U" +:+ " 0 0 50 H V C CNN";
   "F1 " +:+ quoted "LM358" +:+ " 0 -100 50 H V C CNN";
   field_F2_FP1 +:+ " 0 0 50 H I C CNN";
   "DRAW";
   "ENDDRAW";
   "ENDDEF";
   "#";
   "#End Library"].

(** The same record without a header block. *)
Definition lm358_lib_bare : list string :=
  ["EESchema-LIBRARY Version 2.3";
   "DEF LM358 U 0 40 Y Y 1 F N";
   field_F2_FP1 +:+ " 0 0 50 H I C CNN";
   "ENDDEF";
   "#End Library"].

(** The same record under a header that has a comment on the end of the
    part's life. *)
Definition lm358_lib_commented : list string :=
  ["EESchema-LIBRARY Version 2.3";
   "#";
   "# LM358";
   "# end of life announced";
   "#";
   "DEF LM358 U 0 40 Y Y 1 F N";
   "ENDDEF";
   "#End Library"].

(** A symbol file in which a second [DEF] line comes before [ENDDEF]. *)
Definition lm358_lib_nested : list string :=
  ["DEF LM358 U 0 40 Y Y 1 F N";
   "DEF LM358_2 U 0 40 Y Y 1 F N";
   "ENDDEF"].

(** A symbol file for another device. *)
Definition other_lib : list string :=
  ["DEF NE555 U 0 40 Y Y 1 F N"; "ENDDEF"].

Definition lm358_dcm : list string :=
  ["EESchema-DOCLIB  Version 2.0";
   "#";
   "$CMP LM358";
   "D Dual Op-Amp";
   "F http://x/lm358.pdf";
   "$ENDCMP";
   "#";
   "#End Doc Library"].

Definition fp1 : string * list string :=
  ("FP1.kicad_mod", ["(module FP1"; "  (fp_text reference REF**)"; ")"]).

Definition members (name : string) : option (list string) :=
  if decide (name = "part.step") then Some ["ISO-10303-21;"] else None.

Definition info_of (lib : list string) (model : list string) : remote_info :=
  mkInfo (Some lm358_dcm) lib (inr [fp1]) (inr model) SAMACSYS.

(** An archive with a 3D model, and the same archive without. *)
Definition zip_with_model : archive :=
  mkArchive "LM358.zip" true (inr (info_of lm358_lib ["part.step"])) members.

Definition zip_without_model : archive :=
  mkArchive "LM358.zip" true (inr (info_of lm358_lib [])) members.

Definition zip_commented : archive :=
  mkArchive "LM358.zip" true
    (inr (info_of lm358_lib_commented ["part.step"])) members.

(** An archive without a model whose symbol file is for another device. *)
Definition zip_other_device : archive :=
  mkArchive "LM358.zip" true (inr (info_of other_lib [])) members.

(** Library files that hold a record of the device already. *)
Definition old_lib : list string :=
  ["EESchema-LIBRARY Version 2.4";
   "#encoding utf-8";
   "#";
   "# LM358 (first revision)";
   "#";
   "DEF LM358 U 0 40 Y Y 1 F N";
   "DRAW";
   "ENDDRAW";
   "ENDDEF";
   "#";
   "# NE555";
   "#";
   "DEF NE555 U 0 40 Y Y 1 F N";
   "ENDDEF";
   "#";
   "# End Library"].

(** A library with the record of another device. *)
Definition ne555_lib : list string :=
  ["EESchema-LIBRARY Version 2.4";
   "#encoding utf-8";
   "#";
   "# NE555";
   "#";
   "DEF NE555 U 0 40 Y Y 1 F N";
   "ENDDEF";
   "#";
   "# End Library"].

(** A library with the record of the device only, under its own header. *)
Definition single_lib : list string :=
  ["EESchema-LIBRARY Version 2.4";
   "#encoding utf-8";
   "#";
   "# LM358 (first revision)";
   "#";
   "DEF LM358 U 0 40 Y Y 1 F N";
   "DRAW";
   "ENDDRAW";
   "ENDDEF";
   "#";
   "# End Library"].

(** The record of [lm358_lib_bare] as [import_lib] writes it. *)
Definition lm358_record_bare : list string :=
  ["DEF LM358 U 0 40 Y Y 1 F N";
   field_F2_SAMACSYS_FP1 +:+ " 0 0 50 H I C CNN";
   "ENDDEF"].

(** A library in which a second [DEF] line comes before [ENDDEF]. *)
Definition nested_lib : list string :=
  ["EESchema-LIBRARY Version 2.4";
   "DEF NE555 U 0 40 Y Y 1 F N";
   "DEF NE556 U 0 40 Y Y 1 F N";
   "ENDDEF";
   "# End Library"].

Definition old_dcm : list string :=
  ["EESchema-DOCLIB  Version 2.0";
   "#";
   "$CMP NE555";
   "D Timer";
   "$ENDCMP";
   "#End Doc Library"].

Definition old_footprint : list string := ["(module FP1 (old)"; ")"].

Definition dirs : list (path * node) :=
  [(["kicad"], Dir); (LIB, Dir); (FPS, Dir); (M3D, Dir);
   (footprint_write_path FPS SAMACSYS, Dir)].

(** The library directories with a symbol and a documentation library. *)
Definition fs_of (lib : list string) : gmap path node :=
  list_to_map
    (dirs ++ [(lib_file_read LIB SAMACSYS, File lib);
              (dcm_file_read LIB SAMACSYS, File old_dcm)]).

(** The same with the footprint file of an earlier import. *)
Definition fs_with_footprint : gmap path node :=
  <[footprint_file_read FPS SAMACSYS "FP1.kicad_mod" := File old_footprint]>
    (fs_of old_lib).

(** The same with a staging file that an earlier, failed run has left. *)
Definition fs_with_stale_staging : gmap path node :=
  <[footprint_file_write FPS SAMACSYS "FP1.kicad_mod" := File old_footprint]>
    (fs_of lib_template).

Definition start (f : gmap path node) (rs : list string) : state :=
  mkState f [] rs.

(** The lines and the cursors the scan of [lm358_lib] ends with. *)
Definition lm358_lines : list string :=
  ["EESchema-LIBRARY Version 2.3";
   "#encoding utf-8";
   "#";
   "# LM358";
   "#";
   "DEF LM358 U 0 40 Y Y 1 F N";
   "F0 " +:+ quoted "U" +:+ " 0 0 50 H V C CNN";
   "F1 " +:+ quoted "LM358" +:+ " 0 -100 50 H V C CNN";
   field_F2_SAMACSYS_FP1 +:+ " 0 0 50 H I C CNN";
   "DRAW";
   "ENDDRAW";
   "ENDDEF";
   "#";
   "#End Library"].

Definition lm358_cursors : cursors := mkCursors (Some 5) (Some 12) (Some 2).

(** The symbol library after a first import of [lm358_lib] into an empty
    library. *)
Definition imported_lib : list string :=
  ["EESchema-LIBRARY Version 2.4";
   "#encoding utf-8";
   "#";
   "# LM358";
   "#";
   "DEF LM358 U 0 40 Y Y 1 F N";
   "F0 " +:+ quoted "U" +:+ " 0 0 50 H V C CNN";
   "F1 " +:+ quoted "LM358" +:+ " 0 -100 50 H V C CNN";
   field_F2_SAMACSYS_FP1 +:+ " 0 0 50 H I C CNN";
   "DRAW";
   "ENDDRAW";
   "ENDDEF";
   "# End Library"].

(** A documentation file in which a second [$CMP] line comes before
    [$ENDCMP]. *)
Definition nested_dcm : list string :=
  ["#"; "$CMP LM358"; "D Dual Op-Amp"; "$CMP LM358N"; "$ENDCMP"].

(** A symbol file with a second record after the first. *)
Definition two_records_lib : list string :=
  ["DEF LM358 U 0 40 Y Y 1 F N"; "ENDDEF";
   "DEF LM358N U 0 40 Y Y 1 F N"; "ENDDEF"].

(** The stages of a run on [zip_without_model], one after the other. *)
Definition run_start : state := start (fs_of lib_template) [""].

Definition after_dcm : state :=
  (import_dcm LIB "LM358" SAMACSYS (Some lm358_dcm) run_start).2.

Definition after_model : state :=
  (import_model M3D (inr []) members after_dcm).2.

Definition after_footprint : state :=
  (import_footprint FPS SAMACSYS (inr [fp1]) None after_model).2.

Definition after_lib : state :=
  (import_lib LIB "LM358" SAMACSYS lm358_lib after_footprint).2.

(** The state a run ends in. *)
Definition after (zip : archive) (s : state) : state :=
  (import_all LIB FPS M3D zip s).2.

(** Two runs on [zip_commented], the second on what the first has left; the
    operator keeps the description and consents to every overwrite. *)
Definition first_import : state :=
  after zip_commented (start (fs_of lib_template) [""]).

Definition second_import : state :=
  after zip_commented (start (fs first_import) [""; "y"; "y"; "y"; "y"]).

(** A documentation library that holds a record of the device already. *)
Definition lm358_doc : list string :=
  ["EESchema-DOCLIB  Version 2.0";
   "#";
   "$CMP LM358";
   "D Op-amp (first revision)";
   "K opamp";
   "$ENDCMP";
   "#";
   "#End Doc Library"].

Definition fs_with_doc : gmap path node :=
  <[dcm_file_read LIB SAMACSYS := File lm358_doc]> (fs_of single_lib).

End Example.
(** ** The fields of a documentation record

    What the scan of [import_dcm] makes of the lines between the opening
    and the closing line of the record, and what it leaves of the replies:
    one reply is taken at each line that starts with [D], in order.
    [None] when the replies run out. *)
Fixpoint dcm_fields (body rs : list string)
  : option (list string * list string) :=
  match body with
  | [] => Some ([], rs)
  | attribute :: rest =>
      if PyStr.startswith attribute "D" then
        match rs with
        | [] => None
        | reply :: rs' =>
            let description :=
              or_default reply (PyStr.strip (PyStr.drop 2 attribute)) in
            match dcm_fields rest rs' with
            | Some (fields, rs'') =>
                Some ((if bool_decide (description = "") then attribute
                       else "D " +:+ description) :: fields, rs'')
            | None => None
            end
        end
      else
        match dcm_fields rest rs with
        | Some (fields, rs') =>
            Some ((if PyStr.startswith attribute "F" then
                     let datasheet := PyStr.strip (PyStr.drop 2 attribute) in
                     if bool_decide (datasheet = "") then attribute
                     else "F " +:+ datasheet
                   else attribute) :: fields, rs')
        | None => None
        end
  end.

(** A comment line that cannot open a header block. *)
Definition is_note (line : string) : bool :=
  PyStr.startswith line "#" && negb (bool_decide (PyStr.strip line = "#")).

(** * The prompt, the archive and the main program

    The parts of [kicad-import.py] around the stages: [xinput], [Select],
    [warning_handler], [unzip], [get_remote_info] and the main block. *)

(** ** The prompt

    [reply.find('~')]: the index of the first occurrence of the character,
    or -1. *)
Fixpoint find (ch : ascii) (s : string) : Z :=
  match s with
  | EmptyString => (-1)%Z
  | String c s' =>
      if Ascii.eqb c ch then 0%Z
      else let i := find ch s' in
           if (i <? 0)%Z then (-1)%Z else (i + 1)%Z
  end.

(** [xinput(prompt)] *)
Definition xinput : M string :=
  reply <- input ;;
  let index := (find "~" reply + 1)%Z in
  ret (PyStr.drop (Z.to_nat index) reply).

(** [class Select]: the candidates, and the attribute [_pre], which exists
    once [complete] has been called with state 0. *)
Record Select := mkSelect {
  _select : list string;
  _pre : option (list string)
}.

(** [Select.__call__] *)
Definition Select_call : M string :=
  reply <- xinput ;; ret (PyStr.strip reply).

(** [Select.complete(text, state)], for the states 0, 1, 2, ... that
    readline passes: the value returned and the object afterwards. *)
Definition complete (self : Select) (text : string) (state : nat)
  : (exn + option string) * Select :=
  let self :=
    if decide (state = 0) then
      mkSelect (_select self)
        (Some (if negb (bool_decide (text = ""))
               then List.filter
                      (fun s => negb (bool_decide (s = "")) &&
                                PyStr.startswith s text)
                      (_select self)
               else _select self))
    else self in
  match _pre self with
  | None => (inl AttributeError, self)
  | Some pre => (inr (pre !! state), self)
  end.

(** What readline is given at [state], the states being asked from 0 on. *)
Definition offered (self : Select) (text : string) (state : nat)
  : exn + option string :=
  (complete (complete self text 0).2 text state).1.

(** [warning_handler(w)]: the modifications are shown and the operator is
    asked; nothing is undone on either answer. *)
Definition warning_handler : M unit :=
  reply <- input ;;
  let decision := or_default reply "No" in
  if in_yes decision then ret tt else ret tt.

(** ** The tree of an archive

    [unzip] and [get_remote_info] walk the archive through [zipfile.Path].
    They are rendered over the tree of the archive's entries; what they
    return are paths into that tree.  The record [archive] above holds, for
    the stages of [import_all], what these paths give when they are read or
    listed. *)

Module Zip.

(** An entry of the archive: a member file with its lines, or a directory
    with its entries in the order of the archive.  The names of the entries
    of one directory are taken to be distinct. *)
#[warnings="-register-all"]
Inductive entry :=
| Member (name : string) (text : list string)
| Folder (name : string) (children : list entry).

(** A [zipfile.Path]: an entry of the archive, or a path under which the
    archive holds nothing. *)
Inductive Path :=
| At (e : entry)
| Missing (name : string).

Definition entry_name (e : entry) : string :=
  match e with
  | Member n _ => n
  | Folder n _ => n
  end.

(** [p.name] *)
Definition name (p : Path) : string :=
  match p with
  | At e => entry_name e
  | Missing n => n
  end.

(** [p.exists()] *)
Definition exists_ (p : Path) : bool :=
  match p with
  | At _ => true
  | Missing _ => false
  end.

(** [p.is_dir()] *)
Definition is_dir (p : Path) : bool :=
  match p with
  | At (Folder _ _) => true
  | _ => false
  end.

(** [p.iterdir()] *)
Definition iterdir (p : Path) : exn + list entry :=
  match p with
  | At (Folder _ children) => inr children
  | _ => inl ValueError
  end.

(** [p / name] *)
Definition joinpath (p : Path) (child : string) : Path :=
  match p with
  | At (Folder _ children) =>
      match List.find (fun e => bool_decide (entry_name e = child)) children with
      | Some e => At e
      | None => Missing child
      end
  | _ => Missing child
  end.

(** The inner function [zipper] of [unzip]: [Some p] when [Catch(p)] is
    raised, [None] when the call returns. *)
Fixpoint zipper (suffix : string) (parent : entry) : option entry :=
  if PyStr.endswith (entry_name parent) suffix then Some parent
  else
    match parent with
    | Member _ _ => None
    | Folder _ children =>
        (fix each (children : list entry) : option entry :=
           match children with
           | [] => None
           | child :: rest =>
               match zipper suffix child with
               | Some p => Some p
               | None => each rest
               end
           end) children
    end.

(** [unzip(root, suffix)] *)
Definition unzip (root : Path) (suffix : string) : option Path :=
  match root with
  | At e =>
      match zipper suffix e with
      | Some p => Some (At p)
      | None => None
      end
  | Missing n => if PyStr.endswith n suffix then Some root else None
  end.

(** The tuple [get_remote_info] returns; [None] is Python's [None]. *)
Record remote_paths := mkPaths {
  dcm_path : option Path;
  lib_path : Path;
  footprint_path : Path;
  model_path : option Path;
  remote_type : REMOTE_TYPES
}.

Definition get_remote_info (root_path : Path) : exn + remote_paths :=
  let dcm_path := joinpath root_path "device.dcm" in
  let lib_path := joinpath root_path "device.lib" in
  let footprint_path := joinpath root_path "device.pretty" in
  let model_path := joinpath root_path "device.step" in
  if exists_ dcm_path && exists_ lib_path && exists_ footprint_path then
    inr (mkPaths (Some dcm_path) lib_path footprint_path (Some model_path)
           OCTOPART)
  else
    match unzip root_path "KiCad" with
    | Some directory =>
        match unzip directory ".dcm", unzip directory ".lib" with
        | Some dcm_path, Some lib_path =>
            inr (mkPaths (Some dcm_path) lib_path directory (Some model_path)
                   SAMACSYS)
        | _, _ => inl AssertionError
        end
    | None =>
        let directory := joinpath root_path "KiCAD" in
        if exists_ directory then
          let dcm_path := unzip directory ".dcm" in
          match unzip directory ".lib", unzip directory ".pretty" with
          | Some lib_path, Some footprint_path =>
              inr (mkPaths dcm_path lib_path footprint_path
                     (unzip root_path ".step") ULTRA_LIBRARIAN)
          | _, _ => inl AssertionError
          end
        else
          match unzip root_path ".lib" with
          | Some lib_path =>
              inr (mkPaths (unzip root_path ".dcm") lib_path root_path
                     (Some root_path) SNAPEDA)
          | None => inl AssertionError
          end
    end.

(** What [model_path.iterdir()] hands to the loop of [import_model]: the
    names of the entries, or the exception of the call. *)
Definition model_items (model_path : option Path) : exn + list string :=
  match model_path with
  | None => inl AttributeError
  | Some p =>
      match iterdir p with
      | inl e => inl e
      | inr children => inr (map entry_name children)
      end
  end.

(** The entries of a tree, depth first, a directory before its entries. *)
Fixpoint walk (e : entry) : list entry :=
  e :: match e with
       | Member _ _ => []
       | Folder _ children => flat_map walk children
       end.

(** The entries a path stands for. *)
Definition entries (p : Path) : list entry :=
  match p with
  | At e => walk e
  | Missing _ => []
  end.

(** An entry whose name ends with [suffix]. *)
Definition ends (suffix : string) (e : entry) : bool :=
  PyStr.endswith (entry_name e) suffix.

End Zip.

(** ** The main program *)

Section Main.

Variable REMOTE_LIB_PATH : path.
Variable REMOTE_FOOTPRINTS_PATH : path.
Variable REMOTE_3DMODEL_PATH : path.

(** What lies at [SRC_PATH / name], for every name the operator may give. *)
Variable SRC_PATH : string -> archive.

(** [arg.zap] *)
Variable zap : bool.

(** The body of the [try] block; it returns the name of the archive that
    [chosen_zip.unlink()] has removed, if any. *)
Definition main_try : M (option string) :=
  chosen_zip <- Select_call ;;
  response <-
    import_all REMOTE_LIB_PATH REMOTE_FOOTPRINTS_PATH REMOTE_3DMODEL_PATH
      (SRC_PATH chosen_zip) ;;
  match response with
  | Some r =>
      if zap && bool_decide (r = "OK:") then ret (Some chosen_zip)
      else ret None
  | None => ret None
  end.

(** The [try] statement with its three [except] clauses.  The last branch
    stands for [except Exception]: every exception of [exn] other than
    [EOFError] and [Warning] is a subclass of [Exception]. *)
Definition main : M (option string) :=
  fun s =>
    match main_try s with
    | (inr unlinked, s') => (inr unlinked, s')
    | (inl EOFError, s') => (inr None, s')
    | (inl (Warning _), s') => (warning_handler ;;; ret None) s'
    | (inl _, s') => (inr None, s')
    end.

End Main.

(** ** Archives of the four layouts *)

Module Sample.

Definition footprint : list string :=
  ["(module FP1"; "  (fp_text reference REF**)"; ")"].

Definition octopart : Zip.entry :=
  Zip.Folder "LM358.zip"
    [Zip.Member "device.dcm" Example.lm358_dcm;
     Zip.Member "device.lib" Example.lm358_lib;
     Zip.Folder "device.pretty" [Zip.Member "FP1.kicad_mod" footprint]].

Definition samacsys : Zip.entry :=
  Zip.Folder "LM358.zip"
    [Zip.Folder "LM358"
       [Zip.Folder "3D" [Zip.Member "LM358.stp" ["ISO-10303-21;"]];
        Zip.Folder "KiCad"
          [Zip.Member "FP1.kicad_mod" footprint;
           Zip.Member "LM358.dcm" Example.lm358_dcm;
           Zip.Member "LM358.lib" Example.lm358_lib]]].

Definition ultra_librarian : Zip.entry :=
  Zip.Folder "ul_LM358.zip"
    [Zip.Folder "KiCAD"
       [Zip.Member "2021-01-01.lib" Example.lm358_lib;
        Zip.Folder "footprints.pretty" [Zip.Member "FP1.kicad_mod" footprint]];
     Zip.Folder "STEP" [Zip.Member "LM358.step" ["ISO-10303-21;"]]].

Definition snapeda : Zip.entry :=
  Zip.Folder "LM358.zip"
    [Zip.Member "LM358.lib" Example.lm358_lib;
     Zip.Member "FP1.kicad_mod" footprint;
     Zip.Member "LM358.step" ["ISO-10303-21;"]].

(** An archive whose footprint directory holds no footprint file. *)
Definition zip_without_footprint : archive :=
  mkArchive "LM358.zip" true
    (inr (mkInfo (Some Example.lm358_dcm) Example.lm358_lib
            (inr [("readme.txt", ["no footprint here"])]) (inr []) SAMACSYS))
    Example.members.

End Sample.

Lemma emit_nil p : emit [] p = p.
Proof. by destruct p. Qed.

Lemma emit_app a b p : emit (a ++ b) p = emit a (emit b p).
Proof. unfold emit; simpl. by rewrite app_assoc. Qed.

Lemma emit_cons a b p : emit (a :: b) p = emit [a] (emit b p).
Proof. reflexivity. Qed.

Lemma merge_lib_gen device wh rec T ow ov rs :
  merge_lib device wh rec T ow ov rs =
  merge_gen (classify_lib device) lib_yes wh rec T ow ov rs.
Proof.
  revert ow ov rs. induction T as [|line T IH]; intros ow ov rs; [done|].
  cbn [merge_lib merge_gen]. unfold classify_lib.
  destruct (PyStr.match_end line); [done|].
  destruct (PyStr.startswith line "DEF ").
  - destruct (PyStr.split line) as [|t0 [|name ts]]; try done.
    destruct (PyStr.startswith name device).
    + destruct rs as [|r rs']; [done|]. unfold lib_yes.
      destruct (PyStr.startswith "yes" _); [|done]. by rewrite IH.
    + by rewrite IH.
  - destruct (PyStr.startswith line "ENDDEF"); destruct ow; cbn [negb]; by rewrite IH.
Qed.

Lemma merge_dcm_gen device wh rec T ow ov rs :
  merge_dcm device wh rec T ow ov rs =
  merge_gen (classify_dcm device) dcm_yes wh rec T ow ov rs.
Proof.
  revert ow ov rs. induction T as [|line T IH]; intros ow ov rs; [done|].
  cbn [merge_dcm merge_gen]. unfold classify_dcm.
  destruct (PyStr.match_end line); [done|].
  destruct (PyStr.startswith line "$CMP ").
  - destruct (PyStr.startswith _ device).
    + destruct rs as [|r rs']; [done|]. unfold dcm_yes.
      destruct (in_yes _); [|done]. by rewrite IH.
    + by rewrite IH.
  - destruct (PyStr.startswith line "$ENDCMP"); destruct ow; cbn [negb]; by rewrite IH.
Qed.

Section MergeFacts.

Variable classify : string -> line_class.
Variable yes : string -> bool.
Variables with_header record : list string.

Abbreviation merge := (merge_gen classify yes with_header record).

Lemma merge_copy pre rest ov rs :
  Forall (fun l => passes (classify l) = true) pre ->
  merge (pre ++ rest) false ov rs = emit pre (merge rest false ov rs).
Proof.
  induction 1 as [|l pre Hl _ IH]; simpl.
  - by rewrite emit_nil.
  - rewrite IH. destruct (classify l); try done.
Qed.

Lemma merge_skip body rest ov rs :
  Forall (fun l => classify l = Plain) body ->
  merge (body ++ rest) true ov rs = merge rest true ov rs.
Proof.
  induction 1 as [|l body Hl _ IH]; simpl; [done|]. by rewrite Hl.
Qed.

Lemma merge_replace d body c rest ow ov r rs :
  classify d = Opens -> yes r = true ->
  Forall (fun l => classify l = Plain) body ->
  classify c = Closes ->
  merge (d :: body ++ c :: rest) ow ov (r :: rs) =
  emit record (merge rest false true rs).
Proof.
  intros Hd Hr Hb Hc. simpl. rewrite Hd, Hr.
  rewrite merge_skip by done. simpl. by rewrite Hc.
Qed.

(** Appending before the trailer. *)
Lemma merge_append pre t rest rs :
  Forall (fun l => passes (classify l) = true) pre ->
  classify t = Trailer ->
  merge (pre ++ t :: rest) false false rs =
  mkPass Completed (pre ++ with_header ++ [t]) rs.
Proof.
  intros Hpre Ht. rewrite merge_copy by done. simpl. by rewrite Ht.
Qed.

(** Replacing the record in place. *)
Lemma merge_overwrite pre d body c post t rest r rs :
  Forall (fun l => passes (classify l) = true) pre ->
  classify d = Opens -> yes r = true ->
  Forall (fun l => classify l = Plain) body ->
  classify c = Closes ->
  Forall (fun l => passes (classify l) = true) post ->
  classify t = Trailer ->
  merge (pre ++ d :: body ++ c :: post ++ t :: rest) false false (r :: rs) =
  mkPass Completed (pre ++ record ++ post ++ [t]) rs.
Proof.
  intros Hpre Hd Hr Hb Hc Hpost Ht.
  rewrite merge_copy by done.
  rewrite merge_replace by done.
  rewrite merge_copy by done. simpl. rewrite Ht. done.
Qed.

(** A pass that runs to its end over a target that is not empty writes
    something. *)
Lemma merge_nonempty T ov rs :
  T <> [] -> record <> [] ->
  ended (merge T false ov rs) = Completed ->
  written (merge T false ov rs) <> [].
Proof.
  destruct T as [|line T]; [done|]. intros _ Hrec. simpl.
  destruct (classify line); simpl; try done.
  - intros _ H. apply app_eq_nil in H as [_ H]. done.
  - destruct rs as [|r rs']; [done|]. destruct (yes r); [|done]. simpl.
    intros _ H. apply app_eq_nil in H as [H _]. done.
Qed.

(** A pass that reaches the trailer has written the record. *)
Lemma merge_writes_record T x : forall ow rs,
  Exists (fun l => classify l = Trailer) T ->
  (forall y, y ∈ record -> y ∈ with_header) ->
  x ∈ record ->
  ended (merge T ow false rs) = Completed ->
  x ∈ written (merge T ow false rs).
Proof.
  induction T as [|line T IH]; intros ow rs HT Hsub Hx; [by inversion HT|].
  assert (HT' : classify line <> Trailer ->
                Exists (fun l => classify l = Trailer) T).
  { intros Hn. by inversion HT. }
  simpl. destruct (classify line) eqn:Hk; simpl.
  - intros _. apply elem_of_app. left. by apply Hsub.
  - destruct rs as [|r rs']; [done|]. destruct (yes r); [|done]. simpl.
    intros _. apply elem_of_app. by left.
  - intros H. right. apply IH; auto.
  - done.
  - destruct ow; simpl; intros H; [|right]; apply IH; auto.
  - destruct ow; simpl; intros H; [|right]; apply IH; auto.
Qed.

(** When every reply is a consent, no pass is skipped. *)
Lemma merge_not_skipped T : forall ow ov rs,
  Forall (fun r => yes r = true) rs ->
  ended (merge T ow ov rs) <> Skipped.
Proof.
  induction T as [|line T IH]; intros ow ov rs Hyes; [done|].
  simpl. destruct (classify line); simpl; try done; try (by apply IH).
  - destruct rs as [|r rs']; [done|]. inversion Hyes as [|? ? Hr Hrs]; subst.
    rewrite Hr. simpl. by apply IH.
  - destruct ow; simpl; by apply IH.
  - destruct ow; simpl; by apply IH.
Qed.

(** A second pass over what a first pass wrote.  The record and its header
    are as the loop expects them. *)
Variables (hdr : list string) (d : string) (body : list string) (c : string).
Hypothesis Hwh : with_header = hdr ++ record.
Hypothesis Hrec : record = d :: body ++ [c].
Hypothesis Hhdr : Forall (fun l => passes (classify l) = true) hdr.
Hypothesis Hd : classify d = Opens.
Hypothesis Hbody : Forall (fun l => classify l = Plain) body.
Hypothesis Hc : classify c = Closes.

Lemma merge_record rest ov r rs :
  yes r = true ->
  merge (record ++ rest) false ov (r :: rs) =
  emit record (merge rest false true rs).
Proof using Hrec Hd Hbody Hc.
  intros Hr.
  replace (record ++ rest) with (d :: body ++ c :: rest)
    by (rewrite Hrec; simpl; by rewrite <- app_assoc).
  by rewrite merge_replace.
Qed.

Lemma record_nonempty : 1 <= length record.
Proof using Hrec. rewrite Hrec. simpl. lia. Qed.

Lemma merge_again T ow ov rs rs2 :
  ended (merge T ow ov rs) = Completed ->
  Forall (fun r => yes r = true) rs2 ->
  length (written (merge T ow ov rs)) <= length rs2 ->
  exists rs2',
    merge (written (merge T ow ov rs)) false ov rs2 =
    mkPass Completed (written (merge T ow ov rs)) rs2'.
Proof using All.
  pose proof record_nonempty as Hne.
  revert ow ov rs rs2.
  induction T as [|line T IH]; intros ow ov rs rs2; simpl.
  { intros _ _ _. by exists rs2. }
  destruct (classify line) eqn:Hk; simpl.
  - (* the trailer *)
    intros _ Hyes Hlen. destruct ov; simpl.
    + rewrite Hk. by exists rs2.
    + assert (E : with_header ++ [line] = hdr ++ record ++ [line])
        by (by rewrite Hwh, <- app_assoc).
      rewrite E in *. rewrite merge_copy by done.
      destruct rs2 as [|r rs2'].
      { rewrite !length_app in Hlen. simpl in Hlen. lia. }
      rewrite merge_record by (by inversion Hyes).
      simpl. rewrite Hk. by exists rs2'.
  - (* a record for the device *)
    destruct rs as [|r rs']; [done|].
    destruct (yes r); [|done]. simpl.
    intros Hend Hyes Hlen. rewrite length_app in Hlen.
    destruct rs2 as [|r2 rs2']; [simpl in Hlen; lia|].
    rewrite merge_record by (by inversion Hyes).
    destruct (IH true true rs' rs2') as [rs3 E];
      [done|by inversion Hyes|simpl in Hlen; lia|].
    rewrite E. by exists rs3.
  - (* a record of another name *)
    intros Hend Hyes Hlen. rewrite Hk.
    destruct (IH ow ov rs rs2) as [rs3 E]; [done|done|simpl in Hlen; lia|].
    rewrite E. by exists rs3.
  - done.
  - (* a closing line *)
    destruct ow; simpl.
    + intros Hend Hyes Hlen. by apply IH.
    + intros Hend Hyes Hlen. rewrite Hk.
      destruct (IH false ov rs rs2) as [rs3 E]; [done|done|simpl in Hlen; lia|].
      rewrite E. by exists rs3.
  - destruct ow; simpl.
    + intros Hend Hyes Hlen. by apply IH.
    + intros Hend Hyes Hlen. rewrite Hk.
      destruct (IH false ov rs rs2) as [rs3 E]; [done|done|simpl in Hlen; lia|].
      rewrite E. by exists rs3.
Qed.

End MergeFacts.
(** ** Paths *)

#[local] Arguments path_join : simpl never.
#[local] Arguments node_at : simpl never.
#[local] Arguments parent : simpl never.

Lemma node_at_join f p name : node_at f (path_join p name) = f !! path_join p name.
Proof. unfold path_join. by destruct p. Qed.

Lemma parent_join p name : parent (path_join p name) = p.
Proof. apply removelast_last. Qed.

Lemma path_join_inj p q a b : path_join p a = path_join q b -> p = q /\ a = b.
Proof. unfold path_join. intros H. by apply app_inj_tail in H. Qed.

Lemma path_join_ne p a b : a <> b -> path_join p a <> path_join p b.
Proof. intros Hab H. apply path_join_inj in H. tauto. Qed.

Lemma lib_read_ne_write LIB rt : lib_file_read LIB rt <> lib_file_write LIB rt.
Proof. apply path_join_ne. by destruct rt. Qed.

Lemma dcm_read_ne_write LIB rt : dcm_file_read LIB rt <> dcm_file_write LIB rt.
Proof. apply path_join_ne. by destruct rt. Qed.

(** ** Running the primitives *)

Ltac mrun :=
  repeat progress
    (cbv beta iota delta
       [bind ret raise lift get_fs put_fs get_replies put_replies append
        input confirm check_file touch open_wt open_rt close_wt read_lines
        size_is_zero parent_ready path_exists is_dir stream raise_named];
     cbn [fs modified_objects replies fst snd negb]).

Ltac mrun_in H :=
  repeat progress
    (cbv beta iota delta
       [bind ret raise lift get_fs put_fs get_replies put_replies append
        input confirm check_file touch open_wt open_rt close_wt read_lines
        size_is_zero parent_ready path_exists is_dir stream raise_named] in H;
     cbn [fs modified_objects replies fst snd negb] in H).

Ltac mcases H :=
  repeat (mrun_in H;
          match type of H with
          | context [match ?x with _ => _ end] => destruct x eqn:?
          | context [if ?b then _ else _] => destruct b eqn:?
          end);
  mrun_in H.


Lemma check_file_present p s :
  path_exists (fs s) p = true -> check_file p s = (inr tt, s).
Proof.
  unfold path_exists. intros H. mrun.
  by destruct (node_at (fs s) p).
Qed.

Lemma check_file_absent dir name f log rs :
  f !! path_join dir name = None ->
  is_dir f dir = true ->
  check_file (path_join dir name) (mkState f log rs) =
  (inr tt, mkState (<[path_join dir name := File []]> f)
             (dict_set log (FsPath (path_join dir name)) TOUCH_FILE) rs).
Proof.
  intros Hnone Hdir.
  unfold is_dir in Hdir. mrun.
  rewrite !node_at_join, Hnone, parent_join.
  destruct (node_at f dir) as [[|?]|] eqn:E; try done. mrun.
  by rewrite !node_at_join, Hnone, E.
Qed.

(** [check_file] on a staging path next to an existing library. *)
Lemma check_file_staging dir name f log rs :
  f !! path_join dir name <> Some Dir ->
  is_dir f dir = true ->
  exists f' log',
    check_file (path_join dir name) (mkState f log rs) = (inr tt, mkState f' log' rs) /\
    (exists c, f' !! path_join dir name = Some (File c)) /\
    (forall l, <[path_join dir name := File l]> f' = <[path_join dir name := File l]> f).
Proof.
  intros Hnd Hdir. destruct (f !! path_join dir name) as [[|c]|] eqn:E; [done| |].
  - exists f, log. rewrite check_file_present.
    + eauto.
    + unfold path_exists. cbn [fs]. by rewrite node_at_join, E.
  - eexists _, _. rewrite check_file_absent by done. split; [done|]. split.
    + exists []. by rewrite lookup_insert_eq.
    + intros l. by rewrite insert_insert_eq.
Qed.

Lemma stream_run read write template loop f log rs T c0 :
  read <> write ->
  node_at f read = Some (File T) -> T <> [] ->
  node_at f write = Some (File c0) ->
  stream read write template loop (mkState f log rs) =
  (match ended (loop T rs) with
   | Raised e => inl e
   | _ => inr (read, write)
   end,
   mkState (<[write := File (written (loop T rs))]> f) log
           (replies_left (loop T rs))).
Proof.
  intros Hne Hr HT Hw.
  assert (Hr' : node_at (<[write := File []]> f) read = Some (File T)).
  { destruct read; [done|]. unfold node_at in *. by rewrite lookup_insert_ne. }
  mrun. rewrite Hr. mrun. rewrite Hw. mrun. rewrite Hr'. mrun.
  rewrite bool_decide_eq_false_2 by done. mrun. rewrite Hr'. mrun.
  rewrite insert_insert_eq.
  by destruct (ended (loop T rs)).
Qed.

Lemma staging_other (f f' : gmap path node) w p :
  (forall l, <[w := File l]> f' = <[w := File l]> f) ->
  p <> w -> f' !! p = f !! p.
Proof.
  intros H Hne. rewrite <- (lookup_insert_ne f' w p (File [])) by done.
  rewrite H. by rewrite lookup_insert_ne.
Qed.

(** [scan_dcm] only consumes replies. *)
Lemma scan_dcm_frame device has_path attrs idx c s :
  same_store s (scan_dcm device has_path attrs idx c s).2.
Proof.
  revert idx c s. induction attrs as [|a attrs IH]; intros idx c s; [done|].
  assert (Hcont : forall a' c' s0 s',
    same_store s0 s' ->
    same_store s0 ((r <- scan_dcm device has_path attrs (S idx) c' ;;
                    ret (a' :: r.1, r.2)) s').2).
  { intros a' c' s0 s' [H1 H2]. unfold bind, ret.
    destruct (IH (S idx) c' s') as [H3 H4].
    destruct (scan_dcm device has_path attrs (S idx) c' s') as [[e|r] s''];
      split; simpl in *; congruence. }
  cbn [scan_dcm].
  destruct (index_start c), (index_end c);
    repeat match goal with
      | |- context [if ?b then _ else _] => destruct b
      end; try (by apply Hcont); try (by destruct has_path).
  all: unfold bind at 1; unfold input.
  all: destruct s as [f log [|r rs]]; cbn [replies]; [done|].
  all: match goal with
  | |- context [if ?b then _ else _] => destruct b
  end; by apply Hcont.
Qed.

Section Stage.

Variables LIB FPS M3D : path.

Lemma import_lib_run device rt lib ls c f log rs T :
  scan_lib device rt lib 0 no_cursors = inr (ls, c) ->
  index_end c <> None ->
  f !! lib_file_read LIB rt = Some (File T) -> T <> [] ->
  is_dir f LIB = true ->
  f !! lib_file_write LIB rt <> Some Dir ->
  exists log',
    import_lib LIB device rt lib (mkState f log rs) =
    (match ended (merge_lib device (record_with_header ls c) (record_only ls c)
                    T false false rs) with
     | Raised e => inl e
     | _ => inr (lib_file_read LIB rt, lib_file_write LIB rt)
     end,
     mkState
       (<[lib_file_write LIB rt :=
            File (written (merge_lib device (record_with_header ls c)
                             (record_only ls c) T false false rs))]> f)
       log'
       (replies_left (merge_lib device (record_with_header ls c)
                        (record_only ls c) T false false rs))).
Proof.
  intros Hscan Hend Hread HT Hdir Hwrite.
  destruct (check_file_staging LIB (remote_name rt +:+ ".lib~") f log rs Hwrite Hdir)
    as (f' & log' & Hcheck & [c0 Hc0] & Hins).
  pose proof (lib_read_ne_write LIB rt) as Hne.
  exists log'. unfold import_lib. unfold lib_file_read, lib_file_write in *.
  unfold bind at 1. rewrite Hscan. cbn [lift ret fst snd].
  unfold bind at 1. rewrite bool_decide_eq_false_2 by done. cbn [ret].
  unfold bind at 1. rewrite check_file_present; last first.
  { unfold path_exists. cbn [fs]. by rewrite node_at_join, Hread. }
  unfold bind at 1. rewrite Hcheck.
  rewrite (stream_run _ _ _ _ f' log' rs T c0).
  - by rewrite Hins.
  - done.
  - rewrite node_at_join. by rewrite (staging_other f f' _ _ Hins).
  - done.
  - by rewrite node_at_join.
Qed.

Lemma import_dcm_run device rt dcm ls c f log rs s1 T :
  scan_dcm device (bool_decide (is_Some dcm))
    (match dcm with Some l => l | None => default_dcm device end)
    0 no_cursors (mkState f log rs) = (inr (ls, c), s1) ->
  index_end c <> None ->
  f !! dcm_file_read LIB rt = Some (File T) -> T <> [] ->
  is_dir f LIB = true ->
  f !! dcm_file_write LIB rt <> Some Dir ->
  exists log',
    import_dcm LIB device rt dcm (mkState f log rs) =
    (match ended (merge_dcm device (record_with_header ls c) (record_only ls c)
                    T false false (replies s1)) with
     | Raised e => inl e
     | _ => inr (dcm_file_read LIB rt, dcm_file_write LIB rt)
     end,
     mkState
       (<[dcm_file_write LIB rt :=
            File (written (merge_dcm device (record_with_header ls c)
                             (record_only ls c) T false false (replies s1)))]> f)
       log'
       (replies_left (merge_dcm device (record_with_header ls c)
                        (record_only ls c) T false false (replies s1)))).
Proof.
  intros Hscan Hend Hread HT Hdir Hwrite.
  pose proof (scan_dcm_frame device (bool_decide (is_Some dcm))
    (match dcm with Some l => l | None => default_dcm device end)
    0 no_cursors (mkState f log rs)) as Hsame.
  rewrite Hscan in Hsame. destruct Hsame as [Hfs Hlog].
  destruct s1 as [f1 log1 rs1]. simpl in Hfs, Hlog. subst f1 log1. cbn [replies].
  destruct (check_file_staging LIB (remote_name rt +:+ ".dcm~") f log rs1 Hwrite Hdir)
    as (f' & log' & Hcheck & [c0 Hc0] & Hins).
  pose proof (dcm_read_ne_write LIB rt) as Hne.
  exists log'. unfold import_dcm. unfold dcm_file_read, dcm_file_write in *.
  unfold bind at 1. rewrite Hscan. cbn [fst snd].
  unfold bind at 1. rewrite bool_decide_eq_false_2 by done. cbn [ret].
  unfold bind at 1. rewrite check_file_present; last first.
  { unfold path_exists. cbn [fs]. by rewrite node_at_join, Hread. }
  unfold bind at 1. rewrite Hcheck.
  rewrite (stream_run _ _ _ _ f' log' rs1 T c0).
  - by rewrite Hins.
  - done.
  - rewrite node_at_join. by rewrite (staging_other f f' _ _ Hins).
  - done.
  - by rewrite node_at_join.
Qed.

End Stage.
(** ** The scans, line by line *)

Lemma scan_lib_cons device rt line rest idx c :
  scan_lib device rt (line :: rest) idx c =
  match lib_step device rt line idx c with
  | inl e => inl e
  | inr (line', c1) =>
      match scan_lib device rt rest (S idx) c1 with
      | inl e => inl e
      | inr (ls, c2) => inr (line' :: ls, c2)
      end
  end.
Proof.
  cbn [scan_lib]. unfold lib_step.
  destruct (index_start c), (index_end c);
    repeat match goal with
      | |- context [if ?b then _ else _] => destruct b
      | |- context [match PyStr.split ?l with _ => _ end] =>
          destruct (PyStr.split l) as [|? [|? ?]]
      end; reflexivity.
Qed.

Lemma scan_dcm_cons device hp a rest idx c s :
  scan_dcm device hp (a :: rest) idx c s =
  (x <- dcm_step device hp a idx c ;;
   r <- scan_dcm device hp rest (S idx) x.2 ;;
   ret (x.1 :: r.1, r.2)) s.
Proof.
  cbn [scan_dcm]. unfold dcm_step.
  destruct (index_start c), (index_end c);
    repeat match goal with
      | |- context [if ?b then _ else _] => destruct b
      end; try reflexivity; try (by destruct hp).
  all: unfold bind.
  all: destruct (input s) as [[e|r] s']; try reflexivity.
  all: match goal with
      | |- context [if ?b then _ else _] => destruct b
      end; reflexivity.
Qed.

Lemma cursors_ok_start : cursors_ok 0 no_cursors.
Proof. repeat split; simpl; intros; discriminate. Qed.

Ltac cursor_cases :=
  repeat match goal with
    | H : context [if ?b then _ else _] |- _ => destruct b eqn:?
    | H : context [match PyStr.split ?l with _ => _ end] |- _ =>
        destruct (PyStr.split l) as [|? [|? ?]]
    | H : inl _ = inr _ |- _ => discriminate H
    | H : inr _ = inr _ |- _ => injection H as <- <-
    end.

Lemma lib_step_ok device rt line idx c line' c1 :
  lib_step device rt line idx c = inr (line', c1) ->
  cursors_ok idx c -> cursors_ok (S idx) c1.
Proof.
  unfold lib_step, comment_line, cursors_ok.
  destruct c as [[s|] [e|] [h|]]; cbn; intros H (Hh & Hs & He);
    cursor_cases; cbn; repeat split; intros; simplify_eq;
    try (edestruct Hh as [? ?]; [done|]);
    try (edestruct He as [? [? [? ?]]]; [done|]);
    try (specialize (Hs _ eq_refl));
    simplify_eq; eauto with lia.
Qed.

Lemma scan_lib_ok device rt lines : forall idx c ls c',
  scan_lib device rt lines idx c = inr (ls, c') ->
  cursors_ok idx c ->
  cursors_ok (idx + length lines) c' /\ length ls = length lines.
Proof.
  induction lines as [|line lines IH]; intros idx c ls c' H Hok.
  - simpl in H. injection H as <- <-. by rewrite Nat.add_0_r.
  - rewrite scan_lib_cons in H.
    destruct (lib_step device rt line idx c) as [e|[line' c1]] eqn:Hstep; [done|].
    destruct (scan_lib device rt lines (S idx) c1) as [e|[ls1 c2]] eqn:Hrest; [done|].
    injection H as <- <-.
    destruct (IH _ _ _ _ Hrest (lib_step_ok _ _ _ _ _ _ _ Hstep Hok)) as [Hok' Hlen].
    simpl. rewrite Hlen. split; [|done].
    by replace (idx + S (length lines)) with (S idx + length lines) by lia.
Qed.


Lemma lib_step_later device rt line idx c line' c1 :
  lib_step device rt line idx c = inr (line', c1) ->
  cursors_later idx c c1.
Proof.
  unfold lib_step, comment_line, cursors_later.
  destruct c as [[s|] [e|] [h|]]; cbn; intros H;
    cursor_cases; cbn; repeat split; intros; simplify_eq; eauto with lia.
Qed.

Lemma scan_lib_later device rt lines : forall idx c ls c',
  scan_lib device rt lines idx c = inr (ls, c') ->
  cursors_later idx c c'.
Proof.
  induction lines as [|line lines IH]; intros idx c ls c' H.
  - simpl in H. injection H as <- <-. repeat split; intros; [done|done|congruence].
  - rewrite scan_lib_cons in H.
    destruct (lib_step device rt line idx c) as [e|[line' c1]] eqn:Hstep; [done|].
    destruct (scan_lib device rt lines (S idx) c1) as [e|[ls1 c2]] eqn:Hrest; [done|].
    injection H as <- <-.
    destruct (lib_step_later _ _ _ _ _ _ _ Hstep) as (A1 & A2 & A3).
    destruct (IH _ _ _ _ Hrest) as (B1 & B2 & B3).
    repeat split.
    + intros s Hs. eauto.
    + intros e He. eauto.
    + intros Hn s Hs. destruct (index_start c1) as [s1|] eqn:E1.
      * rewrite (B1 _ eq_refl) in Hs. simplify_eq. by apply A3.
      * specialize (B3 eq_refl _ Hs). lia.
Qed.

Lemma dcm_step_ok device hp a idx c s a' c1 s' :
  dcm_step device hp a idx c s = (inr (a', c1), s') ->
  cursors_ok idx c -> cursors_ok (S idx) c1.
Proof.
  unfold dcm_step, comment_line, cursors_ok, raise_named, bind, input, ret, raise.
  destruct c as [[st|] [e|] [h|]]; cbn; intros H (Hh & Hs & He);
    repeat match goal with
      | H : context [if ?b then _ else _] |- _ => destruct b eqn:?
      | H : context [match replies ?s with _ => _ end] |- _ =>
          destruct (replies s)
      | H : (inl _, _) = (inr _, _) |- _ => discriminate H
      | H : (inr _, _) = (inr _, _) |- _ => injection H as <- <- <-
      end; cbn; repeat split; intros; simplify_eq;
    try (edestruct Hh as [? ?]; [done|]);
    try (edestruct He as [? [? [? ?]]]; [done|]);
    try (specialize (Hs _ eq_refl));
    simplify_eq; eauto with lia.
Qed.

Lemma scan_dcm_ok device hp attrs : forall idx c s ls c' s',
  scan_dcm device hp attrs idx c s = (inr (ls, c'), s') ->
  cursors_ok idx c ->
  cursors_ok (idx + length attrs) c'.
Proof.
  induction attrs as [|a attrs IH]; intros idx c s ls c' s' H Hok.
  - simpl in H. injection H as <- <- <-. by rewrite Nat.add_0_r.
  - rewrite scan_dcm_cons in H. unfold bind at 1 in H.
    destruct (dcm_step device hp a idx c s) as [[e|[a' c1]] s1] eqn:Hstep; [done|].
    unfold bind in H. cbn [fst snd] in H.
    destruct (scan_dcm device hp attrs (S idx) c1 s1) as [[e|[ls1 c2]] s2] eqn:Hrest;
      [done|].
    injection H as <- <- <-.
    pose proof (IH _ _ _ _ _ _ Hrest (dcm_step_ok _ _ _ _ _ _ _ _ _ Hstep Hok)).
    simpl. by replace (idx + S (length attrs)) with (S idx + length attrs) by lia.
Qed.

(** ** Slices *)

Lemma slice_split {A} (l : list A) a b c :
  a <= b -> b <= c -> slice l a c = slice l a b ++ slice l b c.
Proof.
  intros Hab Hbc. unfold slice.
  replace (c - a) with ((b - a) + (c - b)) by lia.
  rewrite <- take_take_drop. f_equal.
  rewrite drop_drop. by replace (a + (b - a)) with b by lia.
Qed.

Lemma slice_elem {A} (l : list A) a b i x :
  l !! i = Some x -> a <= i -> i < b -> x ∈ slice l a b.
Proof.
  intros Hi Ha Hb. unfold slice. apply (list_elem_of_lookup_2 _ (i - a)).
  rewrite lookup_take_lt by lia. rewrite lookup_drop.
  by replace (a + (i - a)) with i by lia.
Qed.

(** The header found by a scan lies right before the record. *)
Lemma record_split ls n c s e :
  cursors_ok n c -> index_start c = Some s -> index_end c = Some e ->
  record_with_header ls c =
  slice ls (default s (index_header_start c)) s ++ record_only ls c.
Proof.
  intros (Hh & Hs & He) Es Ee. unfold record_with_header, record_only.
  rewrite Es, Ee.
  destruct (He _ Ee) as [_ (s' & Es' & Hlt)]. simplify_eq.
  destruct (index_header_start c) as [h|] eqn:Eh; simpl.
  - destruct (Hh _ eq_refl) as [_ Hhs]. specialize (Hhs _ Es).
    apply slice_split; lia.
  - apply slice_split; lia.
Qed.

(** The footprint field inside the located record is qualified. *)
Lemma scan_lib_field device rt lines : forall idx c ls c' i line s e,
  scan_lib device rt lines idx c = inr (ls, c') ->
  cursors_ok idx c ->
  index_start c' = Some s -> index_end c' = Some e ->
  lines !! i = Some line ->
  s < idx + i -> idx + i < e ->
  PyStr.startswith line "F2" = true ->
  exists t0 fp ts,
    PyStr.split line = t0 :: fp :: ts /\
    ls !! i =
    Some (PyStr.replace1 (PyStr.strip_chars dquote fp)
            (remote_name rt +:+ ":" +:+ PyStr.strip_chars dquote fp) line).
Proof.
  induction lines as [|l lines IH];
    intros idx c ls c' i line s e H Hok Es Ee Hi Hlo Hhi HF2; [done|].
  pose proof (scan_lib_later _ _ _ _ _ _ _ H) as (L1 & L2 & L3).
  rewrite scan_lib_cons in H.
  destruct (lib_step device rt l idx c) as [err|[l' c1]] eqn:Hstep; [done|].
  destruct (scan_lib device rt lines (S idx) c1) as [err|[ls1 c2]] eqn:Hrest; [done|].
  injection H as <- <-.
  destruct i as [|i]; simpl in Hi.
  - injection Hi as ->. simpl.
    destruct Hok as (Hh & Hs & He).
    unfold lib_step in Hstep.
    destruct (index_start c) as [s0|] eqn:E0.
    2:{ specialize (L3 eq_refl _ Es). lia. }
    destruct (index_end c) as [e0|] eqn:E1.
    { destruct (He _ eq_refl) as [Hle _]. rewrite (L2 _ eq_refl) in Ee.
      simplify_eq. lia. }
    rewrite HF2 in Hstep.
    destruct (PyStr.split line) as [|t0 [|fp ts]]; try done.
    injection Hstep as <- <-. by exists t0, fp, ts.
  - simpl. eapply (IH (S idx)); eauto using lib_step_ok; lia.
Qed.
(** ** What a stage leaves in its staging file *)

Lemma classify_lib_trailer device t :
  PyStr.match_end t = true -> classify_lib device t = Trailer.
Proof. intros H. unfold classify_lib. by rewrite H. Qed.

Lemma classify_dcm_trailer device t :
  PyStr.match_end t = true -> classify_dcm device t = Trailer.
Proof. intros H. unfold classify_dcm. by rewrite H. Qed.

Section StageFacts.

Variable LIB : path.

Lemma import_lib_appends device rt lib ls c f log rs pre t :
  scan_lib device rt lib 0 no_cursors = inr (ls, c) ->
  index_end c <> None ->
  f !! lib_file_read LIB rt = Some (File (pre ++ [t])) ->
  is_dir f LIB = true ->
  f !! lib_file_write LIB rt <> Some Dir ->
  Forall (fun l => passes (classify_lib device l) = true) pre ->
  PyStr.match_end t = true ->
  exists log',
    import_lib LIB device rt lib (mkState f log rs) =
    (inr (lib_file_read LIB rt, lib_file_write LIB rt),
     mkState (<[lib_file_write LIB rt :=
                  File (pre ++ record_with_header ls c ++ [t])]> f) log' rs).
Proof.
  intros Hscan Hend Hread Hdir Hw Hpre Ht.
  destruct (import_lib_run LIB device rt lib ls c f log rs (pre ++ [t]))
    as [log' E]; try done.
  { by destruct pre. }
  exists log'. rewrite E, merge_lib_gen.
  by rewrite merge_append by auto using classify_lib_trailer.
Qed.

Lemma import_dcm_appends device rt dcm ls c f log rs s1 pre t :
  scan_dcm device (bool_decide (is_Some dcm))
    (match dcm with Some l => l | None => default_dcm device end)
    0 no_cursors (mkState f log rs) = (inr (ls, c), s1) ->
  index_end c <> None ->
  f !! dcm_file_read LIB rt = Some (File (pre ++ [t])) ->
  is_dir f LIB = true ->
  f !! dcm_file_write LIB rt <> Some Dir ->
  Forall (fun l => passes (classify_dcm device l) = true) pre ->
  PyStr.match_end t = true ->
  exists log',
    import_dcm LIB device rt dcm (mkState f log rs) =
    (inr (dcm_file_read LIB rt, dcm_file_write LIB rt),
     mkState (<[dcm_file_write LIB rt :=
                  File (pre ++ record_with_header ls c ++ [t])]> f) log'
             (replies s1)).
Proof.
  intros Hscan Hend Hread Hdir Hw Hpre Ht.
  destruct (import_dcm_run LIB device rt dcm ls c f log rs s1 (pre ++ [t]))
    as [log' E]; try done.
  { by destruct pre. }
  exists log'. rewrite E, merge_dcm_gen.
  by rewrite merge_append by auto using classify_dcm_trailer.
Qed.

Lemma import_lib_overwrites device rt lib ls c f log r rs pre d body cl post t rest :
  scan_lib device rt lib 0 no_cursors = inr (ls, c) ->
  index_end c <> None ->
  f !! lib_file_read LIB rt =
    Some (File (pre ++ d :: body ++ cl :: post ++ t :: rest)) ->
  is_dir f LIB = true ->
  f !! lib_file_write LIB rt <> Some Dir ->
  Forall (fun l => passes (classify_lib device l) = true) pre ->
  classify_lib device d = Opens ->
  lib_yes r = true ->
  Forall (fun l => classify_lib device l = Plain) body ->
  classify_lib device cl = Closes ->
  Forall (fun l => passes (classify_lib device l) = true) post ->
  PyStr.match_end t = true ->
  exists log',
    import_lib LIB device rt lib (mkState f log (r :: rs)) =
    (inr (lib_file_read LIB rt, lib_file_write LIB rt),
     mkState (<[lib_file_write LIB rt :=
                  File (pre ++ record_only ls c ++ post ++ [t])]> f) log' rs).
Proof.
  intros Hscan Hend Hread Hdir Hw Hpre Hd Hr Hb Hc Hpost Ht.
  destruct (import_lib_run LIB device rt lib ls c f log (r :: rs)
              (pre ++ d :: body ++ cl :: post ++ t :: rest))
    as [log' E]; try done.
  { by destruct pre. }
  exists log'. rewrite E, merge_lib_gen.
  by rewrite merge_overwrite by auto using classify_lib_trailer.
Qed.

Lemma import_dcm_overwrites device rt dcm ls c f log rs0 s1 r rs
    pre d body cl post t rest :
  scan_dcm device (bool_decide (is_Some dcm))
    (match dcm with Some l => l | None => default_dcm device end)
    0 no_cursors (mkState f log rs0) = (inr (ls, c), s1) ->
  replies s1 = r :: rs ->
  index_end c <> None ->
  f !! dcm_file_read LIB rt =
    Some (File (pre ++ d :: body ++ cl :: post ++ t :: rest)) ->
  is_dir f LIB = true ->
  f !! dcm_file_write LIB rt <> Some Dir ->
  Forall (fun l => passes (classify_dcm device l) = true) pre ->
  classify_dcm device d = Opens ->
  dcm_yes r = true ->
  Forall (fun l => classify_dcm device l = Plain) body ->
  classify_dcm device cl = Closes ->
  Forall (fun l => passes (classify_dcm device l) = true) post ->
  PyStr.match_end t = true ->
  exists log',
    import_dcm LIB device rt dcm (mkState f log rs0) =
    (inr (dcm_file_read LIB rt, dcm_file_write LIB rt),
     mkState (<[dcm_file_write LIB rt :=
                  File (pre ++ record_only ls c ++ post ++ [t])]> f) log' rs).
Proof.
  intros Hscan Hrs Hend Hread Hdir Hw Hpre Hd Hr Hb Hc Hpost Ht.
  destruct (import_dcm_run LIB device rt dcm ls c f log rs0 s1
              (pre ++ d :: body ++ cl :: post ++ t :: rest))
    as [log' E]; try done.
  { by destruct pre. }
  exists log'. rewrite E, merge_dcm_gen, Hrs.
  by rewrite merge_overwrite by auto using classify_dcm_trailer.
Qed.

End StageFacts.

(** ** A second import over the result of a first one *)

Section Again.

Variable LIB : path.

Lemma import_lib_again device rt lib ls c s e f log rs1 rs2 T d body cl :
  scan_lib device rt lib 0 no_cursors = inr (ls, c) ->
  index_start c = Some s -> index_end c = Some e ->
  record_only ls c = d :: body ++ [cl] ->
  classify_lib device d = Opens ->
  Forall (fun l => classify_lib device l = Plain) body ->
  classify_lib device cl = Closes ->
  Forall (fun l => passes (classify_lib device l) = true)
         (slice ls (default s (index_header_start c)) s) ->
  T <> [] ->
  ended (merge_lib device (record_with_header ls c) (record_only ls c)
           T false false rs1) = Completed ->
  f !! lib_file_read LIB rt =
    Some (File (written (merge_lib device (record_with_header ls c)
                           (record_only ls c) T false false rs1))) ->
  is_dir f LIB = true ->
  f !! lib_file_write LIB rt <> Some Dir ->
  Forall (fun r => lib_yes r = true) rs2 ->
  length (written (merge_lib device (record_with_header ls c)
                     (record_only ls c) T false false rs1)) <= length rs2 ->
  exists log' rs',
    import_lib LIB device rt lib (mkState f log rs2) =
    (inr (lib_file_read LIB rt, lib_file_write LIB rt),
     mkState
       (<[lib_file_write LIB rt :=
            File (written (merge_lib device (record_with_header ls c)
                             (record_only ls c) T false false rs1))]> f)
       log' rs').
Proof.
  intros Hscan Es Ee Hrec Hd Hb Hc Hhdr HT Hend Hread Hdir Hw Hyes Hlen.
  destruct (scan_lib_ok _ _ _ _ _ _ _ Hscan cursors_ok_start) as [Hok _].
  pose proof (record_split ls _ c s e Hok Es Ee) as Hwh.
  assert (Hne : index_end c <> None) by (by rewrite Ee).
  destruct (import_lib_run LIB device rt lib ls c f log rs2 _ Hscan Hne Hread)
    as [log' R]; try done.
  { rewrite merge_lib_gen in *. apply merge_nonempty; try done. by rewrite Hrec. }
  rewrite !merge_lib_gen in *.
  destruct (merge_again (classify_lib device) lib_yes _ _ _ d body cl
              Hwh Hrec Hhdr Hd Hb Hc T false false rs1 rs2 Hend Hyes Hlen)
    as [rs' E].
  exists log', rs'. rewrite R, E. done.
Qed.

Lemma import_dcm_again device rt dcm ls c s e f log rs1 rs2 s2 T d body cl :
  scan_dcm device (bool_decide (is_Some dcm))
    (match dcm with Some l => l | None => default_dcm device end)
    0 no_cursors (mkState f log rs2) = (inr (ls, c), s2) ->
  index_start c = Some s -> index_end c = Some e ->
  record_only ls c = d :: body ++ [cl] ->
  classify_dcm device d = Opens ->
  Forall (fun l => classify_dcm device l = Plain) body ->
  classify_dcm device cl = Closes ->
  Forall (fun l => passes (classify_dcm device l) = true)
         (slice ls (default s (index_header_start c)) s) ->
  T <> [] ->
  ended (merge_dcm device (record_with_header ls c) (record_only ls c)
           T false false rs1) = Completed ->
  f !! dcm_file_read LIB rt =
    Some (File (written (merge_dcm device (record_with_header ls c)
                           (record_only ls c) T false false rs1))) ->
  is_dir f LIB = true ->
  f !! dcm_file_write LIB rt <> Some Dir ->
  Forall (fun r => dcm_yes r = true) (replies s2) ->
  length (written (merge_dcm device (record_with_header ls c)
                     (record_only ls c) T false false rs1))
    <= length (replies s2) ->
  exists log' rs',
    import_dcm LIB device rt dcm (mkState f log rs2) =
    (inr (dcm_file_read LIB rt, dcm_file_write LIB rt),
     mkState
       (<[dcm_file_write LIB rt :=
            File (written (merge_dcm device (record_with_header ls c)
                             (record_only ls c) T false false rs1))]> f)
       log' rs').
Proof.
  intros Hscan Es Ee Hrec Hd Hb Hc Hhdr HT Hend Hread Hdir Hw Hyes Hlen.
  pose proof (scan_dcm_ok _ _ _ _ _ _ _ _ _ Hscan cursors_ok_start) as Hok.
  pose proof (record_split ls _ c s e Hok Es Ee) as Hwh.
  assert (Hne : index_end c <> None) by (by rewrite Ee).
  destruct (import_dcm_run LIB device rt dcm ls c f log rs2 s2 _ Hscan Hne Hread)
    as [log' R]; try done.
  { rewrite merge_dcm_gen in *. apply merge_nonempty; try done. by rewrite Hrec. }
  rewrite !merge_dcm_gen in *.
  destruct (merge_again (classify_dcm device) dcm_yes _ _ _ d body cl
              Hwh Hrec Hhdr Hd Hb Hc T false false rs1 (replies s2) Hend Hyes Hlen)
    as [rs' E].
  exists log', rs'. rewrite R, E. done.
Qed.

End Again.
(** ** Qualifying the footprint reference *)

Lemma split_field_F2_FP1 rest :
  starts_blank rest = true ->
  exists ts,
    PyStr.split (field_F2_FP1 +:+ rest) = "F2" :: (dquote +:+ "FP1" +:+ dquote) :: ts.
Proof.
  intros H. unfold PyStr.split.
  destruct rest as [|ch rest]; [by eexists|].
  change (PyStr.split_aux (field_F2_FP1 +:+ String ch rest) "")
    with ("F2" :: PyStr.split_aux (String ch rest)
                    (PyStr.rev (dquote +:+ "FP1" +:+ dquote))).
  cbn [PyStr.split_aux]. cbn [starts_blank] in H. rewrite H. by eexists.
Qed.

Lemma replace1_field_F2_FP1 rest :
  PyStr.replace1 (PyStr.strip_chars dquote (dquote +:+ "FP1" +:+ dquote))
    (remote_name SAMACSYS +:+ ":" +:+
       PyStr.strip_chars dquote (dquote +:+ "FP1" +:+ dquote))
    (field_F2_FP1 +:+ rest) =
  field_F2_SAMACSYS_FP1 +:+ rest.
Proof. reflexivity. Qed.

Section Footprint.

Variable LIB : path.

Lemma import_lib_qualifies device lib ls c s e i rest f log rs T res st' :
  scan_lib device SAMACSYS lib 0 no_cursors = inr (ls, c) ->
  index_start c = Some s -> index_end c = Some e ->
  lib !! i = Some (field_F2_FP1 +:+ rest) ->
  starts_blank rest = true ->
  s < i -> i < e ->
  f !! lib_file_read LIB SAMACSYS = Some (File T) ->
  Exists (fun l => PyStr.match_end l = true) T ->
  is_dir f LIB = true ->
  f !! lib_file_write LIB SAMACSYS <> Some Dir ->
  Forall (fun r => lib_yes r = true) rs ->
  import_lib LIB device SAMACSYS lib (mkState f log rs) = (inr res, st') ->
  exists out,
    fs st' !! lib_file_write LIB SAMACSYS = Some (File out) /\
    (field_F2_SAMACSYS_FP1 +:+ rest) ∈ out.
Proof.
  intros Hscan Es Ee Hi Hrest Hlo Hhi Hread HT Hdir Hw Hyes Hrun.
  destruct (scan_lib_ok _ _ _ _ _ _ _ Hscan cursors_ok_start) as [Hok Hlen].
  destruct (scan_lib_field _ _ _ _ _ _ _ i _ s e Hscan cursors_ok_start Es Ee Hi)
    as (t0 & fp & ts & Hsplit & Hls); [simpl; lia|simpl; lia|done|].
  destruct (split_field_F2_FP1 rest Hrest) as [ts' Hs']. rewrite Hs' in Hsplit.
  injection Hsplit as <- <- <-. rewrite replace1_field_F2_FP1 in Hls.
  assert (Hne : index_end c <> None) by (by rewrite Ee).
  assert (HT' : T <> []) by (intros ->; inversion HT).
  destruct (import_lib_run LIB device SAMACSYS lib ls c f log rs T
              Hscan Hne Hread HT' Hdir Hw) as [log' R].
  rewrite R in Hrun. rewrite merge_lib_gen in Hrun.
  set (p := merge_gen _ _ _ _ _ _ _ _) in Hrun.
  assert (Hcompleted : ended p = Completed).
  { pose proof (merge_not_skipped (classify_lib device) lib_yes
                  (record_with_header ls c) (record_only ls c) T false false rs Hyes).
    fold p in H. destruct (ended p); [done|done|]. by injection Hrun. }
  rewrite Hcompleted in Hrun. injection Hrun as _ <-. cbn [fs].
  exists (written p). split; [by rewrite lookup_insert_eq|].
  apply merge_writes_record; try done.
  - eapply Exists_impl; [exact HT|]. intros l Hl. by apply classify_lib_trailer.
  - intros y Hy. rewrite (record_split ls _ c s e Hok Es Ee).
    apply elem_of_app. by right.
  - unfold record_only. rewrite Es, Ee. eapply slice_elem; [exact Hls|lia|lia].
Qed.

End Footprint.
(** ** The scans on a file cut into its parts *)

Lemma prefix_cons_inv a p l :
  String.prefix (String a p) l = true ->
  exists l', l = String a l' /\ String.prefix p l' = true.
Proof.
  destruct l as [|b l]; simpl; [done|].
  destruct (ascii_dec a b) as [->|]; [|done]. eauto.
Qed.

Lemma def_not_comment l :
  PyStr.startswith l "DEF " = true -> PyStr.startswith l "#" = false.
Proof. intros H. apply prefix_cons_inv in H as (l' & -> & _). done. Qed.

Lemma cmp_not_comment l :
  PyStr.startswith l "$CMP " = true -> PyStr.startswith l "#" = false.
Proof. intros H. apply prefix_cons_inv in H as (l' & -> & _). done. Qed.

Lemma enddef_not_field l :
  PyStr.startswith l "ENDDEF" = true -> PyStr.startswith l "F2" = false.
Proof. intros H. apply prefix_cons_inv in H as (l' & -> & _). done. Qed.

Lemma scan_lib_app device rt l1 l2 : forall idx c,
  scan_lib device rt (l1 ++ l2) idx c =
  match scan_lib device rt l1 idx c with
  | inl e => inl e
  | inr (ls1, c1) =>
      match scan_lib device rt l2 (idx + length l1) c1 with
      | inl e => inl e
      | inr (ls2, c2) => inr (ls1 ++ ls2, c2)
      end
  end.
Proof.
  induction l1 as [|l l1 IH]; intros idx c.
  - simpl. rewrite Nat.add_0_r. by destruct (scan_lib device rt l2 idx c) as [|[]].
  - rewrite <- app_comm_cons, !scan_lib_cons.
    destruct (lib_step device rt l idx c) as [e|[l' c1]]; [done|].
    rewrite IH. destruct (scan_lib device rt l1 (S idx) c1) as [e|[ls1 c2]]; [done|].
    simpl. replace (idx + S (length l1)) with (S idx + length l1) by lia.
    by destruct (scan_lib device rt l2 _ c2) as [e|[ls2 c3]].
Qed.

(** Before the record: nothing is rewritten and no cursor but the header's
    moves. *)
Lemma scan_lib_before device rt pre : forall idx c,
  Forall (fun l => PyStr.startswith l "DEF " = false) pre ->
  index_start c = None ->
  exists c1, scan_lib device rt pre idx c = inr (pre, c1) /\
             index_start c1 = None /\ index_end c1 = index_end c.
Proof.
  induction pre as [|l pre IH]; intros idx c Hpre Hc.
  - by exists c.
  - inversion Hpre as [|? ? Hl Hpre']; subst. rewrite scan_lib_cons.
    unfold lib_step. rewrite Hc, Hl.
    destruct (PyStr.startswith l "#").
    + destruct (IH (S idx) (comment_line c l idx) Hpre') as (c1 & E & H1 & H2).
      { unfold comment_line. by destruct (_ && _). }
      exists c1. rewrite E. split; [done|]. split; [done|].
      rewrite H2. unfold comment_line. by destruct (_ && _).
    + destruct (IH (S idx) (set_header c None) Hpre') as (c1 & E & H1 & H2); [done|].
      exists c1. by rewrite E.
Qed.

(** Inside the record: the cursors stay. *)
Lemma scan_lib_inside device rt body : forall idx c s,
  Forall (fun l => lib_field_ok l = true) body ->
  index_start c = Some s -> index_end c = None ->
  exists ls, scan_lib device rt body idx c = inr (ls, c).
Proof.
  induction body as [|l body IH]; intros idx c s Hb Hs He.
  - by exists [].
  - inversion Hb as [|? ? Hl Hb']; subst. rewrite scan_lib_cons.
    unfold lib_step. rewrite Hs, He. unfold lib_field_ok in Hl.
    destruct (IH (S idx) c s Hb' Hs He) as [ls E].
    destruct (PyStr.startswith l "F2").
    + destruct (PyStr.split l) as [|t0 [|fp ts]]; try done.
      rewrite E. by eexists.
    + apply negb_true_iff in Hl. rewrite Hl.
      destruct (PyStr.startswith l "F1 "); rewrite E; by eexists.
Qed.

(** After the record: any further opening line is refused. *)
Lemma scan_lib_after device rt after : forall idx c s e,
  Forall (fun l => PyStr.startswith l "DEF " = false) after ->
  index_start c = Some s -> index_end c = Some e ->
  scan_lib device rt after idx c = inr (after, c).
Proof.
  induction after as [|l after IH]; intros idx c s e Ha Hs He; [done|].
  inversion Ha as [|? ? Hl Ha']; subst. rewrite scan_lib_cons.
  unfold lib_step. rewrite Hs, He, Hl. by rewrite (IH _ _ s e).
Qed.

(** [import_lib] stops at the first exception of its scan, before it has
    touched anything. *)
Lemma import_lib_scan_fails LIB device rt lib e st :
  scan_lib device rt lib 0 no_cursors = inl e ->
  import_lib LIB device rt lib st = (inl e, st).
Proof. intros H. unfold import_lib, bind. by rewrite H. Qed.

Lemma import_lib_unexpected LIB device rt pre l post t0 name ts st :
  Forall (fun x => PyStr.startswith x "DEF " = false) pre ->
  PyStr.startswith l "DEF " = true ->
  PyStr.split l = t0 :: name :: ts ->
  PyStr.startswith name device = false ->
  import_lib LIB device rt (pre ++ l :: post) st =
  (inl (Warning UnexpectedDevice), st).
Proof.
  intros Hpre Hl Hsplit Hname. apply import_lib_scan_fails.
  rewrite scan_lib_app.
  destruct (scan_lib_before device rt pre 0 no_cursors Hpre eq_refl)
    as (c1 & -> & Hs & He).
  rewrite scan_lib_cons. unfold lib_step.
  by rewrite Hs, (def_not_comment _ Hl), Hl, Hsplit, Hname.
Qed.

Lemma import_lib_multiple LIB device rt pre d body cl after d2 post t0 name ts st :
  Forall (fun x => PyStr.startswith x "DEF " = false) pre ->
  PyStr.startswith d "DEF " = true ->
  PyStr.split d = t0 :: name :: ts ->
  PyStr.startswith name device = true ->
  Forall (fun x => lib_field_ok x = true) body ->
  PyStr.startswith cl "ENDDEF" = true ->
  Forall (fun x => PyStr.startswith x "DEF " = false) after ->
  PyStr.startswith d2 "DEF " = true ->
  import_lib LIB device rt
    (pre ++ d :: body ++ cl :: after ++ d2 :: post) st =
  (inl (Warning MultipleDevices), st).
Proof.
  intros Hpre Hd Hsplit Hname Hbody Hcl Hafter Hd2.
  apply import_lib_scan_fails.
  rewrite scan_lib_app.
  destruct (scan_lib_before device rt pre 0 no_cursors Hpre eq_refl)
    as (c1 & -> & Hs & He).
  rewrite scan_lib_cons. unfold lib_step at 1.
  rewrite Hs, (def_not_comment _ Hd), Hd, Hsplit, Hname. cbn [negb].
  rewrite scan_lib_app.
  destruct (scan_lib_inside device rt body (S (0 + length pre))
              (set_start c1 (0 + length pre)) (0 + length pre) Hbody)
    as [ls ->]; [done|done|].
  rewrite scan_lib_cons. unfold lib_step at 1. cbn [set_start index_start index_end].
  cbn in He. rewrite He, (enddef_not_field _ Hcl), Hcl.
  rewrite scan_lib_app.
  erewrite scan_lib_after; [|done|done|done].
  rewrite scan_lib_cons. unfold lib_step. cbn [set_end set_start index_start index_end].
  by rewrite Hd2.
Qed.

(** The same for [scan_dcm]. *)
Lemma scan_dcm_before device hp pre : forall idx c,
  Forall (fun l => PyStr.startswith l "$CMP " = false) pre ->
  index_start c = None ->
  exists c1,
    index_start c1 = None /\ index_end c1 = index_end c /\
    forall rest s,
      scan_dcm device hp (pre ++ rest) idx c s =
      (r <- scan_dcm device hp rest (idx + length pre) c1 ;;
       ret (pre ++ r.1, r.2)) s.
Proof.
  induction pre as [|l pre IH]; intros idx c Hpre Hc.
  - exists c. split; [done|]. split; [done|]. intros rest s. simpl.
    rewrite Nat.add_0_r. unfold bind, ret.
    by destruct (scan_dcm device hp rest idx c s) as [[e|[ls c']] s'].
  - inversion Hpre as [|? ? Hl Hpre']; subst.
    assert (Hstep : exists c0, index_start c0 = None /\ index_end c0 = index_end c /\
              forall s, dcm_step device hp l idx c s = (inr (l, c0), s)).
    { unfold dcm_step. rewrite Hc, Hl.
      destruct (PyStr.startswith l "#").
      - exists (comment_line c l idx). unfold comment_line.
        by destruct (_ && _).
      - by exists (set_header c None). }
    destruct Hstep as (c0 & H0 & H0' & Hstep).
    destruct (IH (S idx) c0 Hpre' H0) as (c1 & H1 & H1' & Hrest).
    exists c1. split; [done|]. split; [congruence|]. intros rest s.
    rewrite <- app_comm_cons, scan_dcm_cons. unfold bind at 1. rewrite Hstep.
    cbn [fst snd]. unfold bind at 1. rewrite Hrest.
    replace (idx + length (l :: pre)) with (S idx + length pre) by (simpl; lia).
    unfold bind, ret.
    by destruct (scan_dcm device hp rest (S idx + length pre) c1 s)
      as [[e|[ls c']] s'].
Qed.

Lemma scan_dcm_nested device mid l2 post : forall idx c s st,
  index_start c = Some st -> index_end c = None ->
  Forall (fun l => dcm_field_ok l = true) mid ->
  PyStr.startswith l2 "$CMP " = true ->
  length mid <= length (replies s) ->
  (scan_dcm device true (mid ++ l2 :: post) idx c s).1 =
  inl (Warning MultipleDevices).
Proof.
  induction mid as [|l mid IH]; intros idx c s st Hs He Hmid Hl2 Hlen.
  - simpl app. rewrite scan_dcm_cons. unfold bind, dcm_step.
    by rewrite Hs, He, Hl2.
  - inversion Hmid as [|? ? Hl Hmid']; subst.
    unfold dcm_field_ok in Hl. apply andb_true_iff in Hl as [Ha Hb].
    apply negb_true_iff in Ha, Hb.
    rewrite <- app_comm_cons, scan_dcm_cons. unfold bind at 1.
    assert (Hstep : exists l' s', dcm_step device true l idx c s = (inr (l', c), s') /\
                      length mid <= length (replies s')).
    { unfold dcm_step. rewrite Hs, He, Ha, Hb.
      destruct (PyStr.startswith l "D").
      - unfold bind, input. destruct s as [f log [|r rs]]; simpl in Hlen; [lia|].
        cbn [replies]. destruct (bool_decide _); eexists _, _; split; try done;
          simpl; lia.
      - destruct (PyStr.startswith l "F"); [destruct (bool_decide _)|];
          eexists _, _; (split; [done|simpl in Hlen; lia]). }
    destruct Hstep as (l' & s' & -> & Hlen'). cbn [fst snd].
    unfold bind at 1.
    pose proof (IH (S idx) c s' st Hs He Hmid' Hl2 Hlen') as E.
    destruct (scan_dcm device true (mid ++ l2 :: post) (S idx) c s')
      as [[e|[ls c']] s'']; simpl in E; [by simplify_eq|done].
Qed.

(** [import_dcm] stops at the first exception of its scan, with the file
    system and the ledger as they were. *)
Lemma import_dcm_scan_fails LIB device rt dcm e st :
  (scan_dcm device (bool_decide (is_Some dcm))
     (match dcm with Some l => l | None => default_dcm device end)
     0 no_cursors st).1 = inl e ->
  exists st', import_dcm LIB device rt dcm st = (inl e, st') /\ same_store st st'.
Proof.
  intros H. unfold import_dcm. unfold bind at 1.
  pose proof (scan_dcm_frame device (bool_decide (is_Some dcm))
    (match dcm with Some l => l | None => default_dcm device end)
    0 no_cursors st) as Hsame.
  destruct (scan_dcm _ _ _ _ _ st) as [[e'|r] st']; simpl in H; simplify_eq.
  by exists st'.
Qed.

Lemma import_dcm_unexpected LIB device rt pre l post st :
  Forall (fun x => PyStr.startswith x "$CMP " = false) pre ->
  PyStr.startswith l "$CMP " = true ->
  PyStr.startswith (PyStr.strip (PyStr.drop 5 l)) device = false ->
  import_dcm LIB device rt (Some (pre ++ l :: post)) st =
  (inl (Warning UnexpectedDevice), st).
Proof.
  intros Hpre Hl Hname. unfold import_dcm. unfold bind at 1.
  destruct (scan_dcm_before device true pre 0 no_cursors Hpre eq_refl)
    as (c1 & Hs & He & Hscan).
  replace (bool_decide (is_Some (Some (pre ++ l :: post)))) with true
    by (symmetry; by apply bool_decide_eq_true_2).
  rewrite Hscan. unfold bind at 1. rewrite scan_dcm_cons. unfold bind at 1.
  unfold dcm_step. by rewrite Hs, (cmp_not_comment _ Hl), Hl, Hname.
Qed.

Lemma import_dcm_multiple LIB device rt pre l1 mid l2 post st :
  Forall (fun x => PyStr.startswith x "$CMP " = false) pre ->
  PyStr.startswith l1 "$CMP " = true ->
  PyStr.startswith (PyStr.strip (PyStr.drop 5 l1)) device = true ->
  Forall (fun x => dcm_field_ok x = true) mid ->
  PyStr.startswith l2 "$CMP " = true ->
  length mid <= length (replies st) ->
  exists st',
    import_dcm LIB device rt (Some (pre ++ l1 :: mid ++ l2 :: post)) st =
    (inl (Warning MultipleDevices), st') /\ same_store st st'.
Proof.
  intros Hpre Hl1 Hname Hmid Hl2 Hlen. apply import_dcm_scan_fails.
  destruct (scan_dcm_before device true pre 0 no_cursors Hpre eq_refl)
    as (c1 & Hs & He & Hscan).
  replace (bool_decide (is_Some (Some (pre ++ l1 :: mid ++ l2 :: post)))) with true
    by (symmetry; by apply bool_decide_eq_true_2).
  rewrite Hscan. unfold bind at 1. rewrite scan_dcm_cons. unfold bind at 1.
  unfold dcm_step at 1. rewrite Hs, (cmp_not_comment _ Hl1), Hl1, Hname.
  cbn [negb ret fst snd]. unfold bind at 1.
  pose proof (scan_dcm_nested device mid l2 post (S (0 + length pre))
    (set_start c1 (0 + length pre)) st (0 + length pre) eq_refl He Hmid Hl2 Hlen) as E.
  destruct (scan_dcm device true (mid ++ l2 :: post) _ _ st)
    as [[e|[ls c']] s'']; simpl in E; by simplify_eq.
Qed.
(** ** The record a scan locates in a well-formed file *)

Lemma scan_lib_inside_fields device rt body : forall idx c s,
  Forall (fun l => lib_field_ok l = true) body ->
  index_start c = Some s -> index_end c = None ->
  scan_lib device rt body idx c = inr (map (lib_field device rt) body, c).
Proof.
  induction body as [|l body IH]; intros idx c s Hb Hs He; [done|].
  inversion Hb as [|? ? Hl Hb']; subst. rewrite scan_lib_cons.
  change (map (lib_field device rt) (l :: body))
    with (lib_field device rt l :: map (lib_field device rt) body).
  unfold lib_step. unfold lib_field at 1. rewrite Hs, He. unfold lib_field_ok in Hl.
  pose proof (IH (S idx) c s Hb' Hs He) as E.
  destruct (PyStr.startswith l "F2").
  - destruct (PyStr.split l) as [|t0 [|fp ts]]; try done. by rewrite E.
  - apply negb_true_iff in Hl. rewrite Hl.
    destruct (PyStr.startswith l "F1 "); by rewrite E.
Qed.

Lemma scan_lib_comments device rt hdr : forall idx c,
  Forall (fun l => PyStr.startswith l "#" = true) hdr ->
  index_start c = None ->
  index_header_start c <> None ->
  scan_lib device rt hdr idx c = inr (hdr, c).
Proof.
  induction hdr as [|l hdr IH]; intros idx c Hh Hs Hc; [done|].
  inversion Hh as [|? ? Hl Hh']; subst. rewrite scan_lib_cons.
  unfold lib_step. rewrite Hs, Hl. unfold comment_line.
  rewrite (bool_decide_eq_false_2 (index_header_start c = None)) by done.
  rewrite andb_false_r. by rewrite IH.
Qed.

Lemma scan_lib_header device rt hdr idx c :
  header_block hdr -> hdr <> [] ->
  index_start c = None -> index_header_start c = None ->
  scan_lib device rt hdr idx c = inr (hdr, set_header c (Some idx)).
Proof.
  destruct hdr as [|h hdr]; [done|]. intros [Hbare Hall] _ Hs Hh.
  inversion Hall as [|? ? Hl Hall']; subst. rewrite scan_lib_cons.
  unfold lib_step. rewrite Hs, Hl. unfold comment_line.
  rewrite (bool_decide_eq_true_2 _ Hbare), (bool_decide_eq_true_2 _ Hh).
  cbn [andb]. by rewrite scan_lib_comments.
Qed.

Lemma slice_app_mid {A} (a m b : list A) :
  slice (a ++ m ++ b) (length a) (length a + length m) = m.
Proof.
  unfold slice. rewrite drop_app_length.
  replace (length a + length m - length a) with (length m) by lia.
  by rewrite take_app_length.
Qed.

(** A file with one record of the device: anything without an opening line
    first, ending (if not empty) with a line that is no comment; then the
    header block, the opening line, the fields, the closing line, and the
    rest without a further opening line. *)
Lemma scan_lib_locates device rt before hdr d body cl after t0 name ts :
  Forall (fun x => PyStr.startswith x "DEF " = false) before ->
  (forall x, last before = Some x -> PyStr.startswith x "#" = false) ->
  header_block hdr ->
  PyStr.startswith d "DEF " = true ->
  PyStr.split d = t0 :: name :: ts ->
  PyStr.startswith name device = true ->
  Forall (fun x => lib_field_ok x = true) body ->
  PyStr.startswith cl "ENDDEF" = true ->
  Forall (fun x => PyStr.startswith x "DEF " = false) after ->
  exists ls c,
    scan_lib device rt (before ++ hdr ++ d :: body ++ cl :: after) 0 no_cursors
      = inr (ls, c) /\
    index_end c <> None /\
    record_with_header ls c =
      hdr ++ PyStr.replace1 name device d :: map (lib_field device rt) body ++ [cl] /\
    record_only ls c =
      PyStr.replace1 name device d :: map (lib_field device rt) body ++ [cl].
Proof.
  intros Hbefore Hlast Hhdr Hd Hsplit Hname Hbody Hcl Hafter.
  (* the lines before the header leave no header cursor *)
  assert (Hb : exists c1, scan_lib device rt before 0 no_cursors = inr (before, c1) /\
                          c1 = no_cursors).
  { clear -Hbefore Hlast. revert Hlast.
    generalize 0. induction before as [|x before IH] using rev_ind; intros n Hlast.
    - by exists no_cursors.
    - apply Forall_app in Hbefore as [Hb Hx]. inversion Hx as [|? ? Hx' _]; subst.
      destruct (scan_lib_before device rt before n no_cursors Hb eq_refl)
        as (c1 & E & Hs & He).
      exists no_cursors. split; [|done].
      rewrite scan_lib_app, E, scan_lib_cons. unfold lib_step.
      rewrite Hs, Hx', (Hlast x) by (by rewrite last_snoc).
      cbn. destruct c1 as [s1 e1 h1]. cbn in *. by subst. }
  destruct Hb as (c1 & Eb & ->).
  set (nb := length before). set (nh := length hdr).
  set (c2 := if decide (hdr = []) then no_cursors
             else set_header no_cursors (Some (0 + nb))).
  assert (Eh : scan_lib device rt hdr (0 + nb) no_cursors = inr (hdr, c2)).
  { unfold c2. destruct (decide (hdr = [])) as [->|Hne]; [done|].
    by apply scan_lib_header. }
  assert (Hc2 : index_start c2 = None /\ index_end c2 = None /\
                index_header_start c2 = if decide (hdr = []) then None else Some nb).
  { unfold c2. by destruct (decide (hdr = [])). }
  destruct Hc2 as (Hs2 & He2 & Hh2).
  set (c3 := set_start c2 (0 + nb + nh)).
  set (c4 := set_end c3 (S (0 + nb + nh) + length body + 1)).
  exists (before ++ hdr ++ PyStr.replace1 name device d ::
          map (lib_field device rt) body ++ cl :: after), c4.
  split.
  { rewrite scan_lib_app, Eb. fold nb. rewrite scan_lib_app, Eh. fold nh.
    rewrite scan_lib_cons. unfold lib_step at 1.
    rewrite Hs2, (def_not_comment _ Hd), Hd, Hsplit, Hname. cbn [negb].
    fold c3. rewrite scan_lib_app.
    rewrite (scan_lib_inside_fields device rt body _ c3 (0 + nb + nh)); [|done|done|done].
    rewrite scan_lib_cons. unfold lib_step at 1.
    replace (index_start c3) with (Some (0 + nb + nh)) by done.
    replace (index_end c3) with (@None nat) by done.
    rewrite (enddef_not_field _ Hcl), Hcl. fold c4.
    rewrite (scan_lib_after device rt after _ c4 (0 + nb + nh)
               (S (0 + nb + nh) + length body + 1)); [|done|done|done].
    done. }
  split; [done|].
  set (R := PyStr.replace1 name device d :: map (lib_field device rt) body ++ [cl]).
  assert (HR : length R = length body + 2).
  { unfold R. cbn [length]. rewrite length_app, length_map. cbn [length]. lia. }
  assert (Hls1 : before ++ hdr ++ PyStr.replace1 name device d ::
                   map (lib_field device rt) body ++ cl :: after =
                 (before ++ hdr) ++ R ++ after).
  { unfold R. rewrite <- !app_assoc. cbn [app]. by rewrite <- !app_assoc. }
  assert (Hls2 : before ++ hdr ++ PyStr.replace1 name device d ::
                   map (lib_field device rt) body ++ cl :: after =
                 before ++ (hdr ++ R) ++ after).
  { unfold R. rewrite <- !app_assoc. cbn [app]. by rewrite <- !app_assoc. }
  assert (Hstart : 0 + nb + nh = length (before ++ hdr))
    by (rewrite length_app; unfold nb, nh; lia).
  assert (Hend : S (0 + nb + nh) + length body + 1 = length (before ++ hdr) + length R)
    by lia.
  unfold record_with_header, record_only.
  cbn [c4 c3 set_end set_start index_start index_end index_header_start].
  rewrite Hh2, Hend, Hstart. split.
  - destruct (decide (hdr = [])) as [->|Hne].
    + rewrite Hls1. by rewrite slice_app_mid.
    + rewrite Hls2. unfold nb.
      replace (length (before ++ hdr) + length R)
        with (length before + length (hdr ++ R))
        by (rewrite !length_app; lia).
      by rewrite slice_app_mid.
  - rewrite Hls1. by rewrite slice_app_mid.
Qed.
(** ** The record a scan locates, with notes above the header block *)

Lemma record_of_cursors (lead hdr R after : list string) h :
  h = (if decide (hdr = []) then None else Some (length lead)) ->
  record_with_header (lead ++ hdr ++ R ++ after)
    (mkCursors (Some (length lead + length hdr))
               (Some (length lead + length hdr + length R)) h) = hdr ++ R /\
  record_only (lead ++ hdr ++ R ++ after)
    (mkCursors (Some (length lead + length hdr))
               (Some (length lead + length hdr + length R)) h) = R.
Proof.
  intros ->. unfold record_with_header, record_only.
  cbn [index_start index_end index_header_start].
  assert (H1 : lead ++ hdr ++ R ++ after = (lead ++ hdr) ++ R ++ after)
    by (by rewrite <- !app_assoc).
  assert (H2 : lead ++ hdr ++ R ++ after = lead ++ (hdr ++ R) ++ after)
    by (by rewrite <- !app_assoc).
  assert (HL : length lead + length hdr = length (lead ++ hdr))
    by (by rewrite length_app).
  split.
  - destruct (decide (hdr = [])) as [->|Hne].
    + rewrite H1, HL. by rewrite slice_app_mid.
    + rewrite H2.
      replace (length lead + length hdr + length R)
        with (length lead + length (hdr ++ R)) by (rewrite !length_app; lia).
      by rewrite slice_app_mid.
  - rewrite H1, HL. by rewrite slice_app_mid.
Qed.

Lemma note_is_comment l : is_note l = true -> PyStr.startswith l "#" = true.
Proof. unfold is_note. by intros [H _]%andb_true_iff. Qed.

Lemma note_keeps_cursors c l idx : is_note l = true -> comment_line c l idx = c.
Proof.
  unfold is_note, comment_line. intros [_ H]%andb_true_iff.
  apply negb_true_iff in H. by rewrite H.
Qed.

Lemma scan_lib_notes device rt notes : forall idx c,
  Forall (fun l => is_note l = true) notes ->
  index_start c = None ->
  scan_lib device rt notes idx c = inr (notes, c).
Proof.
  induction notes as [|l notes IH]; intros idx c Hn Hs; [done|].
  inversion Hn as [|? ? Hl Hn']; subst. rewrite scan_lib_cons.
  unfold lib_step. rewrite Hs, (note_is_comment _ Hl), (note_keeps_cursors _ _ _ Hl).
  by rewrite IH.
Qed.

(** The lines above the notes: no opening line among them, and the last of
    them, if there is one, is no comment. *)
Lemma scan_lib_lead device rt before : forall idx,
  Forall (fun x => PyStr.startswith x "DEF " = false) before ->
  (forall x, last before = Some x -> PyStr.startswith x "#" = false) ->
  scan_lib device rt before idx no_cursors = inr (before, no_cursors).
Proof.
  intros idx Hbefore Hlast. revert idx.
  induction before as [|x before IH] using rev_ind; intros n; [done|].
  apply Forall_app in Hbefore as [Hb Hx]. inversion Hx as [|? ? Hx' _]; subst.
  destruct (scan_lib_before device rt before n no_cursors Hb eq_refl)
    as (c1 & E & Hs & He).
  rewrite scan_lib_app, E, scan_lib_cons. unfold lib_step.
  rewrite Hs, Hx', (Hlast x) by (by rewrite last_snoc).
  cbn. destruct c1 as [s1 e1 h1]. cbn in *. by subst.
Qed.

Lemma scan_lib_locates_notes device rt before notes hdr d body cl after t0 name ts :
  Forall (fun x => PyStr.startswith x "DEF " = false) before ->
  (forall x, last before = Some x -> PyStr.startswith x "#" = false) ->
  Forall (fun x => is_note x = true) notes ->
  header_block hdr ->
  PyStr.startswith d "DEF " = true ->
  PyStr.split d = t0 :: name :: ts ->
  PyStr.startswith name device = true ->
  Forall (fun x => lib_field_ok x = true) body ->
  PyStr.startswith cl "ENDDEF" = true ->
  Forall (fun x => PyStr.startswith x "DEF " = false) after ->
  exists ls c,
    scan_lib device rt (before ++ notes ++ hdr ++ d :: body ++ cl :: after)
      0 no_cursors = inr (ls, c) /\
    index_end c <> None /\
    record_with_header ls c =
      hdr ++ PyStr.replace1 name device d :: map (lib_field device rt) body ++ [cl] /\
    record_only ls c =
      PyStr.replace1 name device d :: map (lib_field device rt) body ++ [cl].
Proof.
  intros Hbefore Hlast Hnotes Hhdr Hd Hsplit Hname Hbody Hcl Hafter.
  set (lead := before ++ notes).
  set (R := PyStr.replace1 name device d :: map (lib_field device rt) body ++ [cl]).
  set (h := if decide (hdr = []) then None else Some (length lead)).
  set (c2 := mkCursors None None h).
  set (c3 := mkCursors (Some (length lead + length hdr)) None h).
  set (c4 := mkCursors (Some (length lead + length hdr))
                       (Some (length lead + length hdr + length R)) h).
  assert (El : scan_lib device rt lead 0 no_cursors = inr (lead, no_cursors)).
  { unfold lead. rewrite scan_lib_app, scan_lib_lead by done.
    by rewrite scan_lib_notes. }
  assert (Eh : scan_lib device rt hdr (0 + length lead) no_cursors = inr (hdr, c2)).
  { unfold c2, h. destruct (decide (hdr = [])) as [->|Hne]; [done|].
    by rewrite scan_lib_header. }
  assert (HR : length R = S (length body + 1)).
  { unfold R. cbn [length]. by rewrite length_app, length_map. }
  exists (lead ++ hdr ++ R ++ after), c4. split; [|split].
  - replace (before ++ notes ++ hdr ++ d :: body ++ cl :: after)
      with (lead ++ hdr ++ d :: body ++ cl :: after)
      by (unfold lead; by rewrite <- app_assoc).
    rewrite scan_lib_app, El, scan_lib_app, Eh.
    rewrite scan_lib_cons. unfold lib_step at 1.
    replace (index_start c2) with (@None nat) by done.
    rewrite (def_not_comment _ Hd), Hd, Hsplit, Hname. cbn [negb].
    replace (set_start c2 (0 + length lead + length hdr)) with c3 by done.
    rewrite scan_lib_app.
    rewrite (scan_lib_inside_fields device rt body _ c3 (length lead + length hdr));
      [|done|done|done].
    rewrite scan_lib_cons. unfold lib_step at 1.
    replace (index_start c3) with (Some (length lead + length hdr)) by done.
    replace (index_end c3) with (@None nat) by done.
    rewrite (enddef_not_field _ Hcl), Hcl.
    replace (set_end c3 (S (0 + length lead + length hdr) + length body + 1))
      with c4
      by (unfold c4, c3, set_end; cbn [index_start index_end index_header_start];
          rewrite HR; f_equal; f_equal; lia).
    rewrite (scan_lib_after device rt after _ c4 (length lead + length hdr)
               (length lead + length hdr + length R)); [|done|done|done].
    unfold R. cbn [app]. by rewrite <- app_assoc.
  - done.
  - by apply record_of_cursors.
Qed.

(** ** The same for the documentation file *)

Lemma scan_dcm_app device hp l1 : forall l2 idx c s ls1 c1 s1,
  scan_dcm device hp l1 idx c s = (inr (ls1, c1), s1) ->
  scan_dcm device hp (l1 ++ l2) idx c s =
  (r <- scan_dcm device hp l2 (idx + length l1) c1 ;;
   ret (ls1 ++ r.1, r.2)) s1.
Proof.
  induction l1 as [|a l1 IH]; intros l2 idx c s ls1 c1 s1.
  - cbn [scan_dcm]. unfold ret at 1. intros [= <- <- <-]. cbn [app length].
    rewrite Nat.add_0_r. unfold bind, ret.
    by destruct (scan_dcm device hp l2 idx c s) as [[e|[ls c']] s'].
  - intros H. rewrite <- app_comm_cons. rewrite scan_dcm_cons in H.
    rewrite scan_dcm_cons. revert H. unfold bind.
    destruct (dcm_step device hp a idx c s) as [[e|[a' c0]] s0]; [done|].
    cbn [fst snd].
    destruct (scan_dcm device hp l1 (S idx) c0 s0) as [[e|[ls c']] s'] eqn:E; [done|].
    unfold ret. cbn [fst snd]. intros [= <- <- <-].
    pose proof (IH l2 _ _ _ _ _ _ E) as IH'. unfold bind, ret in IH'. rewrite IH'.
    replace (idx + length (a :: l1)) with (S idx + length l1) by (cbn; lia).
    by destruct (scan_dcm device hp l2 (S idx + length l1) c' s') as [[e|[ls2 c2]] s2].
Qed.

Lemma scan_dcm_notes device hp notes : forall idx c s,
  Forall (fun l => is_note l = true) notes ->
  index_start c = None ->
  scan_dcm device hp notes idx c s = (inr (notes, c), s).
Proof.
  induction notes as [|l notes IH]; intros idx c s Hn Hs; [done|].
  inversion Hn as [|? ? Hl Hn']; subst. rewrite scan_dcm_cons.
  unfold bind at 1. unfold dcm_step.
  rewrite Hs, (note_is_comment _ Hl), (note_keeps_cursors _ _ _ Hl).
  unfold ret at 1. cbn [fst snd]. unfold bind. by rewrite IH.
Qed.

Lemma scan_dcm_comments device hp hdr : forall idx c s,
  Forall (fun l => PyStr.startswith l "#" = true) hdr ->
  index_start c = None ->
  index_header_start c <> None ->
  scan_dcm device hp hdr idx c s = (inr (hdr, c), s).
Proof.
  induction hdr as [|l hdr IH]; intros idx c s Hh Hs Hc; [done|].
  inversion Hh as [|? ? Hl Hh']; subst. rewrite scan_dcm_cons.
  unfold bind at 1. unfold dcm_step. rewrite Hs, Hl. unfold comment_line.
  rewrite (bool_decide_eq_false_2 (index_header_start c = None)) by done.
  rewrite andb_false_r. unfold ret at 1. cbn [fst snd]. unfold bind.
  by rewrite IH.
Qed.

Lemma scan_dcm_header device hp hdr idx c s :
  header_block hdr -> hdr <> [] ->
  index_start c = None -> index_header_start c = None ->
  scan_dcm device hp hdr idx c s = (inr (hdr, set_header c (Some idx)), s).
Proof.
  destruct hdr as [|h hdr]; [done|]. intros [Hbare Hall] _ Hs Hh.
  inversion Hall as [|? ? Hl Hall']; subst. rewrite scan_dcm_cons.
  unfold bind at 1. unfold dcm_step. rewrite Hs, Hl. unfold comment_line.
  rewrite (bool_decide_eq_true_2 _ Hbare), (bool_decide_eq_true_2 _ Hh).
  cbn [andb]. unfold ret at 1. cbn [fst snd]. unfold bind.
  by rewrite scan_dcm_comments.
Qed.

Lemma scan_dcm_lead device hp before : forall idx s,
  Forall (fun x => PyStr.startswith x "$CMP " = false) before ->
  (forall x, last before = Some x -> PyStr.startswith x "#" = false) ->
  scan_dcm device hp before idx no_cursors s = (inr (before, no_cursors), s).
Proof.
  intros idx s Hbefore Hlast. revert idx.
  induction before as [|x before IH] using rev_ind; intros n; [done|].
  apply Forall_app in Hbefore as [Hb Hx]. inversion Hx as [|? ? Hx' _]; subst.
  destruct (scan_dcm_before device hp before n no_cursors Hb eq_refl)
    as (c1 & Hs & He & Hrun).
  rewrite Hrun. unfold bind at 1. rewrite scan_dcm_cons. unfold bind at 1.
  unfold dcm_step.
  rewrite Hs, Hx', (Hlast x) by (by rewrite last_snoc).
  unfold ret at 1. cbn [fst snd scan_dcm]. unfold bind, ret. cbn [fst snd].
  destruct c1 as [s1 e1 h1]. cbn in *. by subst.
Qed.

Lemma scan_dcm_fields device hp f log body : forall idx c st rs fields rs',
  index_start c = Some st -> index_end c = None ->
  Forall (fun l => dcm_field_ok l = true) body ->
  dcm_fields body rs = Some (fields, rs') ->
  scan_dcm device hp body idx c (mkState f log rs) =
  (inr (fields, c), mkState f log rs').
Proof.
  induction body as [|l body IH]; intros idx c st rs fields rs' Hs He Hb.
  - cbn [dcm_fields scan_dcm]. by intros [= <- <-].
  - inversion Hb as [|? ? Hl Hb']; subst. cbn [dcm_fields].
    unfold dcm_field_ok in Hl. apply andb_true_iff in Hl as [H1 H2].
    apply negb_true_iff in H1, H2.
    rewrite scan_dcm_cons. unfold bind at 1. unfold dcm_step.
    rewrite Hs, He, H1, H2.
    destruct (PyStr.startswith l "D").
    + destruct rs as [|r rs0]; [done|].
      destruct (dcm_fields body rs0) as [[fs0 rs1]|] eqn:E; [|done].
      intros [= <- <-]. mrun.
      destruct (bool_decide _); mrun;
        by rewrite (IH (S idx) c st rs0 fs0 rs1) by done.
    + destruct (dcm_fields body rs) as [[fs0 rs1]|] eqn:E; [|done].
      intros [= <- <-].
      destruct (PyStr.startswith l "F").
      * destruct (bool_decide _); mrun;
          by rewrite (IH (S idx) c st rs fs0 rs1) by done.
      * mrun. by rewrite (IH (S idx) c st rs fs0 rs1) by done.
Qed.

Lemma scan_dcm_done device hp after : forall idx c s st e,
  index_start c = Some st -> index_end c = Some e ->
  scan_dcm device hp after idx c s = (inr (after, c), s).
Proof.
  induction after as [|l after IH]; intros idx c s st e Hs He; [done|].
  rewrite scan_dcm_cons. unfold bind at 1. unfold dcm_step. rewrite Hs, He.
  unfold ret at 1. cbn [fst snd]. unfold bind. by rewrite (IH _ _ _ st e).
Qed.

Lemma endcmp_not_cmp l :
  PyStr.startswith l "$ENDCMP" = true -> PyStr.startswith l "$CMP " = false.
Proof.
  unfold PyStr.startswith. intros H.
  apply prefix_cons_inv in H as (l1 & -> & H).
  apply prefix_cons_inv in H as (l2 & -> & H). done.
Qed.

Lemma scan_dcm_locates device hp before notes hdr d body cl after f log rs fields rs' :
  Forall (fun x => PyStr.startswith x "$CMP " = false) before ->
  (forall x, last before = Some x -> PyStr.startswith x "#" = false) ->
  Forall (fun x => is_note x = true) notes ->
  header_block hdr ->
  PyStr.startswith d "$CMP " = true ->
  PyStr.startswith (PyStr.strip (PyStr.drop 5 d)) device = true ->
  Forall (fun x => dcm_field_ok x = true) body ->
  dcm_fields body rs = Some (fields, rs') ->
  PyStr.startswith cl "$ENDCMP" = true ->
  exists ls c,
    scan_dcm device hp (before ++ notes ++ hdr ++ d :: body ++ cl :: after)
      0 no_cursors (mkState f log rs) = (inr (ls, c), mkState f log rs') /\
    index_end c <> None /\
    record_with_header ls c =
      hdr ++ PyStr.replace1 (PyStr.strip (PyStr.drop 5 d)) device d :: fields ++ [cl] /\
    record_only ls c =
      PyStr.replace1 (PyStr.strip (PyStr.drop 5 d)) device d :: fields ++ [cl].
Proof.
  intros Hbefore Hlast Hnotes Hhdr Hd Hname Hbody Hfields Hcl.
  set (lead := before ++ notes).
  set (R := PyStr.replace1 (PyStr.strip (PyStr.drop 5 d)) device d :: fields ++ [cl]).
  set (h := if decide (hdr = []) then None else Some (length lead)).
  set (c2 := mkCursors None None h).
  set (c3 := mkCursors (Some (length lead + length hdr)) None h).
  set (c4 := mkCursors (Some (length lead + length hdr))
                       (Some (length lead + length hdr + length R)) h).
  set (s0 := mkState f log rs). set (s1 := mkState f log rs').
  assert (Hlen : length fields = length body).
  { clear -Hfields. revert rs fields rs' Hfields.
    induction body as [|l body IH]; intros rs fields rs'; cbn [dcm_fields].
    - by intros [= <- _].
    - destruct (PyStr.startswith l "D").
      + destruct rs as [|r rs0]; [done|].
        destruct (dcm_fields body rs0) as [[fs0 rs1]|] eqn:E; [|done].
        intros [= <- _]. cbn. f_equal. by eapply IH.
      + destruct (dcm_fields body rs) as [[fs0 rs1]|] eqn:E; [|done].
        intros [= <- _]. cbn. f_equal. by eapply IH. }
  assert (HR : length R = S (length body + 1)).
  { unfold R. cbn [length]. rewrite length_app, Hlen. done. }
  assert (E1 : scan_dcm device hp before 0 no_cursors s0 = (inr (before, no_cursors), s0))
    by (by apply scan_dcm_lead).
  assert (E2 : scan_dcm device hp notes (0 + length before) no_cursors s0 =
               (inr (notes, no_cursors), s0))
    by (by apply scan_dcm_notes).
  assert (E3 : scan_dcm device hp hdr (0 + length before + length notes) no_cursors s0 =
               (inr (hdr, c2), s0)).
  { unfold c2, h. destruct (decide (hdr = [])) as [->|Hne]; [done|].
    rewrite scan_dcm_header by done. unfold lead. by rewrite length_app. }
  assert (E4 : scan_dcm device hp [d] (0 + length before + length notes + length hdr)
                 c2 s0 =
               (inr ([PyStr.replace1 (PyStr.strip (PyStr.drop 5 d)) device d], c3), s0)).
  { rewrite scan_dcm_cons. unfold bind at 1. unfold dcm_step.
    replace (index_start c2) with (@None nat) by done.
    rewrite (cmp_not_comment _ Hd), Hd, Hname. cbn [negb].
    unfold ret at 1. cbn [fst snd scan_dcm]. unfold bind, ret. cbn [fst snd].
    replace (0 + length before + length notes + length hdr)
      with (length lead + length hdr)
      by (unfold lead; rewrite length_app; lia).
    done. }
  assert (E5 : forall i, scan_dcm device hp body i c3 s0 = (inr (fields, c3), s1)).
  { intros i. by apply (scan_dcm_fields _ _ _ _ _ _ _ (length lead + length hdr)). }
  assert (E6 : scan_dcm device hp [cl]
                 (0 + length before + length notes + length hdr + 1 + length body)
                 c3 s1 = (inr ([cl], c4), s1)).
  { rewrite scan_dcm_cons. unfold bind at 1. unfold dcm_step.
    replace (index_start c3) with (Some (length lead + length hdr)) by done.
    replace (index_end c3) with (@None nat) by done.
    rewrite (endcmp_not_cmp _ Hcl), Hcl.
    unfold ret at 1. cbn [fst snd scan_dcm]. unfold bind, ret. cbn [fst snd].
    replace (0 + length before + length notes + length hdr + 1 + length body + 1)
      with (length lead + length hdr + length R)
      by (unfold lead; rewrite HR, length_app; lia).
    done. }
  assert (E7 : forall i, scan_dcm device hp after i c4 s1 = (inr (after, c4), s1)).
  { intros i. by apply (scan_dcm_done _ _ _ _ _ _ (length lead + length hdr)
                          (length lead + length hdr + length R)). }
  exists (lead ++ hdr ++ R ++ after), c4. split; [|split].
  - rewrite (scan_dcm_app _ _ _ _ _ _ _ _ _ _ E1). unfold bind at 1.
    rewrite (scan_dcm_app _ _ _ _ _ _ _ _ _ _ E2). unfold bind at 1.
    rewrite (scan_dcm_app _ _ _ _ _ _ _ _ _ _ E3). unfold bind at 1.
    change (d :: body ++ cl :: after) with ([d] ++ body ++ [cl] ++ after).
    rewrite (scan_dcm_app _ _ _ _ _ _ _ _ _ _ E4). unfold bind at 1.
    rewrite (scan_dcm_app _ _ _ _ _ _ _ _ _ _ (E5 _)). unfold bind at 1.
    rewrite (scan_dcm_app _ _ _ _ _ _ _ _ _ _ E6). unfold bind at 1.
    rewrite E7. unfold ret. cbn [fst snd]. unfold lead, R.
    cbn [app]. rewrite <- !app_assoc. done.
  - done.
  - by apply record_of_cursors.
Qed.
(** ** The ledger *)

Lemma dict_set_fresh d k v :
  dict_get d k = None -> dict_set d k v = d ++ [(k, v)].
Proof.
  induction d as [|[k' v'] d IH]; simpl; [done|].
  destruct (decide (k' = k)); [done|]. intros H. by rewrite IH.
Qed.

Lemma dict_set_present d k v v0 :
  dict_get d k = Some v0 ->
  map fst (dict_set d k v) = map fst d /\ length (dict_set d k v) = length d.
Proof.
  induction d as [|[k' v'] d IH]; simpl; [done|].
  destruct (decide (k' = k)); [done|]. intros H.
  destruct (IH H) as [E1 E2]. simpl. split; by f_equal.
Qed.

Lemma dict_get_set d k v : dict_get (dict_set d k v) k = Some v.
Proof.
  induction d as [|[k' v'] d IH]; simpl.
  - by rewrite decide_True.
  - destruct (decide (k' = k)) as [->|Hne]; simpl.
    + by rewrite decide_True.
    + by rewrite decide_False.
Qed.

Lemma dict_get_set_other d k v k' :
  k' <> k -> dict_get (dict_set d k v) k' = dict_get d k'.
Proof.
  intros Hne. induction d as [|[k0 v0] d IH]; simpl.
  - by rewrite decide_False.
  - destruct (decide (k0 = k)) as [->|Hne0]; simpl.
    + by rewrite !decide_False.
    + by rewrite IH.
Qed.

Lemma dict_set_keys d k v : map fst d `prefix_of` map fst (dict_set d k v).
Proof.
  destruct (dict_get d k) as [v0|] eqn:E.
  - by destruct (dict_set_present d k v v0 E) as [-> _].
  - rewrite (dict_set_fresh d k v E), map_app. by apply prefix_app_r.
Qed.

Lemma appended_keys adds : forall d,
  map fst d `prefix_of` map fst (appended adds d).
Proof.
  induction adds as [|[k v] adds IH]; intros d; simpl; [done|].
  etrans; [apply dict_set_keys|apply IH].
Qed.

Lemma appended_app a b d : appended (a ++ b) d = appended b (appended a d).
Proof. unfold appended. by rewrite fold_left_app. Qed.

Lemma logs_only_refl s : logs_only s s.
Proof. by exists []. Qed.

Lemma logs_only_same s s' :
  modified_objects s' = modified_objects s -> logs_only s s'.
Proof. intros H. by exists []. Qed.

Lemma logs_only_trans s1 s2 s3 :
  logs_only s1 s2 -> logs_only s2 s3 -> logs_only s1 s3.
Proof.
  intros (a & Ha & Fa) (b & Hb & Fb). exists (a ++ b). split.
  - by rewrite appended_app, <- Ha.
  - by apply Forall_app.
Qed.

Lemma logs_only_keys s s' :
  logs_only s s' ->
  map fst (modified_objects s) `prefix_of` map fst (modified_objects s').
Proof. intros (adds & -> & _). apply appended_keys. Qed.

(** *** Every step of the program only appends *)

Lemma logging_ret {A} (a : A) : logging (ret a).
Proof. intros s. apply logs_only_refl. Qed.

Lemma logging_raise {A} e : logging (@raise A e).
Proof. intros s. apply logs_only_refl. Qed.

Lemma logging_lift {A} (r : exn + A) : logging (lift r).
Proof. destruct r; [apply logging_raise|apply logging_ret]. Qed.

Lemma logging_bind {A B} (c : M A) (k : A -> M B) :
  logging c -> (forall a, logging (k a)) -> logging (bind c k).
Proof.
  intros Hc Hk s. unfold bind. specialize (Hc s).
  destruct (c s) as [[e|a] s1]; [done|].
  eapply logs_only_trans; [exact Hc|apply Hk].
Qed.

Lemma logging_get_fs : logging get_fs.
Proof. intros s. apply logs_only_refl. Qed.

Lemma logging_put_fs f : logging (put_fs f).
Proof. intros s. by apply logs_only_same. Qed.

Lemma logging_get_replies : logging get_replies.
Proof. intros s. apply logs_only_refl. Qed.

Lemma logging_put_replies rs : logging (put_replies rs).
Proof. intros s. by apply logs_only_same. Qed.

Lemma logging_input : logging input.
Proof.
  intros s. unfold input. destruct (replies s); by apply logs_only_same.
Qed.

Lemma logging_append o m : m <> MODIFIED_FILE -> logging (append o m).
Proof.
  intros Hm s. exists [(o, m)]. split; [done|]. by constructor.
Qed.

Create HintDb logging.

#[local] Hint Resolve logging_ret logging_raise logging_lift logging_get_fs
  logging_put_fs logging_get_replies logging_put_replies logging_input
  : logging.

Ltac logging_step :=
  match goal with
  | |- logging (bind _ _) => apply logging_bind; [|intros ?]
  | |- logging (append _ _) => apply logging_append; discriminate
  | |- logging (if ?b then _ else _) => destruct b
  | |- logging (match ?x with _ => _ end) => destruct x
  | |- logging _ => solve [auto with logging]
  end.

Ltac logging_auto := repeat logging_step.

Lemma logging_mkdir_parents p : logging (mkdir_parents p).
Proof. unfold mkdir_parents. logging_auto. Qed.

Lemma logging_touch p : logging (touch p).
Proof. unfold touch, parent_ready. logging_auto. Qed.

Lemma logging_open_wt p : logging (open_wt p).
Proof. unfold open_wt, parent_ready. logging_auto. Qed.

Lemma logging_open_rt p : logging (open_rt p).
Proof. unfold open_rt. logging_auto. Qed.

Lemma logging_close_wt p w : logging (close_wt p w).
Proof. unfold close_wt. logging_auto. Qed.

Lemma logging_read_lines p : logging (read_lines p).
Proof. unfold read_lines. logging_auto. Qed.

Lemma logging_size_is_zero p : logging (size_is_zero p).
Proof. unfold size_is_zero. logging_auto. Qed.

Lemma logging_replace a b : logging (replace a b).
Proof. unfold replace, parent_ready. logging_auto. Qed.

Lemma logging_zf_extract zf n d : logging (zf_extract zf n d).
Proof. unfold zf_extract. logging_auto. Qed.

Lemma logging_confirm : logging confirm.
Proof. unfold confirm. logging_auto. Qed.

#[local] Hint Resolve logging_mkdir_parents logging_touch logging_open_wt
  logging_open_rt logging_close_wt logging_read_lines logging_size_is_zero
  logging_replace logging_zf_extract logging_confirm : logging.

Lemma logging_check_file p : logging (check_file p).
Proof. unfold check_file. logging_auto. Qed.

#[local] Hint Resolve logging_check_file : logging.

Lemma logging_stream r w t loop : logging (stream r w t loop).
Proof. unfold stream. logging_auto. Qed.

Lemma logging_raise_named {A} hp w : logging (@raise_named A hp w).
Proof. unfold raise_named. logging_auto. Qed.

#[local] Hint Resolve logging_stream logging_raise_named : logging.

Lemma logging_scan_dcm device hp attrs idx c : logging (scan_dcm device hp attrs idx c).
Proof.
  intros s. apply logs_only_same. apply scan_dcm_frame.
Qed.

#[local] Hint Resolve logging_scan_dcm : logging.

Section LedgerOfStages.

Variables LIB FPS M3D : path.

Lemma logging_import_dcm device rt dcm : logging (import_dcm LIB device rt dcm).
Proof. unfold import_dcm. logging_auto. Qed.

Lemma logging_import_lib device rt lib : logging (import_lib LIB device rt lib).
Proof. unfold import_lib. logging_auto. Qed.

Lemma logging_import_model_items items zf : logging (import_model_items M3D items zf).
Proof. induction items as [|n items IH]; simpl; logging_auto. Qed.

Lemma logging_import_model model zf : logging (import_model M3D model zf).
Proof.
  unfold import_model. pose proof logging_import_model_items. logging_auto.
Qed.

Lemma logging_import_footprint_items rt items found : forall cur,
  logging (import_footprint_items FPS rt items found cur).
Proof.
  induction items as [|[n fp] items IH]; intros cur; simpl; logging_auto.
Qed.

Lemma logging_import_footprint rt fps found :
  logging (import_footprint FPS rt fps found).
Proof.
  unfold import_footprint. pose proof logging_import_footprint_items.
  logging_auto.
Qed.

Lemma logging_import_all zip : logging (import_all LIB FPS M3D zip).
Proof.
  unfold import_all.
  pose proof logging_import_dcm. pose proof logging_import_lib.
  pose proof logging_import_model. pose proof logging_import_footprint.
  logging_auto.
Qed.

End LedgerOfStages.
(** ** What a stage leaves alone *)

Lemma unchanged_at_refl p s : unchanged_at p s s.
Proof. done. Qed.

Lemma unchanged_at_trans p s1 s2 s3 :
  unchanged_at p s1 s2 -> unchanged_at p s2 s3 -> unchanged_at p s1 s3.
Proof. unfold unchanged_at. congruence. Qed.

Lemma leaves_ret {A} p (a : A) : leaves p (ret a).
Proof. done. Qed.

Lemma leaves_raise {A} p e : leaves p (@raise A e).
Proof. done. Qed.

Lemma leaves_lift {A} p (r : exn + A) : leaves p (lift r).
Proof. by destruct r. Qed.

Lemma leaves_bind {A B} p (c : M A) (k : A -> M B) :
  leaves p c -> (forall a, leaves p (k a)) -> leaves p (bind c k).
Proof.
  intros Hc Hk s. unfold bind. specialize (Hc s).
  destruct (c s) as [[e|a] s1]; [done|].
  eapply unchanged_at_trans; [exact Hc|apply Hk].
Qed.

Lemma leaves_get_fs p : leaves p get_fs.
Proof. done. Qed.

Lemma leaves_get_replies p : leaves p get_replies.
Proof. done. Qed.

Lemma leaves_put_replies p rs : leaves p (put_replies rs).
Proof. done. Qed.

Lemma leaves_append p o m : leaves p (append o m).
Proof. done. Qed.

Lemma leaves_input p : leaves p input.
Proof. intros s. unfold input. by destruct (replies s). Qed.

Lemma leaves_confirm p : leaves p confirm.
Proof. unfold confirm. apply leaves_bind; [apply leaves_input|done]. Qed.

Lemma leaves_raise_named {A} p hp w : leaves p (@raise_named A hp w).
Proof. by destruct hp. Qed.

Lemma leaves_scan_dcm p device hp attrs idx c :
  leaves p (scan_dcm device hp attrs idx c).
Proof.
  intros s. unfold unchanged_at.
  by destruct (scan_dcm_frame device hp attrs idx c s) as [-> _].
Qed.

Lemma mkdir_chain_leaves p todo : forall f base f',
  mkdir_chain f base todo = inr f' ->
  ~ p `prefix_of` base ++ todo ->
  f' !! p = f !! p.
Proof.
  induction todo as [|c todo IH]; intros f base f' H Hp; simpl in H.
  - by injection H as <-.
  - assert (Hq : p <> path_join base c).
    { intros ->. apply Hp. exists todo. unfold path_join.
      by rewrite <- app_assoc. }
    assert (Hp' : ~ p `prefix_of` path_join base c ++ todo).
    { unfold path_join. by rewrite <- app_assoc. }
    destruct (f !! path_join base c) as [[|?]|]; [|done|].
    + by apply (IH _ _ _ H).
    + rewrite (IH _ _ _ H Hp'). by rewrite lookup_insert_ne.
Qed.

Lemma leaves_mkdir_parents p q :
  ~ p `prefix_of` q -> leaves p (mkdir_parents q).
Proof.
  intros Hp s. unfold mkdir_parents, bind, get_fs, put_fs, lift, ret, raise.
  destruct (path_exists (fs s) q); [done|].
  destruct (mkdir_chain (fs s) [] q) as [e|f'] eqn:E; [done|].
  unfold unchanged_at. simpl. by apply (mkdir_chain_leaves p q _ [] f').
Qed.

Lemma leaves_touch p q : p <> q -> leaves p (touch q).
Proof.
  intros Hne s. unfold touch, parent_ready, bind, get_fs, put_fs, ret, raise.
  destruct (node_at (fs s) q); [done|].
  destruct (node_at (fs s) (parent q)) as [[|?]|]; try done.
  unfold unchanged_at. simpl. by rewrite lookup_insert_ne.
Qed.

Lemma leaves_open_wt p q : p <> q -> leaves p (open_wt q).
Proof.
  intros Hne s. unfold open_wt, parent_ready, bind, get_fs, put_fs, ret, raise.
  destruct (node_at (fs s) q) as [[|?]|]; try done.
  - unfold unchanged_at. simpl. by rewrite lookup_insert_ne.
  - destruct (node_at (fs s) (parent q)) as [[|?]|]; try done.
    unfold unchanged_at. simpl. by rewrite lookup_insert_ne.
Qed.

Lemma leaves_close_wt p q w : p <> q -> leaves p (close_wt q w).
Proof.
  intros Hne s. unfold close_wt, bind, get_fs, put_fs.
  unfold unchanged_at. simpl. by rewrite lookup_insert_ne.
Qed.

Lemma leaves_open_rt p q : leaves p (open_rt q).
Proof.
  intros s. unfold open_rt, bind, get_fs, ret, raise.
  by destruct (node_at (fs s) q) as [[|?]|].
Qed.

Lemma leaves_read_lines p q : leaves p (read_lines q).
Proof.
  intros s. unfold read_lines, bind, get_fs, ret, raise.
  by destruct (node_at (fs s) q) as [[|?]|].
Qed.

Lemma leaves_size_is_zero p q : leaves p (size_is_zero q).
Proof.
  intros s. unfold size_is_zero, bind, get_fs, ret, raise.
  by destruct (node_at (fs s) q) as [[|?]|].
Qed.

Lemma prefix_parent (p q : path) : p `prefix_of` parent q -> p `prefix_of` q.
Proof.
  intros H. etrans; [exact H|].
  unfold parent. destruct (decide (q = [])) as [->|Hq]; [done|].
  exists [List.last q ""]. by apply app_removelast_last.
Qed.

Lemma leaves_check_file p q : ~ p `prefix_of` q -> leaves p (check_file q).
Proof.
  intros Hp. assert (p <> q) by (by intros ->).
  unfold check_file.
  apply leaves_bind; [apply leaves_get_fs|intros f].
  destruct (negb (path_exists f q)); [|apply leaves_ret].
  apply leaves_bind; [|intros _; apply leaves_bind;
                       [by apply leaves_touch|intros _; apply leaves_append]].
  destruct (negb (is_dir f (parent q))); [|apply leaves_ret].
  apply leaves_bind; [|intros _; apply leaves_append].
  apply leaves_mkdir_parents. intros Hq. by apply Hp, prefix_parent.
Qed.

Lemma leaves_stream p r w t loop :
  p <> r -> p <> w -> leaves p (stream r w t loop).
Proof.
  intros Hr Hw. unfold stream.
  repeat first
    [ apply leaves_open_rt | by apply leaves_open_wt | apply leaves_size_is_zero
    | by apply leaves_close_wt | apply leaves_read_lines | apply leaves_get_replies
    | apply leaves_put_replies | apply leaves_ret | apply leaves_raise
    | progress cbv zeta
    | match goal with
      | |- leaves _ (if ?b then _ else _) => destruct b
      | |- leaves _ (match ?x with _ => _ end) => destruct x
      | |- leaves _ (bind _ _) => apply leaves_bind; [|intros ?]
      end ].
Qed.

Lemma leaves_zf_extract p zf n dir :
  ~ p `prefix_of` path_join dir n -> leaves p (zf_extract zf n dir).
Proof.
  intros Hp s. unfold zf_extract. destruct (zf n); [|done].
  unfold bind, get_fs, lift, ret, raise, put_fs.
  destruct (mkdir_chain (fs s) [] dir) as [e|f'] eqn:E; [done|].
  assert (f' !! p = fs s !! p) as Hf.
  { apply (mkdir_chain_leaves p dir _ [] f' E). intros Hd. apply Hp.
    etrans; [exact Hd|]. by exists [n]. }
  destruct (node_at f' (path_join dir n)) as [[|?]|]; try done;
    unfold unchanged_at; simpl; rewrite lookup_insert_ne; try done;
    by intros <-.
Qed.

(** A path is a prefix of [dir / name] when it is a prefix of [dir], or the
    path itself. *)
Lemma prefix_join (p dir : path) name :
  p `prefix_of` path_join dir name ->
  p `prefix_of` dir \/ p = path_join dir name.
Proof.
  unfold path_join. intros [k Hk].
  destruct (decide (k = [])) as [->|Hne].
  - right. by rewrite app_nil_r in Hk.
  - left. destruct (exists_last Hne) as (k' & x & ->).
    rewrite app_assoc in Hk. apply app_inj_tail in Hk as [-> _]. by exists k'.
Qed.

Section FrameOfStages.

Variables LIB FPS M3D : path.

Lemma leaves_import_dcm p device rt dcm :
  ~ p `prefix_of` dcm_file_read LIB rt ->
  ~ p `prefix_of` dcm_file_write LIB rt ->
  leaves p (import_dcm LIB device rt dcm).
Proof.
  intros Hr Hw. unfold import_dcm.
  apply leaves_bind; [apply leaves_scan_dcm|intros r].
  apply leaves_bind.
  { destruct (bool_decide _); [apply leaves_raise_named|apply leaves_ret]. }
  intros _. apply leaves_bind; [by apply leaves_check_file|intros _].
  apply leaves_bind; [by apply leaves_check_file|intros _].
  apply leaves_stream; by intros ->.
Qed.

Lemma leaves_import_lib p device rt lib :
  ~ p `prefix_of` lib_file_read LIB rt ->
  ~ p `prefix_of` lib_file_write LIB rt ->
  leaves p (import_lib LIB device rt lib).
Proof.
  intros Hr Hw. unfold import_lib.
  apply leaves_bind; [apply leaves_lift|intros r].
  apply leaves_bind.
  { destruct (bool_decide _); [apply leaves_raise|apply leaves_ret]. }
  intros _. apply leaves_bind; [by apply leaves_check_file|intros _].
  apply leaves_bind; [by apply leaves_check_file|intros _].
  apply leaves_stream; by intros ->.
Qed.

Lemma leaves_import_model p model zf :
  ~ p `prefix_of` M3D ->
  (forall n, PyStr.endswith n ".step" = true -> p <> path_join M3D n) ->
  leaves p (import_model M3D model zf).
Proof.
  intros Hd Hn. unfold import_model.
  apply leaves_bind; [apply leaves_get_fs|intros f].
  apply leaves_bind.
  { destruct (negb _); [|apply leaves_ret].
    apply leaves_bind; [by apply leaves_mkdir_parents|intros _; apply leaves_append]. }
  intros _. apply leaves_bind; [apply leaves_lift|intros items].
  induction items as [|n items IH]; simpl; [apply leaves_ret|].
  destruct (PyStr.endswith n ".step") eqn:En; [|done].
  apply leaves_bind; [apply leaves_get_fs|intros f'].
  apply leaves_bind.
  { destruct (path_exists _ _); [apply leaves_confirm|apply leaves_ret]. }
  intros [|]; [|apply leaves_ret].
  apply leaves_bind; [|intros _; apply leaves_bind;
                       [apply leaves_append|intros _; apply leaves_ret]].
  apply leaves_zf_extract. intros Hp.
  apply prefix_join in Hp as [Hp|Hp]; [done|]. by apply (Hn n).
Qed.

(** Without a model, [import_footprint] writes the footprint files
    themselves and nothing else. *)
Lemma leaves_import_footprint_items p rt items : forall cur,
  (forall n, PyStr.endswith n ".kicad_mod" || PyStr.endswith n ".mod" = true ->
             p <> footprint_file_read FPS rt n) ->
  leaves p (import_footprint_items FPS rt items None cur).
Proof.
  induction items as [|[n fp] items IH]; intros cur Hn; simpl; [apply leaves_ret|].
  destruct (_ || _) eqn:En; [|by apply IH].
  apply leaves_bind; [apply leaves_open_wt; by apply Hn|intros _].
  apply leaves_bind; [apply leaves_close_wt; by apply Hn|intros _].
  by apply IH.
Qed.

Lemma leaves_import_footprint p rt fps :
  (forall n, PyStr.endswith n ".kicad_mod" || PyStr.endswith n ".mod" = true ->
             p <> footprint_file_read FPS rt n) ->
  leaves p (import_footprint FPS rt fps None).
Proof.
  intros Hn. unfold import_footprint.
  apply leaves_bind; [apply leaves_lift|intros items].
  by apply leaves_import_footprint_items.
Qed.

End FrameOfStages.
(** ** File names *)

Lemma rev_onto_app a : forall b acc,
  PyStr.rev_onto (a +:+ b) acc = PyStr.rev_onto b (PyStr.rev_onto a acc).
Proof. induction a as [|ch a IH]; intros b acc; simpl; [done|]. by rewrite IH. Qed.

Lemma rev_tilde x : PyStr.rev (x +:+ "~") = String "~" (PyStr.rev x).
Proof. unfold PyStr.rev. by rewrite rev_onto_app. Qed.

Lemma endswith_tilde x : PyStr.endswith (x +:+ "~") "~" = true.
Proof. unfold PyStr.endswith. rewrite rev_tilde. simpl. by destruct (PyStr.rev x). Qed.

Lemma tilde_not_step x : PyStr.endswith (x +:+ "~") ".step" = false.
Proof. unfold PyStr.endswith. rewrite rev_tilde. reflexivity. Qed.

Lemma tilde_not_footprint x :
  PyStr.endswith (x +:+ "~") ".kicad_mod" || PyStr.endswith (x +:+ "~") ".mod" = false.
Proof. unfold PyStr.endswith. rewrite rev_tilde. reflexivity. Qed.

Lemma append_tilde_inj a : forall b, a +:+ "~" = b +:+ "~" -> a = b.
Proof.
  induction a as [|ch a IH]; intros [|ch' b] H; simpl in H.
  - done.
  - injection H as _ H. by destruct b.
  - injection H as _ H. by destruct a.
  - injection H as -> H. by rewrite (IH b H).
Qed.

(** The names of the symbol and documentation libraries are not names of
    footprint or model files. *)
Lemma library_names rt ext :
  ext ∈ [".dcm"; ".lib"] ->
  PyStr.endswith (remote_name rt +:+ ext) "~" = false /\
  PyStr.endswith (remote_name rt +:+ ext) ".step" = false /\
  PyStr.endswith (remote_name rt +:+ ext) ".kicad_mod" ||
    PyStr.endswith (remote_name rt +:+ ext) ".mod" = false.
Proof.
  intros H. apply elem_of_cons in H as [->|H];
    [|apply elem_of_cons in H as [->|H]; [|by apply elem_of_nil in H]];
    by destruct rt.
Qed.

(** ** What a stage that returns has done *)

Lemma node_at_cons f (a : string) (p : list string) :
  node_at f (a :: p) = f !! (a :: p).
Proof. done. Qed.

Lemma open_rt_inr p s u s' :
  open_rt p s = (inr u, s') ->
  s' = s /\ p <> [] /\ exists c, fs s !! p = Some (File c).
Proof.
  unfold open_rt, bind, get_fs, ret, raise. destruct p as [|a p]; [done|].
  rewrite node_at_cons.
  destruct (fs s !! (a :: p)) as [[|c]|] eqn:E; try done.
  intros H. inversion H; subst. split; [done|]. split; [done|]. by exists c.
Qed.

Lemma open_wt_inr p s u s' :
  open_wt p s = (inr u, s') ->
  p <> [] /\ s' = mkState (<[p := File []]> (fs s)) (modified_objects s) (replies s).
Proof.
  unfold open_wt, parent_ready, bind, get_fs, put_fs, ret, raise.
  destruct p as [|a p]; [done|]. rewrite node_at_cons.
  destruct (fs s !! (a :: p)) as [[|c]|] eqn:E; try done.
  - intros H. by inversion H.
  - destruct (node_at (fs s) (parent (a :: p))) as [[|?]|]; try done.
    intros H. by inversion H.
Qed.

Lemma stream_inr r w t loop s d s' :
  stream r w t loop s = (inr d, s') ->
  r <> w ->
  d = (r, w) /\
  (exists c, fs s' !! r = Some (File c)) /\
  (exists c, fs s' !! w = Some (File c)).
Proof.
  intros H Hne. unfold stream in H. unfold bind at 1 in H.
  destruct (open_rt r s) as [[e|u] s1] eqn:E1; [done|].
  apply open_rt_inr in E1 as (-> & Hr & c & Hc).
  unfold bind at 1 in H.
  destruct (open_wt w s) as [[e|u'] s2] eqn:E2; [done|].
  apply open_wt_inr in E2 as (Hw & ->).
  destruct r as [|a r]; [done|]. destruct w as [|b w]; [done|].
  mrun_in H. rewrite !node_at_cons in H. rewrite lookup_insert_ne in H by done.
  rewrite Hc in H. mrun_in H.
  destruct (bool_decide (c = [])); mrun_in H.
  - rewrite !node_at_cons in H. rewrite lookup_insert_ne, Hc in H by done.
    mrun_in H. rewrite !node_at_cons in H. rewrite lookup_insert_eq in H.
    mrun_in H.
    destruct (ended _); inversion H; subst; cbn [fs];
      (split; [done|split; eexists;
        [by rewrite lookup_insert_ne, lookup_insert_eq by done
        |by rewrite lookup_insert_eq]]).
  - rewrite !node_at_cons in H. rewrite lookup_insert_ne, Hc in H by done.
    mrun_in H.
    destruct (ended _); inversion H; subst; cbn [fs];
      (split; [done|split; eexists;
        [by rewrite !lookup_insert_ne by done
        |by rewrite lookup_insert_eq]]).
Qed.

Lemma mkdir_chain_keeps p n todo : forall f base f',
  mkdir_chain f base todo = inr f' ->
  f !! p = Some n -> f' !! p = Some n.
Proof.
  induction todo as [|c todo IH]; intros f base f' H Hp; simpl in H.
  - by injection H as <-.
  - destruct (f !! path_join base c) as [[|?]|] eqn:E; [|done|].
    + by apply (IH _ _ _ H).
    + apply (IH _ _ _ H). rewrite lookup_insert_ne; [done|]. by intros <-; simplify_eq.
Qed.

Lemma confirm_or_go_fs (b : bool) s :
  fs ((if b then confirm else ret true) s).2 = fs s.
Proof.
  destruct b; [|done]. unfold confirm, bind, input, ret.
  by destruct (replies s).
Qed.

Section NoModel.

Variables LIB FPS M3D : path.

Lemma import_dcm_inr device rt dcm s d s' :
  import_dcm LIB device rt dcm s = (inr d, s') ->
  d = (dcm_file_read LIB rt, dcm_file_write LIB rt) /\
  (exists c, fs s' !! dcm_file_read LIB rt = Some (File c)) /\
  (exists c, fs s' !! dcm_file_write LIB rt = Some (File c)).
Proof.
  unfold import_dcm. intros H.
  repeat (unfold bind at 1 in H;
          match type of H with
          | context [let (_, _) := ?c ?s0 in _] =>
              destruct (c s0) as [[?|?] ?]; [done|]
          | context [match ?c ?s0 with _ => _ end] =>
              destruct (c s0) as [[?|?] ?]; [done|]
          end).
  eapply stream_inr; [exact H|apply dcm_read_ne_write].
Qed.

Lemma import_model_none_keeps model zf s s' p n :
  import_model M3D model zf s = (inr None, s') ->
  fs s !! p = Some n -> fs s' !! p = Some n.
Proof.
  unfold import_model. intros H Hp. mrun_in H.
  assert (Hitems : forall items s0 s1,
            import_model_items M3D items zf s0 = (inr None, s1) ->
            fs s1 = fs s0).
  { induction items as [|name items IH]; intros s0 s1 Hi; simpl in Hi.
    - by inversion Hi.
    - destruct (PyStr.endswith name ".step"); [|by apply IH].
      unfold bind at 1 in Hi. cbn [get_fs] in Hi. unfold bind at 1 in Hi.
      pose proof (confirm_or_go_fs (path_exists (fs s0) (path_join M3D name)) s0)
        as Hgo.
      destruct ((if path_exists (fs s0) (path_join M3D name)
                 then confirm else ret true) s0) as [[e|[|]] s3]; [done| |].
      + unfold zf_extract in Hi. mcases Hi; done.
      + inversion Hi; subst. done. }
  destruct (match node_at (fs s) M3D with Some Dir => true | _ => false end).
  - mrun_in H. destruct model as [e|items]; mrun_in H; [done|].
    by rewrite (Hitems _ _ _ H).
  - mrun_in H. unfold mkdir_parents in H. mrun_in H.
    destruct (match node_at (fs s) M3D with Some _ => true | None => false end);
      mrun_in H; [done|].
    destruct (mkdir_chain (fs s) [] M3D) as [e|f'] eqn:E; mrun_in H; [done|].
    destruct model as [e|items]; mrun_in H; [done|].
    rewrite (Hitems _ _ _ H). cbn [fs]. by eapply mkdir_chain_keeps.
Qed.

Lemma import_footprint_items_pair rt items found : forall cur s res s',
  import_footprint_items FPS rt items found cur s = (inr res, s') ->
  footprint_pair FPS rt cur -> footprint_pair FPS rt res.
Proof.
  induction items as [|[n fp] items IH]; intros cur s res s' H Hcur; simpl in H.
  - inversion H; by subst.
  - fold (is_footprint_name n) in H.
    destruct (is_footprint_name n) eqn:En; [|by eapply IH].
    assert (Hnew : footprint_pair FPS rt
              (Some (footprint_file_read FPS rt n, footprint_file_write FPS rt n)))
      by (by exists n).
    destruct found as [m|].
    + unfold bind at 1 in H. cbn [get_fs] in H.
      unfold bind at 1 in H.
      destruct ((if path_exists (fs s) (footprint_file_read FPS rt n)
                 then confirm else ret true) s) as [[e|[|]] s1]; [done| |].
      * repeat (unfold bind at 1 in H;
          match type of H with
          | context [let (_, _) := ?c ?s0 in _] =>
              destruct (c s0) as [[?|?] ?]; [done|]
          | context [match ?c ?s0 with _ => _ end] =>
              destruct (c s0) as [[?|?] ?]; [done|]
          end).
        by eapply IH.
      * by inversion H; subst.
    + repeat (unfold bind at 1 in H;
          match type of H with
          | context [let (_, _) := ?c ?s0 in _] =>
              destruct (c s0) as [[?|?] ?]; [done|]
          | context [match ?c ?s0 with _ => _ end] =>
              destruct (c s0) as [[?|?] ?]; [done|]
          end).
      by eapply IH.
Qed.

Lemma import_footprint_pair rt fps found s res s' :
  import_footprint FPS rt fps found s = (inr res, s') ->
  footprint_pair FPS rt res.
Proof.
  unfold import_footprint, bind, lift. destruct fps as [e|items]; [done|].
  cbn [ret]. intros H. by eapply import_footprint_items_pair.
Qed.

End NoModel.

(** ** The promotions of a run without a model *)

Section Promotion.

Variables LIB FPS M3D : path.

(** The staging path of a footprint is none of the other paths of a run. *)
Lemma staging_ne_footprint rt name n :
  is_footprint_name n = true ->
  footprint_file_write FPS rt name <> footprint_file_read FPS rt n.
Proof.
  intros Hn E. apply path_join_inj in E as [_ <-].
  unfold is_footprint_name in Hn. by rewrite tilde_not_footprint in Hn.
Qed.

Lemma staging_ne_step rt name n :
  PyStr.endswith n ".step" = true ->
  footprint_file_write FPS rt name <> path_join M3D n.
Proof.
  intros Hn E. apply path_join_inj in E as [_ <-].
  by rewrite tilde_not_step in Hn.
Qed.

Lemma staging_ne_library rt rt' name ext :
  is_footprint_name name = true ->
  ext ∈ [".dcm"; ".lib"] ->
  footprint_file_write FPS rt name <> path_join LIB (remote_name rt' +:+ ext) /\
  footprint_file_write FPS rt name <>
    path_join LIB ((remote_name rt' +:+ ext) +:+ "~").
Proof.
  intros Hn Hext. destruct (library_names rt' ext Hext) as (H1 & _ & H3).
  split; intros E; apply path_join_inj in E as [_ E].
  - rewrite <- E, endswith_tilde in H1. done.
  - apply append_tilde_inj in E. subst name.
    unfold is_footprint_name in Hn. by rewrite H3 in Hn.
Qed.

Lemma library_ne_footprint rt rt' ext n :
  is_footprint_name n = true ->
  ext ∈ [".dcm"; ".lib"] ->
  path_join LIB (remote_name rt' +:+ ext) <> footprint_file_read FPS rt n /\
  path_join LIB ((remote_name rt' +:+ ext) +:+ "~") <> footprint_file_read FPS rt n.
Proof.
  intros Hn Hext. destruct (library_names rt' ext Hext) as (_ & _ & H3).
  unfold is_footprint_name in Hn.
  split; intros E; apply path_join_inj in E as [_ <-].
  - by rewrite H3 in Hn.
  - by rewrite tilde_not_footprint in Hn.
Qed.

Lemma append_assoc_tilde rt ext :
  remote_name rt +:+ (ext +:+ "~") = (remote_name rt +:+ ext) +:+ "~".
Proof. by destruct rt. Qed.

Lemma not_prefix_join (p dir : path) name :
  ~ p `prefix_of` dir -> p <> path_join dir name ->
  ~ p `prefix_of` path_join dir name.
Proof. intros H1 H2 H. apply prefix_join in H as [H|H]; tauto. Qed.

Lemma join_not_prefix (dir : path) a b :
  a <> b -> ~ path_join dir a `prefix_of` path_join dir b.
Proof.
  intros Hab H. apply prefix_join in H as [[k Hk]|H].
  - unfold path_join in Hk. apply (f_equal length) in Hk.
    rewrite !length_app in Hk. simpl in Hk. lia.
  - apply path_join_inj in H. tauto.
Qed.

Lemma replace_file src dst c c' s :
  src <> [] -> dst <> [] ->
  fs s !! src = Some (File c) ->
  fs s !! dst = Some (File c') ->
  replace src dst s =
  (inr tt, mkState (<[dst := File c]> (delete src (fs s)))
             (modified_objects s) (replies s)).
Proof.
  intros Hs Hd Hsrc Hdst. unfold replace, bind, get_fs, put_fs.
  rewrite Hsrc. destruct dst as [|b dst]; [done|].
  rewrite node_at_cons, Hdst. done.
Qed.

Lemma replace_missing src dst s :
  fs s !! src = None -> replace src dst s = (inl FileNotFoundError, s).
Proof. intros H. unfold replace, bind, get_fs. by rewrite H. Qed.

Lemma import_all_no_model zip info st d s1 s2 r w s3 l s4 :
  is_zipfile zip = true ->
  get_remote_info zip = inr info ->
  import_dcm LIB (device_of (zip_name zip)) (remote_type info) (dcm_path info) st
    = (inr d, s1) ->
  import_model M3D (model_path info) (zf zip) s1 = (inr None, s2) ->
  import_footprint FPS (remote_type info) (footprint_path info) None s2
    = (inr (Some (r, w)), s3) ->
  import_lib LIB (device_of (zip_name zip)) (remote_type info) (lib_path info) s3
    = (inr l, s4) ->
  fs st !! w = None ->
  ~ w `prefix_of` LIB ->
  ~ w `prefix_of` M3D ->
  fs s3 !! w = fs s2 !! w /\
  exists c,
    fs s4 !! dcm_file_write LIB (remote_type info) = Some (File c) /\
    import_all LIB FPS M3D zip st =
    (inl FileNotFoundError,
     mkState (<[dcm_file_read LIB (remote_type info) := File c]>
                (delete (dcm_file_write LIB (remote_type info)) (fs s4)))
             (modified_objects s4) (replies s4)).
Proof.
  intros Hzip Hinfo Hdcm Hmodel Hfp Hlib Hw HwLIB HwM3D.
  set (rt := remote_type info) in *. set (device := device_of (zip_name zip)) in *.
  destruct (import_footprint_pair FPS _ _ _ _ _ _ Hfp) as (name & Hname & -> & ->).
  destruct (import_dcm_inr LIB _ _ _ _ _ _ Hdcm) as (-> & [c1 Hc1] & [c2 Hc2]).
  (* the staging path is none of the paths the stages write to *)
  destruct (staging_ne_library rt rt name ".dcm" Hname) as [Wd1 Wd2]; [repeat constructor|].
  destruct (staging_ne_library rt rt name ".lib" Hname) as [Wl1 Wl2]; [repeat constructor|].
  rewrite <- append_assoc_tilde in Wd2, Wl2.
  assert (W3 : unchanged_at (footprint_file_write FPS rt name) s2 s3).
  { pose proof (leaves_import_footprint FPS (footprint_file_write FPS rt name) rt
                  (footprint_path info)) as L.
    specialize (L (fun n Hn => staging_ne_footprint rt name n Hn) s2).
    by rewrite Hfp in L. }
  assert (W1 : unchanged_at (footprint_file_write FPS rt name) st s1).
  { pose proof (leaves_import_dcm LIB (footprint_file_write FPS rt name)
                  device rt (dcm_path info)) as L.
    specialize (L (not_prefix_join _ _ _ HwLIB Wd1) (not_prefix_join _ _ _ HwLIB Wd2) st).
    by rewrite Hdcm in L. }
  assert (W2 : unchanged_at (footprint_file_write FPS rt name) s1 s2).
  { pose proof (leaves_import_model M3D (footprint_file_write FPS rt name)
                  (model_path info) (zf zip) HwM3D) as L.
    specialize (L (fun n Hn => staging_ne_step rt name n Hn) s1).
    by rewrite Hmodel in L. }
  assert (W4 : unchanged_at (footprint_file_write FPS rt name) s3 s4).
  { pose proof (leaves_import_lib LIB (footprint_file_write FPS rt name)
                  device rt (lib_path info)) as L.
    specialize (L (not_prefix_join _ _ _ HwLIB Wl1) (not_prefix_join _ _ _ HwLIB Wl2) s3).
    by rewrite Hlib in L. }
  unfold unchanged_at in *.
  split; [done|].
  (* the two dcm files are still there when the promotions start *)
  assert (Hkeep : forall q cq,
            q = dcm_file_read LIB rt \/ q = dcm_file_write LIB rt ->
            fs s1 !! q = Some (File cq) -> fs s4 !! q = Some (File cq)).
  { intros q cq Hq Hcq.
    assert (fs s2 !! q = Some (File cq)) as H2
      by (by eapply import_model_none_keeps).
    assert (fs s3 !! q = fs s2 !! q) as H3.
    { pose proof (leaves_import_footprint FPS q rt (footprint_path info)) as L.
      assert (forall n, is_footprint_name n = true -> q <> footprint_file_read FPS rt n)
        as Hn.
      { intros n Hn.
        destruct (library_ne_footprint rt rt ".dcm" n Hn) as [A B]; [repeat constructor|].
        rewrite <- append_assoc_tilde in B. destruct Hq; by subst q. }
      specialize (L Hn s2). by rewrite Hfp in L. }
    assert (fs s4 !! q = fs s3 !! q) as H4.
    { pose proof (leaves_import_lib LIB q device rt (lib_path info)) as L.
      assert (~ q `prefix_of` lib_file_read LIB rt /\
              ~ q `prefix_of` lib_file_write LIB rt) as [A B].
      { destruct Hq; subst q; split; apply join_not_prefix; by destruct rt. }
      specialize (L A B s3). by rewrite Hlib in L. }
    congruence. }
  exists c2. split; [apply Hkeep; auto|].
  unfold import_all. rewrite Hzip. cbn [negb].
  unfold bind at 1. rewrite Hinfo. cbn [lift ret].
  unfold bind at 1. fold rt device. rewrite Hdcm.
  unfold bind at 1. rewrite Hmodel.
  unfold bind at 1. rewrite Hfp.
  unfold bind at 1. rewrite Hlib.
  unfold bind at 1. cbn [fst snd].
  rewrite (replace_file _ _ c2 c1); [| | |auto|auto];
    [|unfold dcm_file_write, path_join; by destruct LIB
     |unfold dcm_file_read, path_join; by destruct LIB].
  unfold bind at 1. rewrite replace_missing; [done|].
  cbn [fs]. rewrite lookup_insert_ne by (by intros E; symmetry in E).
  rewrite lookup_delete_ne by (by intros E; symmetry in E). congruence.
Qed.

End Promotion.
(** * The claims *)

(** C1 (the failing run).  Transactional staging asks that no target file
    changes when a stage raises.  Here the archive has no 3D model and its
    symbol file is for another device: [import_lib] raises
    [Warning('Unexpected device ...')], no promotion takes place, and yet
    the footprint file of the library already holds the text of the
    archive's footprint, which [import_footprint] wrote over the original. *)
Theorem C1_footprint_written_before_failure :
  (import_all Example.LIB Example.FPS Example.M3D Example.zip_other_device
     (Example.start Example.fs_with_footprint [""])).1
    = inl (Warning UnexpectedDevice) /\
  Example.fs_with_footprint
    !! footprint_file_read Example.FPS SAMACSYS "FP1.kicad_mod"
    = Some (File Example.old_footprint) /\
  fs (Example.after Example.zip_other_device
        (Example.start Example.fs_with_footprint [""]))
    !! footprint_file_read Example.FPS SAMACSYS "FP1.kicad_mod"
    = Some (File Example.fp1.2).
Proof. vm_compute. auto. Qed.

(** C2 (the failing run).  The operator declines to overwrite the record of
    the device in the symbol library.  [import_lib] reports the import as
    skipped, all stages return, and the promotion then renames the staging
    file, which holds the five lines copied before the record was met, over
    the library: the record, every record after it and the trailer are
    gone. *)
Theorem C2_declined_overwrite_truncates :
  (import_all Example.LIB Example.FPS Example.M3D Example.zip_with_model
     (Example.start (Example.fs_of Example.old_lib) [""; "n"])).1
    = inr (Some "OK:") /\
  Example.fs_of Example.old_lib !! lib_file_read Example.LIB SAMACSYS
    = Some (File Example.old_lib) /\
  fs (Example.after Example.zip_with_model
        (Example.start (Example.fs_of Example.old_lib) [""; "n"]))
    !! lib_file_read Example.LIB SAMACSYS
    = Some (File (firstn 5 Example.old_lib)).
Proof. vm_compute. auto. Qed.

(** C3 (counterexample).  The record of the device stands under a header
    block in the library and the archive's record has none.  Replacing the
    range with its header would leave no header; the staging file still
    holds the three header lines of the library. *)
Lemma C3_target_header_is_kept :
  fs (import_lib Example.LIB "LM358" SAMACSYS Example.lm358_lib_bare
        (Example.start (Example.fs_of Example.single_lib) ["y"])).2
    !! lib_file_write Example.LIB SAMACSYS
    = Some (File (firstn 5 Example.single_lib ++ Example.lm358_record_bare ++
                  skipn 9 Example.single_lib)) /\
  spec_replace_with_header "LM358" SAMACSYS Example.lm358_lib_bare
    Example.single_lib
    = Some (firstn 2 Example.single_lib ++ Example.lm358_record_bare ++
            skipn 9 Example.single_lib) /\
  firstn 5 Example.single_lib ++ Example.lm358_record_bare ++
    skipn 9 Example.single_lib
  <> firstn 2 Example.single_lib ++ Example.lm358_record_bare ++
     skipn 9 Example.single_lib.
Proof. vm_compute. repeat split; discriminate. Qed.

(** C3 (amended).  Take a library that holds one record of the device
    before its trailer: lines [pre], an opening line whose name starts with
    the device, lines [body] none of which is a trailer, an opening or a
    closing line, the closing line, lines [post], the trailer, and whatever
    follows it; no line of [pre] or [post] is a trailer, opens a record
    whose name starts with the device, or is an opening line without a
    name.  Take an archive file with one record of the device.  When the
    operator consents, [import_lib] and [import_dcm] stage [pre], then the
    archive's record without its header block (the opening line with the
    device as its name, the fields as the scan leaves them, the closing
    line), then [post] and the trailer: the lines from the opening to the
    closing line of the library's record are replaced, the lines before
    it, those of its own header among them, and the lines after it up to
    and including the trailer are copied as they are.  What follows the
    trailer is not copied. *)
Theorem C3_record_replaced_in_place :
  (forall LIB device rt before notes hdr d body cl after t0 name ts
          f log r rs pre d' body' cl' post t rest,
     Forall (fun x => PyStr.startswith x "DEF " = false) before ->
     (forall x, last before = Some x -> PyStr.startswith x "#" = false) ->
     Forall (fun x => is_note x = true) notes ->
     header_block hdr ->
     PyStr.startswith d "DEF " = true ->
     PyStr.split d = t0 :: name :: ts ->
     PyStr.startswith name device = true ->
     Forall (fun x => lib_field_ok x = true) body ->
     PyStr.startswith cl "ENDDEF" = true ->
     Forall (fun x => PyStr.startswith x "DEF " = false) after ->
     f !! lib_file_read LIB rt =
       Some (File (pre ++ d' :: body' ++ cl' :: post ++ t :: rest)) ->
     is_dir f LIB = true ->
     f !! lib_file_write LIB rt <> Some Dir ->
     Forall (fun l => passes (classify_lib device l) = true) pre ->
     classify_lib device d' = Opens ->
     lib_yes r = true ->
     Forall (fun l => classify_lib device l = Plain) body' ->
     classify_lib device cl' = Closes ->
     Forall (fun l => passes (classify_lib device l) = true) post ->
     PyStr.match_end t = true ->
     exists log',
       import_lib LIB device rt
         (before ++ notes ++ hdr ++ d :: body ++ cl :: after)
         (mkState f log (r :: rs)) =
       (inr (lib_file_read LIB rt, lib_file_write LIB rt),
        mkState
          (<[lib_file_write LIB rt :=
               File (pre ++
                     (PyStr.replace1 name device d ::
                        map (lib_field device rt) body ++ [cl]) ++
                     post ++ [t])]> f) log' rs))
  /\
  (forall LIB device rt before notes hdr d body cl after fields
          f log rs0 r rs pre d' body' cl' post t rest,
     Forall (fun x => PyStr.startswith x "$CMP " = false) before ->
     (forall x, last before = Some x -> PyStr.startswith x "#" = false) ->
     Forall (fun x => is_note x = true) notes ->
     header_block hdr ->
     PyStr.startswith d "$CMP " = true ->
     PyStr.startswith (PyStr.strip (PyStr.drop 5 d)) device = true ->
     Forall (fun x => dcm_field_ok x = true) body ->
     dcm_fields body rs0 = Some (fields, r :: rs) ->
     PyStr.startswith cl "$ENDCMP" = true ->
     f !! dcm_file_read LIB rt =
       Some (File (pre ++ d' :: body' ++ cl' :: post ++ t :: rest)) ->
     is_dir f LIB = true ->
     f !! dcm_file_write LIB rt <> Some Dir ->
     Forall (fun l => passes (classify_dcm device l) = true) pre ->
     classify_dcm device d' = Opens ->
     dcm_yes r = true ->
     Forall (fun l => classify_dcm device l = Plain) body' ->
     classify_dcm device cl' = Closes ->
     Forall (fun l => passes (classify_dcm device l) = true) post ->
     PyStr.match_end t = true ->
     exists log',
       import_dcm LIB device rt
         (Some (before ++ notes ++ hdr ++ d :: body ++ cl :: after))
         (mkState f log rs0) =
       (inr (dcm_file_read LIB rt, dcm_file_write LIB rt),
        mkState
          (<[dcm_file_write LIB rt :=
               File (pre ++
                     (PyStr.replace1 (PyStr.strip (PyStr.drop 5 d)) device d ::
                        fields ++ [cl]) ++
                     post ++ [t])]> f) log' rs)).
Proof.
  split; intros.
  - destruct (scan_lib_locates_notes device rt before notes hdr d body cl after
                t0 name ts) as (ls & c & Hscan & Hend & _ & Hrec); try done.
    rewrite <- Hrec. eapply import_lib_overwrites; eauto.
  - destruct (scan_dcm_locates device
                (bool_decide (is_Some (Some (before ++ notes ++ hdr ++ d ::
                                               body ++ cl :: after))))
                before notes hdr d body cl after f log rs0 fields (r :: rs))
      as (ls & c & Hscan & Hend & _ & Hrec); try done.
    rewrite <- Hrec. eapply import_dcm_overwrites; eauto.
Qed.

Lemma C3_witness :
  (exists log',
     import_lib Example.LIB "LM358" SAMACSYS Example.lm358_lib
       (mkState (Example.fs_of Example.single_lib) [] ["y"]) =
     (inr (lib_file_read Example.LIB SAMACSYS, lib_file_write Example.LIB SAMACSYS),
      mkState
        (<[lib_file_write Example.LIB SAMACSYS :=
             File (firstn 5 Example.single_lib ++
                   record_only Example.lm358_lines Example.lm358_cursors ++
                   ["#"] ++ ["# End Library"])]>
           (Example.fs_of Example.single_lib)) log' [])) /\
  (exists log',
     import_dcm Example.LIB "LM358" SAMACSYS (Some Example.lm358_dcm)
       (mkState Example.fs_with_doc [] ["Dual op-amp"; "y"]) =
     (inr (dcm_file_read Example.LIB SAMACSYS, dcm_file_write Example.LIB SAMACSYS),
      mkState
        (<[dcm_file_write Example.LIB SAMACSYS :=
             File (["EESchema-DOCLIB  Version 2.0"; "#"] ++
                   ["$CMP LM358"; "D Dual op-amp"; "F http://x/lm358.pdf";
                    "$ENDCMP"] ++
                   ["#"] ++ ["#End Doc Library"])]> Example.fs_with_doc) log' [])).
Proof.
  split.
  - apply (proj1 C3_record_replaced_in_place Example.LIB "LM358" SAMACSYS
             ["EESchema-LIBRARY Version 2.3"] ["#encoding utf-8"]
             ["#"; "# LM358"; "#"] "DEF LM358 U 0 40 Y Y 1 F N"
             ["F0 " +:+ Example.quoted "U" +:+ " 0 0 50 H V C CNN";
              "F1 " +:+ Example.quoted "LM358" +:+ " 0 -100 50 H V C CNN";
              field_F2_FP1 +:+ " 0 0 50 H I C CNN"; "DRAW"; "ENDDRAW"]
             "ENDDEF" ["#"; "#End Library"]
             "DEF" "LM358" ["U"; "0"; "40"; "Y"; "Y"; "1"; "F"; "N"]
             (Example.fs_of Example.single_lib) [] "y" []
             (firstn 5 Example.single_lib) "DEF LM358 U 0 40 Y Y 1 F N"
             ["DRAW"; "ENDDRAW"] "ENDDEF" ["#"] "# End Library" []);
      try (vm_compute; reflexivity); try (vm_compute; discriminate);
      try (intros x [= <-]; reflexivity);
      try (split; [reflexivity|]); repeat constructor.
  - apply (proj2 C3_record_replaced_in_place Example.LIB "LM358" SAMACSYS
             ["EESchema-DOCLIB  Version 2.0"] [] ["#"] "$CMP LM358"
             ["D Dual Op-Amp"; "F http://x/lm358.pdf"] "$ENDCMP"
             ["#"; "#End Doc Library"]
             ["D Dual op-amp"; "F http://x/lm358.pdf"]
             Example.fs_with_doc [] ["Dual op-amp"; "y"] "y" []
             ["EESchema-DOCLIB  Version 2.0"; "#"] "$CMP LM358"
             ["D Op-amp (first revision)"; "K opamp"] "$ENDCMP" ["#"]
             "#End Doc Library" []);
      try (vm_compute; reflexivity); try (vm_compute; discriminate);
      try (intros x [= <-]; reflexivity);
      try (split; [reflexivity|]); repeat constructor.
Defined.

(** C4.  Take a library that ends with its trailer, no line before which
    is a trailer, opens a record whose name starts with the device, or is
    an opening line without a name.  Take an archive file with one record
    of the device: lines none of which opens a record, the last of them no
    comment; comment lines that are no bare [#]; the header block; the
    opening line; the fields; the closing line; and what follows.
    [import_lib] and [import_dcm] stage the library with every line before
    the trailer as it was, then the archive's record, header block
    included (the header block, the opening line with the device as its
    name, the fields as the scan leaves them, the closing line), then the
    trailer.  The library itself is left as it was.  For the documentation
    file the fields are those [dcm_fields] gives with the operator's
    replies, which are used up in that order. *)
Theorem C4_new_record_before_trailer :
  (forall LIB device rt before notes hdr d body cl after t0 name ts
          f log rs pre t,
     Forall (fun x => PyStr.startswith x "DEF " = false) before ->
     (forall x, last before = Some x -> PyStr.startswith x "#" = false) ->
     Forall (fun x => is_note x = true) notes ->
     header_block hdr ->
     PyStr.startswith d "DEF " = true ->
     PyStr.split d = t0 :: name :: ts ->
     PyStr.startswith name device = true ->
     Forall (fun x => lib_field_ok x = true) body ->
     PyStr.startswith cl "ENDDEF" = true ->
     Forall (fun x => PyStr.startswith x "DEF " = false) after ->
     f !! lib_file_read LIB rt = Some (File (pre ++ [t])) ->
     is_dir f LIB = true ->
     f !! lib_file_write LIB rt <> Some Dir ->
     Forall (fun l => passes (classify_lib device l) = true) pre ->
     PyStr.match_end t = true ->
     exists log',
       import_lib LIB device rt
         (before ++ notes ++ hdr ++ d :: body ++ cl :: after)
         (mkState f log rs) =
       (inr (lib_file_read LIB rt, lib_file_write LIB rt),
        mkState
          (<[lib_file_write LIB rt :=
               File (pre ++
                     (hdr ++ PyStr.replace1 name device d ::
                        map (lib_field device rt) body ++ [cl]) ++
                     [t])]> f) log' rs))
  /\
  (forall LIB device rt before notes hdr d body cl after fields
          f log rs rs' pre t,
     Forall (fun x => PyStr.startswith x "$CMP " = false) before ->
     (forall x, last before = Some x -> PyStr.startswith x "#" = false) ->
     Forall (fun x => is_note x = true) notes ->
     header_block hdr ->
     PyStr.startswith d "$CMP " = true ->
     PyStr.startswith (PyStr.strip (PyStr.drop 5 d)) device = true ->
     Forall (fun x => dcm_field_ok x = true) body ->
     dcm_fields body rs = Some (fields, rs') ->
     PyStr.startswith cl "$ENDCMP" = true ->
     f !! dcm_file_read LIB rt = Some (File (pre ++ [t])) ->
     is_dir f LIB = true ->
     f !! dcm_file_write LIB rt <> Some Dir ->
     Forall (fun l => passes (classify_dcm device l) = true) pre ->
     PyStr.match_end t = true ->
     exists log',
       import_dcm LIB device rt
         (Some (before ++ notes ++ hdr ++ d :: body ++ cl :: after))
         (mkState f log rs) =
       (inr (dcm_file_read LIB rt, dcm_file_write LIB rt),
        mkState
          (<[dcm_file_write LIB rt :=
               File (pre ++
                     (hdr ++
                      PyStr.replace1 (PyStr.strip (PyStr.drop 5 d)) device d ::
                        fields ++ [cl]) ++
                     [t])]> f) log' rs')).
Proof.
  split; intros.
  - destruct (scan_lib_locates_notes device rt before notes hdr d body cl after
                t0 name ts) as (ls & c & Hscan & Hend & Hwh & _); try done.
    rewrite <- Hwh. eapply import_lib_appends; eauto.
  - destruct (scan_dcm_locates device
                (bool_decide (is_Some (Some (before ++ notes ++ hdr ++ d ::
                                               body ++ cl :: after))))
                before notes hdr d body cl after f log rs fields rs')
      as (ls & c & Hscan & Hend & Hwh & _); try done.
    rewrite <- Hwh.
    change rs' with (replies (mkState f log rs')).
    eapply import_dcm_appends; eauto.
Qed.

Lemma C4_witness :
  (exists log',
     import_lib Example.LIB "LM358" SAMACSYS Example.lm358_lib
       (mkState (Example.fs_of Example.ne555_lib) [] []) =
     (inr (lib_file_read Example.LIB SAMACSYS, lib_file_write Example.LIB SAMACSYS),
      mkState
        (<[lib_file_write Example.LIB SAMACSYS :=
             File (firstn 8 Example.ne555_lib ++
                   record_with_header Example.lm358_lines Example.lm358_cursors ++
                   ["# End Library"])]>
           (Example.fs_of Example.ne555_lib)) log' [])) /\
  (exists log',
     import_dcm Example.LIB "LM358" SAMACSYS (Some Example.lm358_dcm)
       (mkState (Example.fs_of Example.ne555_lib) [] ["Dual op-amp"]) =
     (inr (dcm_file_read Example.LIB SAMACSYS, dcm_file_write Example.LIB SAMACSYS),
      mkState
        (<[dcm_file_write Example.LIB SAMACSYS :=
             File (firstn 5 Example.old_dcm ++
                   ["#"; "$CMP LM358"; "D Dual op-amp"; "F http://x/lm358.pdf";
                    "$ENDCMP"] ++
                   ["#End Doc Library"])]>
           (Example.fs_of Example.ne555_lib)) log' [])).
Proof.
  split.
  - apply (proj1 C4_new_record_before_trailer Example.LIB "LM358" SAMACSYS
             ["EESchema-LIBRARY Version 2.3"] ["#encoding utf-8"]
             ["#"; "# LM358"; "#"] "DEF LM358 U 0 40 Y Y 1 F N"
             ["F0 " +:+ Example.quoted "U" +:+ " 0 0 50 H V C CNN";
              "F1 " +:+ Example.quoted "LM358" +:+ " 0 -100 50 H V C CNN";
              field_F2_FP1 +:+ " 0 0 50 H I C CNN"; "DRAW"; "ENDDRAW"]
             "ENDDEF" ["#"; "#End Library"]
             "DEF" "LM358" ["U"; "0"; "40"; "Y"; "Y"; "1"; "F"; "N"]
             (Example.fs_of Example.ne555_lib) [] []
             (firstn 8 Example.ne555_lib) "# End Library");
      try (vm_compute; reflexivity); try (vm_compute; discriminate);
      try (intros x [= <-]; reflexivity);
      try (split; [reflexivity|]); repeat constructor.
  - apply (proj2 C4_new_record_before_trailer Example.LIB "LM358" SAMACSYS
             ["EESchema-DOCLIB  Version 2.0"] [] ["#"] "$CMP LM358"
             ["D Dual Op-Amp"; "F http://x/lm358.pdf"] "$ENDCMP"
             ["#"; "#End Doc Library"]
             ["D Dual op-amp"; "F http://x/lm358.pdf"]
             (Example.fs_of Example.ne555_lib) [] ["Dual op-amp"] []
             (firstn 5 Example.old_dcm) "#End Doc Library");
      try (vm_compute; reflexivity); try (vm_compute; discriminate);
      try (intros x [= <-]; reflexivity);
      try (split; [reflexivity|]); repeat constructor.
Defined.

(** C5 (counterexample).  The header block of the archive's record has a
    comment that the trailer pattern matches.  The first import puts the
    record with its header before the trailer; the second import takes that
    comment for the trailer, writes the record once more before it and stops
    there: the library has grown and has lost its trailer. *)
Lemma C5_second_import_differs :
  (import_all Example.LIB Example.FPS Example.M3D Example.zip_commented
     (Example.start (Example.fs_of lib_template) [""])).1 = inr (Some "OK:") /\
  (import_all Example.LIB Example.FPS Example.M3D Example.zip_commented
     (Example.start (fs Example.first_import) [""; "y"; "y"; "y"; "y"])).1
    = inr (Some "OK:") /\
  fs Example.first_import !! lib_file_read Example.LIB SAMACSYS =
    Some (File ["EESchema-LIBRARY Version 2.4"; "#encoding utf-8";
                "#"; "# LM358"; "# end of life announced"; "#";
                "DEF LM358 U 0 40 Y Y 1 F N"; "ENDDEF";
                "# End Library"]) /\
  fs Example.second_import !! lib_file_read Example.LIB SAMACSYS =
    Some (File ["EESchema-LIBRARY Version 2.4"; "#encoding utf-8";
                "#"; "# LM358";
                "#"; "# LM358"; "# end of life announced"; "#";
                "DEF LM358 U 0 40 Y Y 1 F N"; "ENDDEF";
                "# end of life announced"]) /\
  fs Example.second_import !! lib_file_read Example.LIB SAMACSYS <>
  fs Example.first_import !! lib_file_read Example.LIB SAMACSYS.
Proof. vm_compute. repeat split; discriminate. Qed.

(** C5 (amended).  Let the record the archive yields open with a line that
    the loop over the library takes for a record of the device, close with
    its last line only, and hold, like its header block, no line that the
    loop takes for a trailer or for another opening line.  Then a second
    import over the library that a first import has produced, with every
    overwrite consented to, stages that very library again: nothing is
    added and nothing is lost. *)
Theorem C5_second_import_is_identical :
  (forall LIB device rt lib ls c s e f log rs1 rs2 T d body cl,
     scan_lib device rt lib 0 no_cursors = inr (ls, c) ->
     index_start c = Some s -> index_end c = Some e ->
     record_only ls c = d :: body ++ [cl] ->
     classify_lib device d = Opens ->
     Forall (fun l => classify_lib device l = Plain) body ->
     classify_lib device cl = Closes ->
     Forall (fun l => passes (classify_lib device l) = true)
            (slice ls (default s (index_header_start c)) s) ->
     T <> [] ->
     ended (merge_lib device (record_with_header ls c) (record_only ls c)
              T false false rs1) = Completed ->
     f !! lib_file_read LIB rt =
       Some (File (written (merge_lib device (record_with_header ls c)
                              (record_only ls c) T false false rs1))) ->
     is_dir f LIB = true ->
     f !! lib_file_write LIB rt <> Some Dir ->
     Forall (fun r => lib_yes r = true) rs2 ->
     length (written (merge_lib device (record_with_header ls c)
                        (record_only ls c) T false false rs1)) <= length rs2 ->
     exists log' rs',
       import_lib LIB device rt lib (mkState f log rs2) =
       (inr (lib_file_read LIB rt, lib_file_write LIB rt),
        mkState
          (<[lib_file_write LIB rt :=
               File (written (merge_lib device (record_with_header ls c)
                                (record_only ls c) T false false rs1))]> f)
          log' rs'))
  /\
  (forall LIB device rt dcm ls c s e f log rs1 rs2 s2 T d body cl,
     scan_dcm device (bool_decide (is_Some dcm))
       (match dcm with Some l => l | None => default_dcm device end)
       0 no_cursors (mkState f log rs2) = (inr (ls, c), s2) ->
     index_start c = Some s -> index_end c = Some e ->
     record_only ls c = d :: body ++ [cl] ->
     classify_dcm device d = Opens ->
     Forall (fun l => classify_dcm device l = Plain) body ->
     classify_dcm device cl = Closes ->
     Forall (fun l => passes (classify_dcm device l) = true)
            (slice ls (default s (index_header_start c)) s) ->
     T <> [] ->
     ended (merge_dcm device (record_with_header ls c) (record_only ls c)
              T false false rs1) = Completed ->
     f !! dcm_file_read LIB rt =
       Some (File (written (merge_dcm device (record_with_header ls c)
                              (record_only ls c) T false false rs1))) ->
     is_dir f LIB = true ->
     f !! dcm_file_write LIB rt <> Some Dir ->
     Forall (fun r => dcm_yes r = true) (replies s2) ->
     length (written (merge_dcm device (record_with_header ls c)
                        (record_only ls c) T false false rs1))
       <= length (replies s2) ->
     exists log' rs',
       import_dcm LIB device rt dcm (mkState f log rs2) =
       (inr (dcm_file_read LIB rt, dcm_file_write LIB rt),
        mkState
          (<[dcm_file_write LIB rt :=
               File (written (merge_dcm device (record_with_header ls c)
                                (record_only ls c) T false false rs1))]> f)
          log' rs')).
Proof.
  split; intros.
  - eapply import_lib_again; eauto.
  - eapply import_dcm_again; eauto.
Qed.

Lemma C5_witness :
  exists log' rs',
    import_lib Example.LIB "LM358" SAMACSYS Example.lm358_lib
      (mkState (Example.fs_of Example.imported_lib) [] (replicate 13 "y")) =
    (inr (lib_file_read Example.LIB SAMACSYS, lib_file_write Example.LIB SAMACSYS),
     mkState
       (<[lib_file_write Example.LIB SAMACSYS :=
            File (written
                    (merge_lib "LM358"
                       (record_with_header Example.lm358_lines Example.lm358_cursors)
                       (record_only Example.lm358_lines Example.lm358_cursors)
                       lib_template false false []))]>
          (Example.fs_of Example.imported_lib)) log' rs').
Proof.
  apply (proj1 C5_second_import_is_identical Example.LIB "LM358" SAMACSYS
           Example.lm358_lib Example.lm358_lines Example.lm358_cursors 5 12
           (Example.fs_of Example.imported_lib) [] [] (replicate 13 "y")
           lib_template "DEF LM358 U 0 40 Y Y 1 F N"
           (firstn 5 (skipn 6 Example.lm358_lines)) "ENDDEF");
    try (vm_compute; reflexivity); try (vm_compute; discriminate);
    try (vm_compute; lia); repeat constructor.
Defined.

(** C6.  When the first opening line of the archive's file carries a name
    that does not start with the device, [import_lib] and [import_dcm] raise
    [Warning('Unexpected device ...')] and end in the state they began in:
    no file is created or written, the ledger is as it was, no reply is
    consumed. *)
Theorem C6_unexpected_device_raises :
  (forall LIB device rt pre l post t0 name ts st,
     Forall (fun x => PyStr.startswith x "DEF " = false) pre ->
     PyStr.startswith l "DEF " = true ->
     PyStr.split l = t0 :: name :: ts ->
     PyStr.startswith name device = false ->
     import_lib LIB device rt (pre ++ l :: post) st =
     (inl (Warning UnexpectedDevice), st))
  /\
  (forall LIB device rt pre l post st,
     Forall (fun x => PyStr.startswith x "$CMP " = false) pre ->
     PyStr.startswith l "$CMP " = true ->
     PyStr.startswith (PyStr.strip (PyStr.drop 5 l)) device = false ->
     import_dcm LIB device rt (Some (pre ++ l :: post)) st =
     (inl (Warning UnexpectedDevice), st)).
Proof.
  split; intros.
  - eapply import_lib_unexpected; eauto.
  - eapply import_dcm_unexpected; eauto.
Qed.

Lemma C6_witness :
  import_lib Example.LIB "LM358" SAMACSYS
    (["#"; "# NE555"; "#"] ++ "DEF NE555 U 0 40 Y Y 1 F N" :: ["ENDDEF"])
    (Example.start (Example.fs_of Example.old_lib) ["y"]) =
  (inl (Warning UnexpectedDevice),
   Example.start (Example.fs_of Example.old_lib) ["y"]).
Proof.
  apply (proj1 C6_unexpected_device_raises Example.LIB "LM358" SAMACSYS
           ["#"; "# NE555"; "#"] "DEF NE555 U 0 40 Y Y 1 F N" ["ENDDEF"]
           "DEF" "NE555" ["U"; "0"; "40"; "Y"; "Y"; "1"; "F"; "N"]);
    try (vm_compute; reflexivity); repeat constructor.
Defined.

(** C7 (counterexample).  Two opening lines before a closing line raise
    nothing in [import_lib]: neither in the archive's file, whose second
    [DEF] line is taken for a line of the record and written with it, nor in
    the library, which is not checked at all. *)
Lemma C7_nested_records_pass :
  import_lib Example.LIB "LM358" SAMACSYS Example.lm358_lib_nested
    (Example.start (Example.fs_of lib_template) []) =
  (inr (lib_file_read Example.LIB SAMACSYS, lib_file_write Example.LIB SAMACSYS),
   mkState
     (<[lib_file_write Example.LIB SAMACSYS :=
          File ["EESchema-LIBRARY Version 2.4"; "#encoding utf-8";
                "DEF LM358 U 0 40 Y Y 1 F N"; "DEF LM358_2 U 0 40 Y Y 1 F N";
                "ENDDEF"; "# End Library"]]>
        (Example.fs_of lib_template))
     [(FsPath (lib_file_write Example.LIB SAMACSYS), TOUCH_FILE)] [])
  /\
  (import_lib Example.LIB "LM358" SAMACSYS Example.lm358_lib
     (Example.start (Example.fs_of Example.nested_lib) [])).1 =
  inr (lib_file_read Example.LIB SAMACSYS, lib_file_write Example.LIB SAMACSYS).
Proof. split; vm_compute; reflexivity. Qed.

(** C7 (amended).  [import_dcm] raises [Warning('Multiple devices ...')]
    when the archive's file has a second [$CMP] line after the opening line
    of the record and before its [$ENDCMP]; [import_lib] raises it when the
    archive's file has a further [DEF] line after the [ENDDEF] of the
    record.  In both cases the file system and the ledger are as they were.
    The library itself is not checked for several records. *)
Theorem C7_multiple_devices_raise :
  (forall LIB device rt pre l1 mid l2 post st,
     Forall (fun x => PyStr.startswith x "$CMP " = false) pre ->
     PyStr.startswith l1 "$CMP " = true ->
     PyStr.startswith (PyStr.strip (PyStr.drop 5 l1)) device = true ->
     Forall (fun x => dcm_field_ok x = true) mid ->
     PyStr.startswith l2 "$CMP " = true ->
     length mid <= length (replies st) ->
     exists st',
       import_dcm LIB device rt (Some (pre ++ l1 :: mid ++ l2 :: post)) st =
       (inl (Warning MultipleDevices), st') /\ same_store st st')
  /\
  (forall LIB device rt pre d body cl after d2 post t0 name ts st,
     Forall (fun x => PyStr.startswith x "DEF " = false) pre ->
     PyStr.startswith d "DEF " = true ->
     PyStr.split d = t0 :: name :: ts ->
     PyStr.startswith name device = true ->
     Forall (fun x => lib_field_ok x = true) body ->
     PyStr.startswith cl "ENDDEF" = true ->
     Forall (fun x => PyStr.startswith x "DEF " = false) after ->
     PyStr.startswith d2 "DEF " = true ->
     import_lib LIB device rt
       (pre ++ d :: body ++ cl :: after ++ d2 :: post) st =
     (inl (Warning MultipleDevices), st)).
Proof.
  split; intros.
  - eapply import_dcm_multiple; eauto.
  - eapply import_lib_multiple; eauto.
Qed.

Lemma C7_witness :
  exists st',
    import_dcm Example.LIB "LM358" SAMACSYS
      (Some (["#"] ++ "$CMP LM358" :: ["D Dual Op-Amp"] ++
             "$CMP LM358N" :: ["$ENDCMP"]))
      (Example.start (Example.fs_of Example.old_lib) [""]) =
    (inl (Warning MultipleDevices), st') /\
    same_store (Example.start (Example.fs_of Example.old_lib) [""]) st'.
Proof.
  apply (proj1 C7_multiple_devices_raise Example.LIB "LM358" SAMACSYS
           ["#"] "$CMP LM358" ["D Dual Op-Amp"] "$CMP LM358N" ["$ENDCMP"]);
    try (vm_compute; reflexivity); try (vm_compute; lia); repeat constructor.
Defined.

(** C8.  Under remote type SAMACSYS, a line [F2 "FP1"] inside the record
    that [import_lib] locates in the archive's file, alone on its line or
    followed by further blank-separated columns, is in the staging file as
    [F2 "SAMACSYS:FP1"] with the same columns, whenever the library has a
    trailer, the operator consents to every overwrite and the import
    returns. *)
Theorem C8_footprint_is_qualified :
  forall LIB device lib ls c s e i rest f log rs T res st',
    scan_lib device SAMACSYS lib 0 no_cursors = inr (ls, c) ->
    index_start c = Some s -> index_end c = Some e ->
    lib !! i = Some (field_F2_FP1 +:+ rest) ->
    starts_blank rest = true ->
    s < i -> i < e ->
    f !! lib_file_read LIB SAMACSYS = Some (File T) ->
    Exists (fun l => PyStr.match_end l = true) T ->
    is_dir f LIB = true ->
    f !! lib_file_write LIB SAMACSYS <> Some Dir ->
    Forall (fun r => lib_yes r = true) rs ->
    import_lib LIB device SAMACSYS lib (mkState f log rs) = (inr res, st') ->
    exists out,
      fs st' !! lib_file_write LIB SAMACSYS = Some (File out) /\
      (field_F2_SAMACSYS_FP1 +:+ rest) ∈ out.
Proof. intros. eapply import_lib_qualifies; eauto. Qed.

Lemma C8_witness :
  exists out,
    fs (import_lib Example.LIB "LM358" SAMACSYS
          ["DEF LM358 U 0 40 Y Y 1 F N"; field_F2_FP1; "ENDDEF"]
          (mkState (Example.fs_of Example.ne555_lib) [] [])).2
      !! lib_file_write Example.LIB SAMACSYS = Some (File out) /\
    (field_F2_SAMACSYS_FP1 +:+ "") ∈ out.
Proof.
  apply (C8_footprint_is_qualified Example.LIB "LM358"
           ["DEF LM358 U 0 40 Y Y 1 F N"; field_F2_FP1; "ENDDEF"]
           ["DEF LM358 U 0 40 Y Y 1 F N"; field_F2_SAMACSYS_FP1; "ENDDEF"]
           (mkCursors (Some 0) (Some 3) None) 0 3 1 ""
           (Example.fs_of Example.ne555_lib) [] [] Example.ne555_lib
           (lib_file_read Example.LIB SAMACSYS, lib_file_write Example.LIB SAMACSYS));
    try (vm_compute; reflexivity); try (vm_compute; discriminate);
    try lia; try (by constructor).
  vm_compute. repeat first [by apply Exists_cons_hd | apply Exists_cons_tl].
Defined.

(** C9 (counterexample).  A run that ends well over an empty symbol library:
    the library has been rewritten, and the ledger has no entry for it, nor
    any entry of kind [MODIFIED_FILE]. *)
Lemma C9_modified_file_not_logged :
  (import_all Example.LIB Example.FPS Example.M3D Example.zip_with_model
     (Example.start (Example.fs_of lib_template) [""])).1 = inr (Some "OK:") /\
  fs (Example.after Example.zip_with_model
        (Example.start (Example.fs_of lib_template) [""]))
    !! lib_file_read Example.LIB SAMACSYS = Some (File Example.imported_lib) /\
  Example.fs_of lib_template !! lib_file_read Example.LIB SAMACSYS =
    Some (File lib_template) /\
  Example.imported_lib <> lib_template /\
  dict_get
    (modified_objects
       (Example.after Example.zip_with_model
          (Example.start (Example.fs_of lib_template) [""])))
    (FsPath (lib_file_read Example.LIB SAMACSYS)) = None /\
  modified_objects
    (Example.after Example.zip_with_model
       (Example.start (Example.fs_of lib_template) [""])) =
  [(FsPath (dcm_file_write Example.LIB SAMACSYS), TOUCH_FILE);
   (ZipPath "part.step", EXTRACTED_FILE);
   (FsPath (footprint_file_read Example.FPS SAMACSYS "FP1.kicad_mod"), TOUCH_FILE);
   (FsPath (footprint_file_write Example.FPS SAMACSYS "FP1.kicad_mod"), TOUCH_FILE);
   (FsPath (lib_file_write Example.LIB SAMACSYS), TOUCH_FILE)].
Proof. vm_compute. repeat split; discriminate. Qed.

(** C9 (amended).  The ledger is a dictionary keyed by the logged path, in
    the order of first insertion.  Appending a path that is not yet logged
    adds a last entry; appending a logged path puts the new kind in its
    entry, which keeps its place; the entries of other paths are not
    touched.  Over a run the ledger changes by such appends only, none of
    them of kind [MODIFIED_FILE], so the paths logged before the run are
    the first of the paths logged after it, in the same order. *)
Theorem C9_ledger_is_keyed_and_ordered :
  (forall d k v, dict_get d k = None -> dict_set d k v = d ++ [(k, v)]) /\
  (forall d k v v0,
     dict_get d k = Some v0 ->
     map fst (dict_set d k v) = map fst d /\
     length (dict_set d k v) = length d) /\
  (forall d k v, dict_get (dict_set d k v) k = Some v) /\
  (forall d k v k', k' <> k -> dict_get (dict_set d k v) k' = dict_get d k') /\
  (forall LIB FPS M3D zip s,
     logs_only s (import_all LIB FPS M3D zip s).2 /\
     map fst (modified_objects s) `prefix_of`
       map fst (modified_objects (import_all LIB FPS M3D zip s).2)).
Proof.
  split; [exact dict_set_fresh|].
  split; [exact dict_set_present|].
  split; [exact dict_get_set|].
  split; [intros; by apply dict_get_set_other|].
  intros LIB FPS M3D zip s.
  pose proof (logging_import_all LIB FPS M3D zip s) as H.
  split; [exact H|by apply logs_only_keys].
Qed.

Lemma C9_witness :
  dict_set [(FsPath ["kicad"], MKDIR)] (FsPath ["kicad"; "lib"]) TOUCH_FILE =
  [(FsPath ["kicad"], MKDIR)] ++ [(FsPath ["kicad"; "lib"], TOUCH_FILE)].
Proof.
  apply (proj1 C9_ledger_is_keyed_and_ordered
           [(FsPath ["kicad"], MKDIR)] (FsPath ["kicad"; "lib"]) TOUCH_FILE).
  reflexivity.
Defined.

(** C10 (counterexample).  No 3D model is installed, and the run ends well:
    a staging file of the footprint, left by an earlier run, is renamed over
    the footprint file. *)
Lemma C10_stale_staging_file_is_promoted :
  (import_all Example.LIB Example.FPS Example.M3D Example.zip_without_model
     (Example.start Example.fs_with_stale_staging [""])).1 = inr (Some "OK:") /\
  fs (Example.after Example.zip_without_model
        (Example.start Example.fs_with_stale_staging [""]))
    !! footprint_file_read Example.FPS SAMACSYS "FP1.kicad_mod"
    = Some (File Example.old_footprint).
Proof. vm_compute. auto. Qed.

(** C10 (amended).  Take a run in which all four stages return and no 3D
    model is installed, whose footprint stage returns a pair of paths, and
    let the staging path of that pair not exist when the run starts and not
    be a directory above the library or model directories.  Then
    [import_footprint] does not create the staging file, the documentation
    library is promoted, and the promotion of the footprint raises
    [FileNotFoundError]: the run ends there, with the symbol library not
    promoted. *)
Theorem C10_no_model_run_fails_after_dcm_promotion :
  forall LIB FPS M3D zip info st d s1 s2 r w s3 l s4,
    is_zipfile zip = true ->
    get_remote_info zip = inr info ->
    import_dcm LIB (device_of (zip_name zip)) (remote_type info)
      (dcm_path info) st = (inr d, s1) ->
    import_model M3D (model_path info) (zf zip) s1 = (inr None, s2) ->
    import_footprint FPS (remote_type info) (footprint_path info) None s2
      = (inr (Some (r, w)), s3) ->
    import_lib LIB (device_of (zip_name zip)) (remote_type info)
      (lib_path info) s3 = (inr l, s4) ->
    fs st !! w = None ->
    ~ w `prefix_of` LIB ->
    ~ w `prefix_of` M3D ->
    fs s3 !! w = fs s2 !! w /\
    exists c,
      fs s4 !! dcm_file_write LIB (remote_type info) = Some (File c) /\
      import_all LIB FPS M3D zip st =
      (inl FileNotFoundError,
       mkState (<[dcm_file_read LIB (remote_type info) := File c]>
                  (delete (dcm_file_write LIB (remote_type info)) (fs s4)))
               (modified_objects s4) (replies s4)).
Proof. intros. eapply import_all_no_model; eauto. Qed.

Lemma C10_witness :
  fs Example.after_footprint
    !! footprint_file_write Example.FPS SAMACSYS "FP1.kicad_mod" =
  fs Example.after_model
    !! footprint_file_write Example.FPS SAMACSYS "FP1.kicad_mod" /\
  exists c,
    fs Example.after_lib !! dcm_file_write Example.LIB SAMACSYS = Some (File c) /\
    import_all Example.LIB Example.FPS Example.M3D Example.zip_without_model
      Example.run_start =
    (inl FileNotFoundError,
     mkState (<[dcm_file_read Example.LIB SAMACSYS := File c]>
                (delete (dcm_file_write Example.LIB SAMACSYS)
                   (fs Example.after_lib)))
             (modified_objects Example.after_lib) (replies Example.after_lib)).
Proof.
  apply (C10_no_model_run_fails_after_dcm_promotion
           Example.LIB Example.FPS Example.M3D Example.zip_without_model
           (Example.info_of Example.lm358_lib []) Example.run_start
           (dcm_file_read Example.LIB SAMACSYS, dcm_file_write Example.LIB SAMACSYS)
           Example.after_dcm Example.after_model
           (footprint_file_read Example.FPS SAMACSYS "FP1.kicad_mod")
           (footprint_file_write Example.FPS SAMACSYS "FP1.kicad_mod")
           Example.after_footprint
           (lib_file_read Example.LIB SAMACSYS, lib_file_write Example.LIB SAMACSYS)
           Example.after_lib);
    try (vm_compute; reflexivity).
  - intros [k Hk]. vm_compute in Hk. discriminate Hk.
  - intros [k Hk]. vm_compute in Hk. discriminate Hk.
Defined.
(** * Further properties of the program *)

(** ** The prompt *)

Lemma find_absent ch s :
  ch ∉ list_ascii_of_string s -> find ch s = (-1)%Z.
Proof.
  induction s as [|c s IH]; [done|]. cbn [list_ascii_of_string find].
  intros H. apply not_elem_of_cons in H as [Hne Hs].
  destruct (Ascii.eqb_spec c ch) as [->|_]; [done|].
  by rewrite (IH Hs).
Qed.

Lemma find_first ch a b :
  ch ∉ list_ascii_of_string a ->
  find ch (a +:+ String ch b) = Z.of_nat (String.length a).
Proof.
  induction a as [|c a IH]; cbn [list_ascii_of_string].
  - intros _. change (find ch (String ch b) = 0%Z). cbn [find].
    by rewrite Ascii.eqb_refl.
  - intros H. apply not_elem_of_cons in H as [Hne Hs].
    change (find ch (String c (a +:+ String ch b)) =
            Z.of_nat (S (String.length a))).
    cbn [find]. destruct (Ascii.eqb_spec c ch) as [->|_]; [done|].
    rewrite (IH Hs).
    destruct (Z.ltb_spec (Z.of_nat (String.length a)) 0); lia.
Qed.

Lemma drop_past a c b :
  PyStr.drop (S (String.length a)) (a +:+ String c b) = b.
Proof. induction a as [|x a IH]; [by destruct b|]. exact IH. Qed.

(** X1.  [xinput] hands back what follows the first tilde of the reply, and
    the whole reply when it has no tilde; either way it takes one reply and
    leaves the files and the ledger alone. *)
Theorem X1_xinput_drops_through_first_tilde f log rs a b :
  "~"%char ∉ list_ascii_of_string a ->
  xinput (mkState f log ((a +:+ "~" +:+ b) :: rs)) = (inr b, mkState f log rs) /\
  xinput (mkState f log (a :: rs)) = (inr a, mkState f log rs).
Proof.
  intros Ha. unfold xinput. split; mrun.
  - change ("~" +:+ b) with (String "~" b). rewrite (find_first _ _ _ Ha).
    replace (Z.to_nat (Z.of_nat (String.length a) + 1))
      with (S (String.length a)) by lia.
    by rewrite drop_past.
  - rewrite (find_absent _ _ Ha). by destruct a.
Qed.

Lemma X1_witness :
  xinput (mkState ∅ [] ["^H^H~LM358.zip~"]) = (inr "LM358.zip~", mkState ∅ [] []) /\
  xinput (mkState ∅ [] ["^H^H"]) = (inr "^H^H", mkState ∅ [] []).
Proof.
  apply (X1_xinput_drops_through_first_tilde ∅ [] [] "^H^H" "LM358.zip~").
  apply (bool_decide_unpack _). by vm_compute.
Defined.
(** ** Completion *)

Lemma offered_lookup self text k :
  text <> "" ->
  offered self text k =
  inr (List.filter (fun s => negb (bool_decide (s = "")) && PyStr.startswith s text)
         (_select self) !! k).
Proof.
  intros Ht. unfold offered, complete. cbn [decide].
  rewrite (bool_decide_eq_false_2 _ Ht). cbn [negb fst snd _pre _select].
  destruct (decide (k = 0)) as [->|Hk]; cbn [decide]; [done|].
  destruct (decide (0 = 0)); [|done]. cbn [_pre _select].
  by destruct (decide (k = 0)).
Qed.

(** X2.  For a text that is not empty, the completions handed to readline
    at the states 0, 1, 2, ... are exactly the candidates that are not empty
    and start with the text: each one offered is such a candidate, each such
    candidate is offered at some state, and from some state on there is
    none. *)
Theorem X2_completions_are_the_matching_candidates self text :
  text <> "" ->
  (forall k s, offered self text k = inr (Some s) ->
     s <> "" /\ PyStr.startswith s text = true /\ s ∈ _select self) /\
  (forall s, s ∈ _select self -> s <> "" -> PyStr.startswith s text = true ->
     exists k, offered self text k = inr (Some s)) /\
  (forall k, length (_select self) <= k -> offered self text k = inr None).
Proof.
  intros Ht. split; [|split].
  - intros k s. rewrite offered_lookup by done. intros [= H].
    apply list_elem_of_lookup_2, list_elem_of_In, filter_In in H as [Hin Hs].
    apply andb_true_iff in Hs as [Hne Hs]. apply negb_true_iff in Hne.
    apply bool_decide_eq_false in Hne. by rewrite list_elem_of_In.
  - intros s Hin Hne Hs.
    assert (H : s ∈ List.filter
                  (fun s => negb (bool_decide (s = "")) && PyStr.startswith s text)
                  (_select self)).
    { apply list_elem_of_In, filter_In. split; [by apply list_elem_of_In|].
      by rewrite Hs, (bool_decide_eq_false_2 _ Hne). }
    apply list_elem_of_lookup_1 in H as [k Hk]. exists k.
    by rewrite offered_lookup, Hk.
  - intros k Hk. rewrite offered_lookup by done. f_equal.
    apply lookup_ge_None_2.
    pose proof (filter_length_le
      (fun s => negb (bool_decide (s = "")) && PyStr.startswith s text)
      (_select self)). lia.
Qed.

Lemma X2_witness :
  (forall k s, offered (mkSelect ["LM358.zip"; ""; "NE555.zip"; "LM317.zip"] None) "LM" k
               = inr (Some s) ->
     s <> "" /\ PyStr.startswith s "LM" = true /\
     s ∈ ["LM358.zip"; ""; "NE555.zip"; "LM317.zip"]) /\
  (forall s, s ∈ ["LM358.zip"; ""; "NE555.zip"; "LM317.zip"] -> s <> "" ->
     PyStr.startswith s "LM" = true ->
     exists k, offered (mkSelect ["LM358.zip"; ""; "NE555.zip"; "LM317.zip"] None) "LM" k
               = inr (Some s)) /\
  (forall k, 4 <= k ->
     offered (mkSelect ["LM358.zip"; ""; "NE555.zip"; "LM317.zip"] None) "LM" k = inr None).
Proof.
  apply (X2_completions_are_the_matching_candidates
           (mkSelect ["LM358.zip"; ""; "NE555.zip"; "LM317.zip"] None) "LM").
  discriminate.
Defined.
(** ** The tree of an archive *)

Lemma entry_forall_ind (P : Zip.entry -> Prop) :
  (forall n t, P (Zip.Member n t)) ->
  (forall n cs, Forall P cs -> P (Zip.Folder n cs)) ->
  forall e, P e.
Proof.
  intros Hm Hf. fix IH 1. intros [n t|n cs]; [apply Hm|].
  apply Hf. induction cs as [|c cs IHcs]; constructor; [apply IH|apply IHcs].
Qed.

Lemma head_app_first {A} (a b : list A) :
  head (a ++ b) = match head a with Some x => Some x | None => head b end.
Proof. by destruct a. Qed.

Lemma zipper_walk suffix e :
  Zip.zipper suffix e = head (List.filter (Zip.ends suffix) (Zip.walk e)).
Proof.
  induction e as [n t|n cs IH] using entry_forall_ind.
  - cbn [Zip.zipper Zip.walk List.filter]. unfold Zip.ends. cbn [Zip.entry_name].
    by destruct (PyStr.endswith n suffix).
  - cbn [Zip.zipper Zip.walk List.filter]. unfold Zip.ends at 1.
    destruct (PyStr.endswith (Zip.entry_name (Zip.Folder n cs)) suffix); [done|].
    induction IH as [|c cs Hc _ IHcs]; [done|].
    cbn [flat_map]. rewrite List.filter_app, head_app_first, <- Hc.
    destruct (Zip.zipper suffix c); [done|]. exact IHcs.
Qed.

(** X3.  [unzip] returns the first entry, going depth first with a
    directory before its entries, whose name ends with the suffix, and
    [None] when the tree has no such entry. *)
Theorem X3_unzip_first_in_depth_first_order root suffix :
  Zip.unzip (Zip.At root) suffix =
  option_map Zip.At (head (List.filter (Zip.ends suffix) (Zip.walk root))).
Proof.
  unfold Zip.unzip. rewrite zipper_walk.
  by destruct (head _).
Qed.
Lemma zipper_found suffix e p :
  Zip.zipper suffix e = Some p -> p ∈ Zip.walk e /\ Zip.ends suffix p = true.
Proof.
  rewrite zipper_walk. intros H.
  assert (Hin : In p (List.filter (Zip.ends suffix) (Zip.walk e))).
  { destruct (List.filter _ _); [done|]. injection H as ->. by left. }
  apply filter_In in Hin as [Hin Hp]. by rewrite list_elem_of_In.
Qed.

Lemma walk_self e : e ∈ Zip.walk e.
Proof. destruct e; cbn [Zip.walk]; apply list_elem_of_here. Qed.

Lemma walk_child n cs c x :
  c ∈ cs -> x ∈ Zip.walk c -> x ∈ Zip.walk (Zip.Folder n cs).
Proof.
  intros Hc Hx. cbn [Zip.walk]. apply list_elem_of_further.
  apply list_elem_of_In, in_flat_map. exists c.
  by rewrite <- !list_elem_of_In.
Qed.

Lemma walk_trans e : forall p q,
  p ∈ Zip.walk e -> q ∈ Zip.walk p -> q ∈ Zip.walk e.
Proof.
  induction e as [n t|n cs IH] using entry_forall_ind; intros p q Hp Hq.
  - cbn [Zip.walk] in Hp. apply list_elem_of_singleton in Hp as ->. done.
  - cbn [Zip.walk] in Hp. apply elem_of_cons in Hp as [->|Hp]; [done|].
    apply list_elem_of_In, in_flat_map in Hp as (c & Hc & Hp).
    apply list_elem_of_In in Hc, Hp.
    rewrite Forall_forall in IH.
    eapply walk_child; [done|]. by eapply IH.
Qed.

Lemma unzip_found e suffix p :
  Zip.unzip (Zip.At e) suffix = Some p ->
  exists x, p = Zip.At x /\ x ∈ Zip.walk e /\ Zip.ends suffix x = true.
Proof.
  unfold Zip.unzip. destruct (Zip.zipper suffix e) as [x|] eqn:E; [|done].
  intros [= <-]. exists x. split; [done|]. by apply zipper_found.
Qed.

Lemma joinpath_found e child :
  Zip.exists_ (Zip.joinpath (Zip.At e) child) = true ->
  exists x, Zip.joinpath (Zip.At e) child = Zip.At x /\
            x ∈ Zip.walk e /\ Zip.entry_name x = child.
Proof.
  unfold Zip.joinpath. destruct e as [n t|n cs]; [done|].
  destruct (List.find _ cs) as [x|] eqn:E; [|done]. intros _.
  apply find_some in E as [Hin Hx]. apply bool_decide_eq_true in Hx.
  exists x. split; [done|]. split; [|done].
  eapply walk_child; [by apply list_elem_of_In|apply walk_self].
Qed.

Lemma existsb_head_filter {A} (f : A -> bool) l :
  existsb f l = match head (List.filter f l) with Some _ => true | None => false end.
Proof.
  induction l as [|a l IH]; [done|]. cbn [existsb List.filter].
  destruct (f a); [done|]. exact IH.
Qed.

Lemma unzip_existsb e suffix :
  existsb (Zip.ends suffix) (Zip.walk e) =
  match Zip.unzip (Zip.At e) suffix with Some _ => true | None => false end.
Proof.
  unfold Zip.unzip. rewrite zipper_walk, existsb_head_filter.
  by destruct (head _).
Qed.

(** X4.  Whatever layout [get_remote_info] settles on, the symbol file it
    returns is an entry of the archive whose name ends with [.lib], the
    documentation file, when one is returned, is an entry whose name ends
    with [.dcm], and the footprint directory is an entry of the archive. *)
Theorem X4_remote_paths_lie_in_the_archive root info :
  Zip.get_remote_info (Zip.At root) = inr info ->
  (exists l, Zip.lib_path info = Zip.At l /\ l ∈ Zip.walk root /\
             Zip.ends ".lib" l = true) /\
  (forall d, Zip.dcm_path info = Some d ->
     exists x, d = Zip.At x /\ x ∈ Zip.walk root /\ Zip.ends ".dcm" x = true) /\
  (exists fp, Zip.footprint_path info = Zip.At fp /\ fp ∈ Zip.walk root).
Proof.
  unfold Zip.get_remote_info.
  destruct (Zip.exists_ (Zip.joinpath (Zip.At root) "device.dcm")) eqn:Ed;
    [destruct (Zip.exists_ (Zip.joinpath (Zip.At root) "device.lib")) eqn:El;
     [destruct (Zip.exists_ (Zip.joinpath (Zip.At root) "device.pretty")) eqn:Ep|]|];
    cbn [andb].
  1: { apply joinpath_found in Ed as (d & -> & Hd & Hdn).
       apply joinpath_found in El as (l & -> & Hl & Hln).
       apply joinpath_found in Ep as (p & -> & Hp & Hpn).
       intros [= <-]. cbn [Zip.lib_path Zip.dcm_path Zip.footprint_path].
       split; [|split].
       - exists l. unfold Zip.ends. by rewrite Hln.
       - intros ? [= <-]. exists d. unfold Zip.ends. by rewrite Hdn.
       - by exists p. }
  all: destruct (Zip.unzip (Zip.At root) "KiCad") as [dir|] eqn:Ek.
  all: try (apply unzip_found in Ek as (k & -> & Hk & _);
            destruct (Zip.unzip (Zip.At k) ".dcm") as [d|] eqn:Edcm; [|done];
            destruct (Zip.unzip (Zip.At k) ".lib") as [l|] eqn:Elib; [|done];
            intros [= <-]; cbn [Zip.lib_path Zip.dcm_path Zip.footprint_path];
            apply unzip_found in Edcm as (d' & -> & Hd & Hde);
            apply unzip_found in Elib as (l' & -> & Hl & Hle);
            split; [|split];
            [exists l'; eauto using walk_trans
            |intros ? [= <-]; exists d'; eauto using walk_trans
            |by exists k]).
  all: destruct (Zip.exists_ (Zip.joinpath (Zip.At root) "KiCAD")) eqn:EK.
  all: try (apply joinpath_found in EK as (k & -> & Hk & _);
            destruct (Zip.unzip (Zip.At k) ".lib") as [l|] eqn:Elib; [|done];
            destruct (Zip.unzip (Zip.At k) ".pretty") as [p|] eqn:Epr; [|done];
            intros [= <-]; cbn [Zip.lib_path Zip.dcm_path Zip.footprint_path];
            apply unzip_found in Elib as (l' & -> & Hl & Hle);
            apply unzip_found in Epr as (p' & -> & Hp & Hpe);
            split; [|split];
            [exists l'; eauto using walk_trans
            |intros d Hd; apply unzip_found in Hd as (d' & -> & Hd & Hde);
             exists d'; eauto using walk_trans
            |exists p'; eauto using walk_trans]).
  all: destruct (Zip.unzip (Zip.At root) ".lib") as [l|] eqn:Elib; [|done].
  all: intros [= <-]; cbn [Zip.lib_path Zip.dcm_path Zip.footprint_path].
  all: apply unzip_found in Elib as (l' & -> & Hl & Hle).
  all: split; [|split];
    [exists l'; eauto
    |intros d Hd; apply unzip_found in Hd as (d' & -> & Hd & Hde); exists d'; eauto
    |exists root; eauto using walk_self].
Qed.
Lemma X4_witness :
  (exists l, Zip.At (Zip.Member "LM358.lib" Example.lm358_lib) = Zip.At l /\
             l ∈ Zip.walk Sample.samacsys /\ Zip.ends ".lib" l = true) /\
  (forall d, Some (Zip.At (Zip.Member "LM358.dcm" Example.lm358_dcm)) = Some d ->
     exists x, d = Zip.At x /\ x ∈ Zip.walk Sample.samacsys /\
               Zip.ends ".dcm" x = true) /\
  (exists fp,
     Zip.At (Zip.Folder "KiCad"
               [Zip.Member "FP1.kicad_mod" Sample.footprint;
                Zip.Member "LM358.dcm" Example.lm358_dcm;
                Zip.Member "LM358.lib" Example.lm358_lib]) = Zip.At fp /\
     fp ∈ Zip.walk Sample.samacsys).
Proof.
  apply (X4_remote_paths_lie_in_the_archive Sample.samacsys
           (Zip.mkPaths
              (Some (Zip.At (Zip.Member "LM358.dcm" Example.lm358_dcm)))
              (Zip.At (Zip.Member "LM358.lib" Example.lm358_lib))
              (Zip.At (Zip.Folder "KiCad"
                 [Zip.Member "FP1.kicad_mod" Sample.footprint;
                  Zip.Member "LM358.dcm" Example.lm358_dcm;
                  Zip.Member "LM358.lib" Example.lm358_lib]))
              (Some (Zip.Missing "device.step")) SAMACSYS)).
  vm_compute. reflexivity.
Defined.

(** X5.  The layout is chosen by priority, whatever else the archive
    holds: OCTOPART when the root has [device.dcm], [device.lib] and
    [device.pretty]; otherwise SAMACSYS when some entry, at any depth, has a
    name that ends with [KiCad]; otherwise ULTRA_LIBRARIAN when the root has
    an entry [KiCAD]; otherwise SNAPEDA.  The only exception raised is
    [AssertionError], and never for the first layout. *)
Theorem X5_layout_is_chosen_by_priority root :
  let octopart :=
    Zip.exists_ (Zip.joinpath (Zip.At root) "device.dcm") &&
    Zip.exists_ (Zip.joinpath (Zip.At root) "device.lib") &&
    Zip.exists_ (Zip.joinpath (Zip.At root) "device.pretty") in
  let samacsys := existsb (Zip.ends "KiCad") (Zip.walk root) in
  let ultra := Zip.exists_ (Zip.joinpath (Zip.At root) "KiCAD") in
  match Zip.get_remote_info (Zip.At root) with
  | inr info =>
      Zip.remote_type info =
      if octopart then OCTOPART
      else if samacsys then SAMACSYS
      else if ultra then ULTRA_LIBRARIAN
      else SNAPEDA
  | inl e => e = AssertionError /\ octopart = false
  end.
Proof.
  intros octopart samacsys ultra. unfold Zip.get_remote_info. cbv zeta.
  fold octopart. destruct octopart; [done|].
  unfold samacsys. rewrite unzip_existsb.
  destruct (Zip.unzip (Zip.At root) "KiCad") as [dir|].
  { destruct (Zip.unzip dir ".dcm"); [|done]. by destruct (Zip.unzip dir ".lib"). }
  fold ultra. destruct ultra.
  { destruct (Zip.unzip _ ".lib"); [|done]. by destruct (Zip.unzip _ ".pretty"). }
  by destruct (Zip.unzip _ ".lib").
Qed.

(** X6.  For the layouts OCTOPART and SAMACSYS the model path handed to
    [import_model] is [device.step] at the root of the archive: unless the
    archive has a directory of that name, the model stage raises
    [ValueError] at [iterdir()] and installs nothing. *)
Theorem X6_model_stage_needs_a_device_step_directory
    M3D root info zf s :
  Zip.get_remote_info (Zip.At root) = inr info ->
  Zip.remote_type info = OCTOPART \/ Zip.remote_type info = SAMACSYS ->
  Zip.is_dir (Zip.joinpath (Zip.At root) "device.step") = false ->
  is_dir (fs s) M3D = true ->
  import_model M3D (Zip.model_items (Zip.model_path info)) zf s =
  (inl ValueError, s).
Proof.
  intros Hinfo Hrt Hstep Hdir.
  assert (Hm : Zip.model_path info = Some (Zip.joinpath (Zip.At root) "device.step")).
  { revert Hinfo Hrt. unfold Zip.get_remote_info. cbv zeta.
    destruct (_ && _).
    - by intros [= <-].
    - destruct (Zip.unzip (Zip.At root) "KiCad") as [dir|].
      + destruct (Zip.unzip dir ".dcm"); [|done].
        destruct (Zip.unzip dir ".lib"); [|done]. by intros [= <-].
      + destruct (Zip.exists_ _).
        * destruct (Zip.unzip _ ".lib"); [|done].
          destruct (Zip.unzip _ ".pretty"); [|done].
          intros [= <-]. by intros [|].
        * destruct (Zip.unzip _ ".lib"); [|done].
          intros [= <-]. by intros [|]. }
  rewrite Hm. unfold Zip.model_items, Zip.iterdir.
  unfold Zip.is_dir in Hstep.
  unfold import_model. mrun. unfold is_dir in Hdir.
  destruct (node_at (fs s) M3D) as [[|?]|]; try done. mrun.
  by destruct (Zip.joinpath (Zip.At root) "device.step") as [[?|?]|?].
Qed.

Lemma X6_witness :
  import_model Example.M3D
    (Zip.model_items (Some (Zip.Missing "device.step"))) Example.members
    (Example.start (Example.fs_of lib_template) []) =
  (inl ValueError, Example.start (Example.fs_of lib_template) []).
Proof.
  apply (X6_model_stage_needs_a_device_step_directory Example.M3D
           Sample.samacsys
           (Zip.mkPaths
              (Some (Zip.At (Zip.Member "LM358.dcm" Example.lm358_dcm)))
              (Zip.At (Zip.Member "LM358.lib" Example.lm358_lib))
              (Zip.At (Zip.Folder "KiCad"
                 [Zip.Member "FP1.kicad_mod" Sample.footprint;
                  Zip.Member "LM358.dcm" Example.lm358_dcm;
                  Zip.Member "LM358.lib" Example.lm358_lib]))
              (Some (Zip.Missing "device.step")) SAMACSYS)).
  - vm_compute. reflexivity.
  - right. reflexivity.
  - vm_compute. reflexivity.
  - vm_compute. reflexivity.
Defined.
(** ** The main program *)

Lemma warning_handler_run s :
  warning_handler s =
  match replies s with
  | [] => (inl EOFError, s)
  | _ :: rs => (inr tt, mkState (fs s) (modified_objects s) rs)
  end.
Proof.
  unfold warning_handler. mrun. destruct (replies s); [done|].
  by destruct (in_yes _).
Qed.

Section MainFacts.

Variables LIB FPS M3D : path.
Variable SRC_PATH : string -> archive.
Variable zap : bool.



(** X7.  An [EOFError] raised in the [try] block, by the prompt for the
    archive or by a prompt of a stage, is caught and the main program ends
    in the state the block has left.  The main program ends with an
    [EOFError] exactly when the [try] block has raised a [Warning] and no
    reply is left for the prompt of [warning_handler]: that prompt stands
    inside the handler, where no [except] clause applies any more. *)
Theorem X7_eof_of_the_undo_prompt_escapes s s' :
  (main_try LIB FPS M3D SRC_PATH zap s = (inl EOFError, s') ->
   main LIB FPS M3D SRC_PATH zap s = (inr None, s')) /\
  (main LIB FPS M3D SRC_PATH zap s = (inl EOFError, s') <->
   replies s' = [] /\
   exists w, main_try LIB FPS M3D SRC_PATH zap s = (inl (Warning w), s')).
Proof.
  unfold main. split.
  - by intros ->.
  - destruct (main_try LIB FPS M3D SRC_PATH zap s) as [[e0|u] s0].
    2: { split; [done|]. by intros (_ & ? & ?). }
    destruct e0; try (split; [done|]; by intros (_ & ? & ?)).
    unfold bind. rewrite warning_handler_run. split.
    + destruct (replies s0) eqn:E; [|done]. intros [= <-]. eauto.
    + intros (E & w' & [= _ <-]). by rewrite E.
Qed.


Lemma main_unlinked s name s' :
  main LIB FPS M3D SRC_PATH zap s = (inr (Some name), s') <->
  main_try LIB FPS M3D SRC_PATH zap s = (inr (Some name), s').
Proof.
  unfold main.
  destruct (main_try LIB FPS M3D SRC_PATH zap s) as [[e|u] s0]; [|done].
  split; [|done]. destruct e; try done.
  unfold bind. rewrite warning_handler_run. by destruct (replies s0).
Qed.

Lemma import_all_response zip s r s' :
  import_all LIB FPS M3D zip s = (inr (Some r), s') -> r = "OK:".
Proof.
  unfold import_all. destruct (negb _); [done|]. intros E.
  repeat (unfold bind at 1 in E;
          match type of E with
          | context [match ?c ?s with _ => _ end] =>
              destruct (c s) as [[?|?] ?]; [done|]
          end).
  revert E. unfold bind.
  repeat match goal with
    | |- context [match ?x with _ => _ end] => destruct x; try done
    end.
  unfold ret. by intros [= <- _].
Qed.

(** X9.  The archive is removed exactly when [--zap] is given and
    [import_all] has returned its ['OK:'] for the archive the operator has
    named. *)
Theorem X9_zap_removes_only_an_imported_archive s name s' :
  main LIB FPS M3D SRC_PATH zap s = (inr (Some name), s') <->
  zap = true /\
  exists s1, Select_call s = (inr name, s1) /\
             import_all LIB FPS M3D (SRC_PATH name) s1 = (inr (Some "OK:"), s').
Proof.
  rewrite main_unlinked. unfold main_try. unfold bind at 1.
  destruct (Select_call s) as [[e|n] s1].
  { split; [done|]. by intros (_ & ? & ? & _). }
  unfold bind at 1.
  destruct (import_all LIB FPS M3D (SRC_PATH n) s1) as [[e|[r|]] s2] eqn:E.
  - split; [done|]. intros (_ & ? & [= <- <-] & H). congruence.
  - apply import_all_response in E as Hr. subst r.
    destruct zap; cbn [andb].
    + rewrite bool_decide_eq_true_2 by done. unfold ret. split.
      * intros [= <- <-]. eauto.
      * intros (_ & ? & [= <- <-] & H). congruence.
    + unfold ret. split; [done|]. by intros [? _].
  - unfold ret. split; [done|]. intros (_ & ? & [= <- <-] & H). congruence.
Qed.

End MainFacts.
Lemma X7_witness :
  main Example.LIB Example.FPS Example.M3D (fun _ => Example.zip_other_device)
    true (Example.start Example.fs_with_footprint []) =
  (inr None, Example.start Example.fs_with_footprint []) /\
  main Example.LIB Example.FPS Example.M3D (fun _ => Example.zip_other_device)
    true (Example.start Example.fs_with_footprint ["LM358.zip"; ""]) =
  (inl EOFError,
   Example.after Example.zip_other_device
     (Example.start Example.fs_with_footprint [""])) /\
  (replies (Example.after Example.zip_other_device
              (Example.start Example.fs_with_footprint [""])) = [] /\
   exists w,
     main_try Example.LIB Example.FPS Example.M3D
       (fun _ => Example.zip_other_device) true
       (Example.start Example.fs_with_footprint ["LM358.zip"; ""]) =
     (inl (Warning w),
      Example.after Example.zip_other_device
        (Example.start Example.fs_with_footprint [""]))).
Proof.
  split; [|split].
  - apply (proj1 (X7_eof_of_the_undo_prompt_escapes Example.LIB Example.FPS
                    Example.M3D (fun _ => Example.zip_other_device) true
                    (Example.start Example.fs_with_footprint [])
                    (Example.start Example.fs_with_footprint []))).
    vm_compute. reflexivity.
  - apply (proj2 (proj2 (X7_eof_of_the_undo_prompt_escapes Example.LIB
                           Example.FPS Example.M3D
                           (fun _ => Example.zip_other_device) true
                           (Example.start Example.fs_with_footprint
                              ["LM358.zip"; ""])
                           (Example.after Example.zip_other_device
                              (Example.start Example.fs_with_footprint [""]))))).
    split; [vm_compute; reflexivity|].
    exists UnexpectedDevice. vm_compute. reflexivity.
  - apply (proj1 (proj2 (X7_eof_of_the_undo_prompt_escapes Example.LIB
                           Example.FPS Example.M3D
                           (fun _ => Example.zip_other_device) true
                           (Example.start Example.fs_with_footprint
                              ["LM358.zip"; ""])
                           (Example.after Example.zip_other_device
                              (Example.start Example.fs_with_footprint [""]))))).
    vm_compute. reflexivity.
Defined.


(** ** [check_file] *)

(** X10.  When [check_file] returns, the path exists, a second call changes
    nothing, and a path that existed before has been left as it was, ledger
    included. *)
Theorem X10_check_file_is_idempotent p s s' :
  check_file p s = (inr tt, s') ->
  path_exists (fs s') p = true /\
  check_file p s' = (inr tt, s') /\
  (path_exists (fs s) p = true -> s' = s).
Proof.
  intros H.
  assert (Hex : path_exists (fs s') p = true).
  { destruct (path_exists (fs s) p) eqn:E.
    - rewrite check_file_present in H by done. by injection H as <-.
    - destruct p as [|a p]; [done|].
      revert H. unfold check_file. unfold bind at 1. unfold get_fs at 1.
      rewrite E. cbn [negb]. unfold bind at 1.
      destruct ((if negb (is_dir (fs s) (parent (a :: p)))
                 then mkdir_parents (parent (a :: p));;;
                      append (FsPath (parent (a :: p))) MKDIR
                 else ret ()) s) as [[e|[]] s1]; [done|].
      unfold bind at 1. unfold touch. mrun. rewrite node_at_cons.
      destruct (fs s1 !! (a :: p)) as [n|] eqn:E1.
      + mrun. intros [= <-]. cbn [fs]. by rewrite node_at_cons, E1.
      + destruct (node_at (fs s1) (parent (a :: p))) as [[|?]|]; mrun; try done.
        intros [= <-]. cbn [fs]. by rewrite node_at_cons, lookup_insert_eq. }
  split; [done|]. split.
  - by apply check_file_present.
  - intros E. rewrite check_file_present in H by done. by injection H as <-.
Qed.
Lemma X10_witness :
  path_exists
    (fs (check_file (lib_file_read ["new"; "lib"] SAMACSYS)
           (Example.start (Example.fs_of lib_template) [])).2)
    (lib_file_read ["new"; "lib"] SAMACSYS) = true /\
  check_file (lib_file_read ["new"; "lib"] SAMACSYS)
    (check_file (lib_file_read ["new"; "lib"] SAMACSYS)
       (Example.start (Example.fs_of lib_template) [])).2 =
  (inr tt,
   (check_file (lib_file_read ["new"; "lib"] SAMACSYS)
      (Example.start (Example.fs_of lib_template) [])).2) /\
  (path_exists (fs (Example.start (Example.fs_of lib_template) []))
     (lib_file_read ["new"; "lib"] SAMACSYS) = true ->
   (check_file (lib_file_read ["new"; "lib"] SAMACSYS)
      (Example.start (Example.fs_of lib_template) [])).2 =
   Example.start (Example.fs_of lib_template) []).
Proof.
  apply (X10_check_file_is_idempotent (lib_file_read ["new"; "lib"] SAMACSYS)
           (Example.start (Example.fs_of lib_template) [])).
  vm_compute. reflexivity.
Defined.

Lemma mkdir_chain_creates todo : forall f base,
  (forall q c, q <> [] -> q `prefix_of` todo -> f !! (base ++ q) <> Some (File c)) ->
  exists f',
    mkdir_chain f base todo = inr f' /\
    forall q, q <> [] -> q `prefix_of` todo -> f' !! (base ++ q) = Some Dir.
Proof.
  induction todo as [|c todo IH]; intros f base Hf.
  - exists f. split; [done|]. intros q Hq Hp. by apply prefix_nil_inv in Hp.
  - cbn [mkdir_chain]. unfold path_join.
    assert (Hstep : forall g,
      g !! (base ++ [c]) = Some Dir ->
      (forall q, base ++ [c] <> (base ++ [c]) ++ q -> g !! ((base ++ [c]) ++ q) = f !! ((base ++ [c]) ++ q)) ->
      exists f', mkdir_chain g (base ++ [c]) todo = inr f' /\
        forall q, q <> [] -> q `prefix_of` c :: todo -> f' !! (base ++ q) = Some Dir).
    { intros g Hg Hsame.
      destruct (IH g (base ++ [c])) as (f' & E & Hdirs).
      { intros q x Hq Hp. rewrite Hsame.
        - rewrite <- app_assoc. apply Hf; [done|]. by apply prefix_cons.
        - intros Heq. apply (f_equal length) in Heq. rewrite !length_app in Heq.
          destruct q; [done|]. cbn in Heq. lia. }
      exists f'. split; [done|]. intros q Hq Hp.
      destruct q as [|a q]; [done|].
      apply prefix_cons_inv_1 in Hp as Ha. apply prefix_cons_inv_2 in Hp. subst a.
      destruct q as [|b q].
      - by apply (mkdir_chain_keeps _ _ _ _ _ _ E).
      - change (base ++ c :: b :: q) with (base ++ [c] ++ (b :: q)).
        rewrite app_assoc. by apply Hdirs. }
    destruct (f !! (base ++ [c])) as [[|x]|] eqn:E.
    + apply Hstep; [done|]. done.
    + exfalso. apply (Hf [c] x); [done| |done]. by apply prefix_cons, prefix_nil.
    + apply Hstep.
      * by rewrite lookup_insert_eq.
      * intros q Hq. by rewrite lookup_insert_ne.
Qed.

(** X11.  When the directory of the file is missing and nothing above it is
    a regular file, [check_file] creates every missing directory above the
    file and then the empty file, and leaves all other paths alone; the
    ledger receives one MKDIR entry, for the directory of the file, and one
    TOUCH_FILE entry: directories created further up are not logged. *)
Theorem X11_check_file_logs_one_directory dir name f log rs :
  path_exists f dir = false ->
  f !! path_join dir name = None ->
  (forall q c, q `prefix_of` dir -> f !! q <> Some (File c)) ->
  exists f',
    check_file (path_join dir name) (mkState f log rs) =
    (inr tt,
     mkState (<[path_join dir name := File []]> f')
       (dict_set (dict_set log (FsPath dir) MKDIR)
          (FsPath (path_join dir name)) TOUCH_FILE) rs) /\
    (forall q, q <> [] -> q `prefix_of` dir -> f' !! q = Some Dir) /\
    (forall q, ~ q `prefix_of` dir -> f' !! q = f !! q).
Proof.
  intros Hdir Hp Hfiles.
  destruct (mkdir_chain_creates dir f []) as (f' & E & Hdirs).
  { intros q c _ Hq. by apply Hfiles. }
  assert (Hd : dir <> []) by (by intros ->).
  assert (Hnd : node_at f dir = None).
  { unfold path_exists in Hdir. by destruct (node_at f dir). }
  assert (Hp' : f' !! path_join dir name = None).
  { rewrite (mkdir_chain_leaves _ _ _ _ _ E); [done|].
    unfold path_join. cbn [app]. intros Hpre. apply prefix_length in Hpre.
    rewrite length_app in Hpre. cbn in Hpre. lia. }
  assert (Hd' : node_at f' dir = Some Dir).
  { destruct dir as [|a dir]; [done|]. rewrite node_at_cons. by apply (Hdirs (a :: dir)). }
  exists f'. split; [|split].
  - unfold check_file, mkdir_parents. mrun.
    rewrite node_at_join, Hp, parent_join, Hnd. mrun. rewrite Hnd. mrun.
    rewrite E. mrun. by rewrite node_at_join, Hp', Hd'.
  - intros q Hq Hpre. by apply (Hdirs q).
  - intros q Hq. by apply (mkdir_chain_leaves _ _ _ _ _ E).
Qed.

Lemma X11_witness :
  exists f',
    check_file (path_join ["new"; "lib"] "SAMACSYS.lib")
      (mkState (Example.fs_of lib_template) [] []) =
    (inr tt,
     mkState (<[path_join ["new"; "lib"] "SAMACSYS.lib" := File []]> f')
       (dict_set (dict_set [] (FsPath ["new"; "lib"]) MKDIR)
          (FsPath (path_join ["new"; "lib"] "SAMACSYS.lib")) TOUCH_FILE) []) /\
    (forall q, q <> [] -> q `prefix_of` ["new"; "lib"] -> f' !! q = Some Dir) /\
    (forall q, ~ q `prefix_of` ["new"; "lib"] ->
               f' !! q = Example.fs_of lib_template !! q).
Proof.
  apply (X11_check_file_logs_one_directory ["new"; "lib"] "SAMACSYS.lib"
           (Example.fs_of lib_template) [] []).
  - vm_compute. reflexivity.
  - vm_compute. reflexivity.
  - intros q c Hq.
    assert (Hc : q = [] \/ q = ["new"] \/ q = ["new"; "lib"]).
    { destruct Hq as [k Hk]. destruct q as [|a [|b [|x q]]]; cbn in Hk.
      - auto.
      - injection Hk as <- _. auto.
      - injection Hk as <- <- _. auto.
      - discriminate Hk. }
    destruct Hc as [->|[->| ->]]; vm_compute; discriminate.
Defined.
(** ** [import_model] *)

Lemma mkdir_chain_present todo : forall f base,
  (forall q, q <> [] -> q `prefix_of` todo -> f !! (base ++ q) = Some Dir) ->
  mkdir_chain f base todo = inr f.
Proof.
  induction todo as [|c todo IH]; intros f base Hf; [done|].
  cbn [mkdir_chain]. unfold path_join.
  rewrite (Hf [c]); [|done|by apply prefix_cons, prefix_nil].
  apply IH. intros q Hq Hp. rewrite <- app_assoc.
  apply Hf; [done|]. by apply prefix_cons.
Qed.

Lemma import_model_items_skip M3D pre items zf s :
  Forall (fun n => PyStr.endswith n ".step" = false) pre ->
  import_model_items M3D (pre ++ items) zf s = import_model_items M3D items zf s.
Proof.
  induction 1 as [|n pre Hn _ IH]; [done|].
  cbn [app import_model_items]. by rewrite Hn.
Qed.

Lemma import_model_present M3D model zf s :
  is_dir (fs s) M3D = true ->
  import_model M3D (inr model) zf s = import_model_items M3D model zf s.
Proof.
  intros H. unfold import_model. mrun. unfold is_dir in H.
  by destruct (node_at (fs s) M3D) as [[|?]|].
Qed.

Lemma is_dir_of_chain f (dir : path) :
  (forall q, q <> [] -> q `prefix_of` dir -> f !! q = Some Dir) ->
  is_dir f dir = true.
Proof.
  intros H. unfold is_dir. destruct dir as [|a dir]; [done|].
  by rewrite node_at_cons, (H (a :: dir)).
Qed.

(** X12.  The model stage installs the first entry whose name ends with
    [.step], and that one only: with the model directory in place and no
    file of that name in it, the member is extracted under its name, it is
    logged as EXTRACTED_FILE under its path in the archive, no reply is
    taken, and the entries after it are not looked at. *)
Theorem X12_first_step_entry_is_installed M3D pre name rest zf c f log rs :
  Forall (fun n => PyStr.endswith n ".step" = false) pre ->
  PyStr.endswith name ".step" = true ->
  zf name = Some c ->
  (forall q, q <> [] -> q `prefix_of` M3D -> f !! q = Some Dir) ->
  f !! path_join M3D name = None ->
  import_model M3D (inr (pre ++ name :: rest)) zf (mkState f log rs) =
  (inr (Some name),
   mkState (<[path_join M3D name := File c]> f)
     (dict_set log (ZipPath name) EXTRACTED_FILE) rs).
Proof.
  intros Hpre Hname Hzf Hdirs Hnone.
  rewrite import_model_present by (by apply is_dir_of_chain).
  rewrite import_model_items_skip by done.
  cbn [import_model_items]. rewrite Hname. unfold zf_extract. mrun.
  rewrite node_at_join, Hnone. mrun. rewrite Hzf. mrun.
  rewrite mkdir_chain_present by done. mrun.
  by rewrite node_at_join, Hnone.
Qed.

Lemma X12_witness :
  import_model Example.M3D (inr ["readme.txt"; "part.step"; "other.step"])
    Example.members (mkState (Example.fs_of lib_template) [] []) =
  (inr (Some "part.step"),
   mkState (<[path_join Example.M3D "part.step" := File ["ISO-10303-21;"]]>
              (Example.fs_of lib_template))
     (dict_set [] (ZipPath "part.step") EXTRACTED_FILE) []).
Proof.
  apply (X12_first_step_entry_is_installed Example.M3D ["readme.txt"] "part.step"
           ["other.step"] Example.members ["ISO-10303-21;"]
           (Example.fs_of lib_template) [] []).
  - repeat constructor.
  - vm_compute. reflexivity.
  - vm_compute. reflexivity.
  - intros q Hq Hp.
    assert (Hc : q = ["kicad"] \/ q = ["kicad"; "3d"]).
    { destruct Hp as [k Hk]. destruct q as [|a [|b [|x q]]]; cbn in Hk.
      - done.
      - injection Hk as <- _. auto.
      - injection Hk as <- <- _. auto.
      - discriminate Hk. }
    destruct Hc as [->| ->]; vm_compute; reflexivity.
  - vm_compute. reflexivity.
Defined.

(** X13.  When a file of the model's name is installed already, the
    operator is asked once: on a consent the member is extracted over it;
    on any other reply the stage returns [None] with the files and the
    ledger as they were, and no later [.step] entry is tried. *)
Theorem X13_declined_model_ends_the_stage
    M3D pre name rest zf c old f log r rs :
  Forall (fun n => PyStr.endswith n ".step" = false) pre ->
  PyStr.endswith name ".step" = true ->
  zf name = Some c ->
  (forall q, q <> [] -> q `prefix_of` M3D -> f !! q = Some Dir) ->
  f !! path_join M3D name = Some (File old) ->
  import_model M3D (inr (pre ++ name :: rest)) zf (mkState f log (r :: rs)) =
  if dcm_yes r
  then (inr (Some name),
        mkState (<[path_join M3D name := File c]> f)
          (dict_set log (ZipPath name) EXTRACTED_FILE) rs)
  else (inr None, mkState f log rs).
Proof.
  intros Hpre Hname Hzf Hdirs Hold.
  rewrite import_model_present by (by apply is_dir_of_chain).
  rewrite import_model_items_skip by done.
  cbn [import_model_items]. rewrite Hname. unfold zf_extract. mrun.
  rewrite node_at_join, Hold. mrun. unfold dcm_yes.
  destruct (in_yes (or_default r "Yes")); [|done]. rewrite Hzf. mrun.
  rewrite mkdir_chain_present by done. mrun.
  by rewrite node_at_join, Hold.
Qed.
Lemma X13_witness :
  import_model Example.M3D (inr ["part.step"; "other.step"]) Example.members
    (mkState (<[path_join Example.M3D "part.step" := File ["old"]]>
                (Example.fs_of lib_template)) [] ["n"; "y"]) =
  if dcm_yes "n"
  then (inr (Some "part.step"),
        mkState (<[path_join Example.M3D "part.step" := File ["ISO-10303-21;"]]>
                   (<[path_join Example.M3D "part.step" := File ["old"]]>
                      (Example.fs_of lib_template)))
          (dict_set [] (ZipPath "part.step") EXTRACTED_FILE) ["y"])
  else (inr None,
        mkState (<[path_join Example.M3D "part.step" := File ["old"]]>
                   (Example.fs_of lib_template)) [] ["y"]).
Proof.
  apply (X13_declined_model_ends_the_stage Example.M3D [] "part.step"
           ["other.step"] Example.members ["ISO-10303-21;"] ["old"]
           (<[path_join Example.M3D "part.step" := File ["old"]]>
              (Example.fs_of lib_template)) [] "n" ["y"]).
  - constructor.
  - vm_compute. reflexivity.
  - vm_compute. reflexivity.
  - intros q Hq Hp.
    assert (Hc : q = ["kicad"] \/ q = ["kicad"; "3d"]).
    { destruct Hp as [k Hk]. destruct q as [|a [|b [|x q]]]; cbn in Hk.
      - done.
      - injection Hk as <- _. auto.
      - injection Hk as <- <- _. auto.
      - discriminate Hk. }
    destruct Hc as [->| ->]; vm_compute; reflexivity.
  - vm_compute. reflexivity.
Defined.

(** ** [import_footprint] *)

Lemma footprint_loop_last model init last : forall i,
  footprint_loop model (init ++ [last]) i (i + length init + 1) =
  init ++ model ++ [last].
Proof.
  induction init as [|a init IH]; intros i; cbn [app length footprint_loop].
  - destruct (decide (i = i + 0 + 1 - 1)); [done|lia].
  - destruct (decide (i = i + S (length init) + 1 - 1)); [lia|].
    f_equal. rewrite <- (IH (S i)). f_equal. lia.
Qed.

Lemma footprint_read_ne_write FPS rt name :
  footprint_file_read FPS rt name <> footprint_file_write FPS rt name.
Proof.
  apply path_join_ne. induction name as [|a name IH]; [done|].
  intros [= H]. by apply IH.
Qed.

Ltac frun :=
  repeat progress
    (cbv beta iota delta
       [bind ret raise lift get_fs put_fs append open_wt open_rt close_wt
        read_lines size_is_zero path_exists confirm input];
     cbn [fs modified_objects replies fst snd negb]).

Section FootprintFacts.

Variable FPS : path.

(** X14.  With a model installed, a footprint file that is not yet in the
    library is written as it stands in the archive, and its staging file
    holds the same lines with the five lines of the model block before the
    last line; both files are logged as TOUCH_FILE and the pair of their
    paths is returned. *)
Theorem X14_model_block_goes_before_the_last_line
    rt name init last model f log rs :
  is_footprint_name name = true ->
  is_dir f (footprint_write_path FPS rt) = true ->
  f !! footprint_file_read FPS rt name = None ->
  f !! footprint_file_write FPS rt name = None ->
  import_footprint FPS rt (inr [(name, init ++ [last])]) (Some model)
    (mkState f log rs) =
  (inr (Some (footprint_file_read FPS rt name, footprint_file_write FPS rt name)),
   mkState
     (<[footprint_file_write FPS rt name :=
          File (init ++ model_block model ++ [last])]>
        (<[footprint_file_read FPS rt name := File (init ++ [last])]> f))
     (dict_set
        (dict_set log (FsPath (footprint_file_read FPS rt name)) TOUCH_FILE)
        (FsPath (footprint_file_write FPS rt name)) TOUCH_FILE)
     rs).
Proof.
  intros Hname Hdir Hr Hw.
  pose proof (footprint_read_ne_write FPS rt name) as Hne.
  unfold import_footprint. cbn [lift]. unfold bind at 1, ret at 1.
  cbn [import_footprint_items]. unfold is_footprint_name in Hname. rewrite Hname.
  unfold footprint_file_read, footprint_file_write in *.
  assert (Hw2 : <[path_join (footprint_write_path FPS rt) name :=
                    File (init ++ [last])]> f
                !! path_join (footprint_write_path FPS rt) (name +:+ "~") = None).
  { by rewrite lookup_insert_ne. }
  assert (Hdir2 : is_dir (<[path_join (footprint_write_path FPS rt) name :=
                              File (init ++ [last])]> f)
                    (footprint_write_path FPS rt) = true).
  { unfold is_dir in *.
    destruct (footprint_write_path FPS rt) as [|a d] eqn:Ed; [done|].
    rewrite node_at_cons in *. rewrite lookup_insert_ne; [done|].
    unfold path_join. intros H. apply (f_equal length) in H.
    rewrite length_app in H. cbn in H. lia. }
  assert (Hne' : path_join (footprint_write_path FPS rt) (name +:+ "~") <>
                 path_join (footprint_write_path FPS rt) name) by done.
  frun. rewrite node_at_join, Hr. frun.
  rewrite check_file_absent by done. frun.
  rewrite node_at_join, lookup_insert_eq. frun.
  rewrite !insert_insert_eq.
  rewrite check_file_absent by done.
  repeat progress
    (frun; rewrite ?node_at_join, ?insert_insert_eq, ?lookup_insert_eq,
             ?(lookup_insert_ne _ _ _ _ Hne')).
  replace (length (init ++ [last])) with (0 + length init + 1)
    by (rewrite length_app; cbn; lia).
  by rewrite footprint_loop_last.
Qed.

End FootprintFacts.
Lemma X14_witness :
  import_footprint Example.FPS SAMACSYS
    (inr [("FP1.kicad_mod",
           ["(module FP1"; "  (fp_text reference REF**)"] ++ [")"])])
    (Some "part.step") (mkState (Example.fs_of lib_template) [] []) =
  (inr (Some (footprint_file_read Example.FPS SAMACSYS "FP1.kicad_mod",
              footprint_file_write Example.FPS SAMACSYS "FP1.kicad_mod")),
   mkState
     (<[footprint_file_write Example.FPS SAMACSYS "FP1.kicad_mod" :=
          File (["(module FP1"; "  (fp_text reference REF**)"] ++
                model_block "part.step" ++ [")"])]>
        (<[footprint_file_read Example.FPS SAMACSYS "FP1.kicad_mod" :=
             File (["(module FP1"; "  (fp_text reference REF**)"] ++ [")"])]>
           (Example.fs_of lib_template)))
     (dict_set
        (dict_set []
           (FsPath (footprint_file_read Example.FPS SAMACSYS "FP1.kicad_mod"))
           TOUCH_FILE)
        (FsPath (footprint_file_write Example.FPS SAMACSYS "FP1.kicad_mod"))
        TOUCH_FILE)
     []).
Proof.
  apply (X14_model_block_goes_before_the_last_line Example.FPS SAMACSYS
           "FP1.kicad_mod" ["(module FP1"; "  (fp_text reference REF**)"] ")"
           "part.step" (Example.fs_of lib_template) [] []);
    vm_compute; reflexivity.
Defined.

Lemma bind_ext {A B} (c : M A) (k k' : A -> M B) s :
  (forall a s', k a s' = k' a s') -> bind c k s = bind c k' s.
Proof. intros H. unfold bind. by destruct (c s) as [[e|a] s']. Qed.

Section FootprintItems.

Variable FPS : path.

(** X15.  [import_footprint] looks only at the entries whose name ends
    with [.kicad_mod] or [.mod]: the other entries of the directory have no
    effect on what it does or returns. *)
Theorem X15_only_footprint_entries_count rt items found : forall cur s,
  import_footprint_items FPS rt items found cur s =
  import_footprint_items FPS rt
    (List.filter (fun item => is_footprint_name item.1) items) found cur s.
Proof.
  induction items as [|[name footprint] items IH]; intros cur s; [done|].
  cbn [List.filter fst]. unfold is_footprint_name at 1.
  cbn [import_footprint_items].
  destruct (PyStr.endswith name ".kicad_mod" || PyStr.endswith name ".mod") eqn:E;
    [|apply IH].
  cbn [import_footprint_items]. rewrite E.
  destruct found as [model|].
  - apply bind_ext; intros f s1. apply bind_ext; intros [|] s2; [|done].
    repeat (apply bind_ext; intros ? ?). apply IH.
  - repeat (apply bind_ext; intros ? ?). apply IH.
Qed.

End FootprintItems.
Section FootprintPairs.

Variable FPS : path.

Lemma footprint_write_run p footprint s r s' :
  (open_wt p ;;; close_wt p footprint) s = (inr r, s') ->
  s' = mkState (<[p := File footprint]> (fs s)) (modified_objects s) (replies s).
Proof.
  unfold bind at 1. destruct (open_wt p s) as [[e|u] s1] eqn:E; [done|].
  apply open_wt_inr in E as [_ ->]. unfold close_wt. mrun.
  rewrite insert_insert_eq. by intros [= _ <-].
Qed.

Lemma write_then {A} p footprint (k : M A) s res s' :
  (open_wt p ;;; close_wt p footprint ;;; k) s = (inr res, s') ->
  k (mkState (<[p := File footprint]> (fs s)) (modified_objects s) (replies s)) =
  (inr res, s').
Proof.
  intros H.
  assert (H' : ((open_wt p ;;; close_wt p footprint) ;;; k) s = (inr res, s')).
  { revert H. unfold bind. by destruct (open_wt p s) as [[?|?] ?]. }
  revert H'. unfold bind at 1.
  destruct ((open_wt p ;;; close_wt p footprint) s) as [[e|u] s1] eqn:E; [done|].
  apply footprint_write_run in E. by subst s1.
Qed.

(** X16.  Without a model, [import_footprint] writes every footprint file
    of the archive into the library as it stands in the archive (of two
    entries of one name the later one stays), changes no other file, logs
    nothing and asks nothing, and returns the pair of paths of the last
    footprint only: of several footprints, only the last is there for
    [import_all] to promote. *)
Theorem X16_only_the_last_footprint_is_returned rt items cur s res s' :
  import_footprint_items FPS rt items None cur s = (inr res, s') ->
  res = match last (List.filter (fun item => is_footprint_name item.1) items) with
        | Some (name, _) =>
            Some (footprint_file_read FPS rt name, footprint_file_write FPS rt name)
        | None => cur
        end /\
  (forall before name footprint after,
     items = before ++ (name, footprint) :: after ->
     is_footprint_name name = true ->
     name ∉ map fst after ->
     fs s' !! footprint_file_read FPS rt name = Some (File footprint)) /\
  (forall p,
     (forall name footprint,
        (name, footprint) ∈ items -> is_footprint_name name = true ->
        p <> footprint_file_read FPS rt name) ->
     fs s' !! p = fs s !! p) /\
  modified_objects s' = modified_objects s /\
  replies s' = replies s.
Proof.
  revert cur s. induction items as [|[name footprint] items IH]; intros cur s.
  - cbn [import_footprint_items]. unfold ret. intros [= <- <-].
    repeat split; try done. intros [|? ?] ? ? ? H; discriminate H.
  - cbn [import_footprint_items List.filter fst]. unfold is_footprint_name at 1.
    destruct (PyStr.endswith name ".kicad_mod" || PyStr.endswith name ".mod") eqn:En.
    + intros H. apply write_then in H.
      apply IH in H as (-> & Hlast & Hframe & Hlog & Hrs).
      cbn [fs modified_objects replies] in *.
      split; [|split; [|split; [|done]]].
      * rewrite last_cons. by destruct (last _) as [[? ?]|].
      * intros [|b before] n fp after E Hn Hafter.
        -- injection E as -> -> ->. rewrite Hframe.
           ++ by rewrite lookup_insert_eq.
           ++ intros n' fp' Hin _ Heq. apply path_join_inj in Heq as [_ <-].
              apply Hafter. apply list_elem_of_fmap. by exists (n, fp').
        -- injection E as _ ->. by apply (Hlast before n fp after).
      * intros p Hp. rewrite Hframe.
        -- rewrite lookup_insert_ne; [done|]. intros Heq. symmetry in Heq.
           revert Heq. apply (Hp name footprint); [apply list_elem_of_here|].
           by unfold is_footprint_name.
        -- intros n fp Hin. apply (Hp n fp). by apply list_elem_of_further.
    + intros H. apply IH in H as (-> & Hlast & Hframe & Hlog & Hrs).
      split; [done|]. split; [|split; [|done]].
      * intros [|b before] n fp after E Hn Hafter.
        -- injection E as -> -> ->. unfold is_footprint_name in Hn. congruence.
        -- injection E as _ ->. by apply (Hlast before n fp after).
      * intros p Hp. apply Hframe.
        intros n fp Hin. apply (Hp n fp). by apply list_elem_of_further.
Qed.

End FootprintPairs.
Lemma X16_witness :
  Some (footprint_file_read Example.FPS SAMACSYS "B.mod",
        footprint_file_write Example.FPS SAMACSYS "B.mod") =
  match last (List.filter (fun item => is_footprint_name item.1)
                [("A.kicad_mod", ["a"]); ("readme.txt", []);
                 ("A.kicad_mod", ["a2"]); ("B.mod", ["b"])]) with
  | Some (name, _) =>
      Some (footprint_file_read Example.FPS SAMACSYS name,
            footprint_file_write Example.FPS SAMACSYS name)
  | None => None
  end /\
  (forall before name footprint after,
     [("A.kicad_mod", ["a"]); ("readme.txt", []);
      ("A.kicad_mod", ["a2"]); ("B.mod", ["b"])] = before ++ (name, footprint) :: after ->
     is_footprint_name name = true ->
     name ∉ map fst after ->
     fs (import_footprint_items Example.FPS SAMACSYS
           [("A.kicad_mod", ["a"]); ("readme.txt", []);
            ("A.kicad_mod", ["a2"]); ("B.mod", ["b"])]
           None None (mkState (Example.fs_of lib_template) [] [])).2
     !! footprint_file_read Example.FPS SAMACSYS name = Some (File footprint)) /\
  (forall p,
     (forall name footprint,
        (name, footprint) ∈ [("A.kicad_mod", ["a"]); ("readme.txt", []);
                             ("A.kicad_mod", ["a2"]); ("B.mod", ["b"])] ->
        is_footprint_name name = true ->
        p <> footprint_file_read Example.FPS SAMACSYS name) ->
     fs (import_footprint_items Example.FPS SAMACSYS
           [("A.kicad_mod", ["a"]); ("readme.txt", []);
            ("A.kicad_mod", ["a2"]); ("B.mod", ["b"])]
           None None (mkState (Example.fs_of lib_template) [] [])).2 !! p =
     Example.fs_of lib_template !! p) /\
  modified_objects
    (import_footprint_items Example.FPS SAMACSYS
       [("A.kicad_mod", ["a"]); ("readme.txt", []);
        ("A.kicad_mod", ["a2"]); ("B.mod", ["b"])]
       None None (mkState (Example.fs_of lib_template) [] [])).2 = [] /\
  replies
    (import_footprint_items Example.FPS SAMACSYS
       [("A.kicad_mod", ["a"]); ("readme.txt", []);
        ("A.kicad_mod", ["a2"]); ("B.mod", ["b"])]
       None None (mkState (Example.fs_of lib_template) [] [])).2 = [].
Proof.
  apply (X16_only_the_last_footprint_is_returned Example.FPS SAMACSYS
           [("A.kicad_mod", ["a"]); ("readme.txt", []);
            ("A.kicad_mod", ["a2"]); ("B.mod", ["b"])]
           None (mkState (Example.fs_of lib_template) [] [])).
  vm_compute. reflexivity.
Defined.

(** ** The scans *)

Lemma prefix_drop p : forall s,
  String.prefix p s = true -> p +:+ PyStr.drop (String.length p) s = s.
Proof.
  induction p as [|a p IH]; intros s H.
  - by destruct s.
  - apply prefix_cons_inv in H as (s' & -> & H).
    change (String a (p +:+ PyStr.drop (String.length p) s') = String a s').
    by rewrite IH.
Qed.

Lemma replace1_same old : forall s, PyStr.replace1 old old s = s.
Proof.
  induction s as [|c s IH]; cbn [PyStr.replace1].
  - destruct (String.prefix old "") eqn:E; [|done]. by apply prefix_drop.
  - destruct (String.prefix old (String c s)) eqn:E.
    + by apply prefix_drop.
    + by rewrite IH.
Qed.

Lemma lib_step_keeps device rt line idx c line' c1 :
  lib_step device rt line idx c = inr (line', c1) ->
  PyStr.startswith line "DEF " = false ->
  PyStr.startswith line "F2" = false ->
  line' = line.
Proof.
  unfold lib_step. intros H Hd Hf. rewrite Hd, Hf in H.
  destruct (index_start c), (index_end c); cursor_cases;
    try done; apply replace1_same.
Qed.

(** X17.  The scan of [import_lib] returns as many lines as the archive's
    file has, and changes none of them except lines that start with [DEF ]
    or with [F2]: the branch for [F1] replaces the device name by itself. *)
Theorem X17_scan_rewrites_only_name_and_footprint device rt lib ls c :
  scan_lib device rt lib 0 no_cursors = inr (ls, c) ->
  length ls = length lib /\
  forall i line,
    lib !! i = Some line ->
    PyStr.startswith line "DEF " = false ->
    PyStr.startswith line "F2" = false ->
    ls !! i = Some line.
Proof.
  intros H. split.
  { by apply (scan_lib_ok _ _ _ _ _ _ _ H), cursors_ok_start. }
  revert H. generalize 0 no_cursors. revert ls c.
  induction lib as [|l lib IH]; intros ls c idx c0 H i line Hi Hd Hf; [done|].
  rewrite scan_lib_cons in H.
  destruct (lib_step device rt l idx c0) as [e|[l' c1]] eqn:E; [done|].
  destruct (scan_lib device rt lib (S idx) c1) as [e|[ls' c2]] eqn:E'; [done|].
  injection H as <- <-. destruct i as [|i].
  - injection Hi as ->. cbn. f_equal. by eapply lib_step_keeps.
  - cbn. by eapply IH.
Qed.

Lemma X17_witness :
  length Example.lm358_lines = length Example.lm358_lib /\
  forall i line,
    Example.lm358_lib !! i = Some line ->
    PyStr.startswith line "DEF " = false ->
    PyStr.startswith line "F2" = false ->
    Example.lm358_lines !! i = Some line.
Proof.
  apply (X17_scan_rewrites_only_name_and_footprint "LM358" SAMACSYS
           Example.lm358_lib Example.lm358_lines Example.lm358_cursors).
  vm_compute. reflexivity.
Defined.

(** ** Consent *)

Lemma prefix_of_yes s :
  String.prefix s "yes" = true <-> s ∈ [""; "y"; "ye"; "yes"].
Proof.
  split.
  - destruct s as [|a [|b [|c [|d s]]]]; cbn;
      repeat match goal with
        | |- context [ascii_dec ?x ?y] => destruct (ascii_dec x y) as [->|]
        end; try discriminate; intros _; repeat constructor.
  - intros H. repeat (apply elem_of_cons in H as [->|H]; [done|]).
    by apply elem_of_nil in H.
Qed.

(** X18.  The replies taken as a consent: [import_dcm], [import_model] and
    [import_footprint] take the empty reply and the five spellings [y],
    [yes], [Yes], [Y], [YES]; [import_lib] takes the empty reply and every
    reply that, in lower case, is [y], [ye] or [yes]. *)
Theorem X18_replies_taken_as_consent reply :
  (dcm_yes reply = true <-> reply ∈ [""; "y"; "yes"; "Yes"; "Y"; "YES"]) /\
  (lib_yes reply = true <-> PyStr.lower reply ∈ [""; "y"; "ye"; "yes"]).
Proof.
  split.
  - unfold dcm_yes, in_yes, or_default.
    destruct (decide (reply = "")) as [->|Hne].
    + split; [intros _; repeat constructor|done].
    + rewrite bool_decide_eq_true. rewrite (elem_of_cons _ reply ""). tauto.
  - unfold lib_yes, or_default, PyStr.startswith.
    destruct (decide (reply = "")) as [->|Hne].
    + split; [intros _; repeat constructor|done].
    + apply prefix_of_yes.
Qed.
(** ** Records that are not there *)

Section NotFound.

Variable LIB : path.

(** X19.  An archive file in which no line opens a record ([DEF ] in the
    symbol file, [$CMP ] in the documentation file) makes the stage raise
    [Warning('... not found ...')] before anything is written: files,
    ledger and replies are as they were. *)
Theorem X19_file_without_record_is_not_found device rt lib dcm st :
  Forall (fun l => PyStr.startswith l "DEF " = false) lib ->
  Forall (fun l => PyStr.startswith l "$CMP " = false) dcm ->
  import_lib LIB device rt lib st = (inl (Warning DeviceNotFound), st) /\
  import_dcm LIB device rt (Some dcm) st = (inl (Warning DeviceNotFound), st).
Proof.
  intros Hlib Hdcm. split.
  - destruct (scan_lib_before device rt lib 0 no_cursors Hlib eq_refl)
      as (c1 & E & Hs & He).
    unfold import_lib. unfold bind at 1. rewrite E. cbn [lift ret fst snd].
    unfold bind at 1. by rewrite He.
  - destruct (scan_dcm_before device true dcm 0 no_cursors Hdcm eq_refl)
      as (c1 & Hs & He & Hrun).
    specialize (Hrun [] st). rewrite app_nil_r in Hrun.
    unfold import_dcm.
    rewrite (bool_decide_eq_true_2 (is_Some (Some dcm))) by eauto.
    unfold bind at 1. rewrite Hrun. cbn [scan_dcm]. mrun. by rewrite He.
Qed.

(** X20.  A symbol file whose record of the device is opened and never
    closed: no line after the [DEF] line starts with [ENDDEF].  The stage
    raises [Warning('... not found ...')] and changes nothing. *)
Theorem X20_unclosed_record_is_not_found
    device rt pre d body t0 name ts st :
  Forall (fun l => PyStr.startswith l "DEF " = false) pre ->
  PyStr.startswith d "DEF " = true ->
  PyStr.split d = t0 :: name :: ts ->
  PyStr.startswith name device = true ->
  Forall (fun l => lib_field_ok l = true) body ->
  import_lib LIB device rt (pre ++ d :: body) st =
  (inl (Warning DeviceNotFound), st).
Proof.
  intros Hpre Hd Hsplit Hname Hbody.
  destruct (scan_lib_before device rt pre 0 no_cursors Hpre eq_refl)
    as (c1 & E & Hs & He).
  assert (Hscan : exists ls c,
    scan_lib device rt (pre ++ d :: body) 0 no_cursors = inr (ls, c) /\
    index_end c = None).
  { rewrite scan_lib_app, E, scan_lib_cons. unfold lib_step at 1.
    rewrite Hs, (def_not_comment _ Hd), Hd, Hsplit, Hname. cbn [negb].
    destruct (scan_lib_inside device rt body (S (0 + length pre))
                (set_start c1 (0 + length pre)) (0 + length pre) Hbody)
      as [ls E']; [done|done|].
    rewrite E'. eauto. }
  destruct Hscan as (ls & c & E2 & Hend).
  unfold import_lib. unfold bind at 1. rewrite E2. cbn [lift ret fst snd].
  unfold bind at 1. by rewrite Hend.
Qed.

End NotFound.

Lemma X19_witness :
  import_lib Example.LIB "LM358" SAMACSYS ["EESchema-LIBRARY Version 2.3"; "#End Library"]
    Example.run_start = (inl (Warning DeviceNotFound), Example.run_start) /\
  import_dcm Example.LIB "LM358" SAMACSYS
    (Some ["EESchema-DOCLIB  Version 2.0"; "#End Doc Library"])
    Example.run_start = (inl (Warning DeviceNotFound), Example.run_start).
Proof.
  apply (X19_file_without_record_is_not_found Example.LIB "LM358" SAMACSYS
           ["EESchema-LIBRARY Version 2.3"; "#End Library"]
           ["EESchema-DOCLIB  Version 2.0"; "#End Doc Library"]
           Example.run_start); repeat constructor.
Defined.

Lemma X20_witness :
  import_lib Example.LIB "LM358" SAMACSYS
    (["EESchema-LIBRARY Version 2.3"] ++
     "DEF LM358 U 0 40 Y Y 1 F N" :: ["DRAW"; "ENDDRAW"; "#End Library"])
    Example.run_start = (inl (Warning DeviceNotFound), Example.run_start).
Proof.
  apply (X20_unclosed_record_is_not_found Example.LIB "LM358" SAMACSYS
           ["EESchema-LIBRARY Version 2.3"] "DEF LM358 U 0 40 Y Y 1 F N"
           ["DRAW"; "ENDDRAW"; "#End Library"]
           "DEF" "LM358" ["U"; "0"; "40"; "Y"; "Y"; "1"; "F"; "N"]
           Example.run_start); try (vm_compute; reflexivity); repeat constructor.
Defined.
(** ** Empty libraries *)

Lemma stream_run_empty read write template loop f log rs c0 :
  read <> write ->
  node_at f read = Some (File []) ->
  node_at f write = Some (File c0) ->
  stream read write template loop (mkState f log rs) =
  (match ended (loop template rs) with
   | Raised e => inl e
   | _ => inr (read, write)
   end,
   mkState (<[write := File (written (loop template rs))]>
              (<[read := File template]> f)) log
           (replies_left (loop template rs))).
Proof.
  intros Hne Hr Hw.
  assert (Hr0 : read <> []) by (by intros ->).
  assert (Hr' : node_at (<[write := File []]> f) read = Some (File [])).
  { destruct read; [done|]. unfold node_at in *. by rewrite lookup_insert_ne. }
  assert (Hr2 : node_at (<[read := File template]>
                           (<[read := File []]> (<[write := File []]> f))) read
                = Some (File template)).
  { destruct read; [done|]. unfold node_at. by rewrite lookup_insert_eq. }
  mrun. rewrite Hr. mrun. rewrite Hw. mrun. rewrite Hr'. mrun.
  rewrite bool_decide_eq_true_2 by done. mrun.
  rewrite Hr'. mrun. rewrite Hr2. mrun.
  rewrite insert_insert_eq.
  rewrite (insert_insert_ne (<[write := File []]> f) write read) by done.
  rewrite (insert_insert_ne f write read) by done.
  rewrite !insert_insert_eq.
  rewrite (insert_insert_ne f read write) by done.
  by destruct (ended (loop template rs)).
Qed.

Lemma is_dir_insert_file f (dir : path) name c :
  is_dir (<[path_join dir name := File c]> f) dir = is_dir f dir.
Proof.
  unfold is_dir. destruct dir as [|a dir]; [done|].
  rewrite !node_at_cons. rewrite lookup_insert_ne; [done|].
  unfold path_join. intros H. apply (f_equal length) in H.
  rewrite length_app in H. cbn in H. lia.
Qed.

Lemma check_file_empty dir name other f log rs :
  f !! path_join dir name = None \/ f !! path_join dir name = Some (File []) ->
  is_dir f dir = true ->
  f !! path_join dir other <> Some Dir ->
  name <> other ->
  exists f0 log0,
    check_file (path_join dir name) (mkState f log rs) =
      (inr tt, mkState f0 log0 rs) /\
    f0 !! path_join dir name = Some (File []) /\
    is_dir f0 dir = true /\
    f0 !! path_join dir other <> Some Dir /\
    forall T, <[path_join dir name := File T]> f0 = <[path_join dir name := File T]> f.
Proof.
  intros [Hnone|Hempty] Hdir Hother Hne.
  - exists (<[path_join dir name := File []]> f),
           (dict_set log (FsPath (path_join dir name)) TOUCH_FILE).
    split; [by apply check_file_absent|].
    split; [by rewrite lookup_insert_eq|].
    split; [by rewrite is_dir_insert_file|].
    split.
    + rewrite lookup_insert_ne; [done|]. by apply path_join_ne.
    + intros T. by rewrite insert_insert_eq.
  - exists f, log. split; [|done].
    apply check_file_present. unfold path_exists. cbn [fs].
    by rewrite node_at_join, Hempty.
Qed.

Section EmptyLibrary.

Variable LIB : path.

Lemma import_lib_run_empty device rt lib ls c f log rs :
  scan_lib device rt lib 0 no_cursors = inr (ls, c) ->
  index_end c <> None ->
  f !! lib_file_read LIB rt = None \/ f !! lib_file_read LIB rt = Some (File []) ->
  is_dir f LIB = true ->
  f !! lib_file_write LIB rt <> Some Dir ->
  exists log',
    import_lib LIB device rt lib (mkState f log rs) =
    (match ended (merge_lib device (record_with_header ls c) (record_only ls c)
                    lib_template false false rs) with
     | Raised e => inl e
     | _ => inr (lib_file_read LIB rt, lib_file_write LIB rt)
     end,
     mkState
       (<[lib_file_write LIB rt :=
            File (written (merge_lib device (record_with_header ls c)
                             (record_only ls c) lib_template false false rs))]>
          (<[lib_file_read LIB rt := File lib_template]> f))
       log'
       (replies_left (merge_lib device (record_with_header ls c)
                        (record_only ls c) lib_template false false rs))).
Proof.
  intros Hscan Hend Hread Hdir Hwrite.
  pose proof (lib_read_ne_write LIB rt) as Hne.
  unfold lib_file_read, lib_file_write in *.
  destruct (check_file_empty LIB _ (remote_name rt +:+ ".lib~") f log rs Hread Hdir Hwrite)
    as (f0 & log0 & Hcheck0 & Hread0 & Hdir0 & Hwrite0 & Hins0).
  { intros E. apply Hne. by rewrite E at 1. }
  destruct (check_file_staging LIB (remote_name rt +:+ ".lib~") f0 log0 rs Hwrite0 Hdir0)
    as (f' & log' & Hcheck & [c0 Hc0] & Hins).
  exists log'. unfold import_lib. unfold lib_file_read, lib_file_write in *.
  unfold bind at 1. rewrite Hscan. cbn [lift ret fst snd].
  unfold bind at 1. rewrite bool_decide_eq_false_2 by done. cbn [ret].
  unfold bind at 1. rewrite Hcheck0.
  unfold bind at 1. rewrite Hcheck.
  rewrite (stream_run_empty _ _ _ _ f' log' rs c0).
  - rewrite (insert_insert_ne f') by done. rewrite Hins.
    rewrite (insert_insert_ne f0) by done. rewrite Hins0. done.
  - done.
  - rewrite node_at_join. by rewrite (staging_other f0 f' _ _ Hins).
  - by rewrite node_at_join.
Qed.

Lemma import_dcm_run_empty device rt dcm ls c f log rs s1 :
  scan_dcm device (bool_decide (is_Some dcm))
    (match dcm with Some l => l | None => default_dcm device end)
    0 no_cursors (mkState f log rs) = (inr (ls, c), s1) ->
  index_end c <> None ->
  f !! dcm_file_read LIB rt = None \/ f !! dcm_file_read LIB rt = Some (File []) ->
  is_dir f LIB = true ->
  f !! dcm_file_write LIB rt <> Some Dir ->
  exists log',
    import_dcm LIB device rt dcm (mkState f log rs) =
    (match ended (merge_dcm device (record_with_header ls c) (record_only ls c)
                    dcm_template false false (replies s1)) with
     | Raised e => inl e
     | _ => inr (dcm_file_read LIB rt, dcm_file_write LIB rt)
     end,
     mkState
       (<[dcm_file_write LIB rt :=
            File (written (merge_dcm device (record_with_header ls c)
                             (record_only ls c) dcm_template false false
                             (replies s1)))]>
          (<[dcm_file_read LIB rt := File dcm_template]> f))
       log'
       (replies_left (merge_dcm device (record_with_header ls c)
                        (record_only ls c) dcm_template false false
                        (replies s1)))).
Proof.
  intros Hscan Hend Hread Hdir Hwrite.
  pose proof (scan_dcm_frame device (bool_decide (is_Some dcm))
    (match dcm with Some l => l | None => default_dcm device end)
    0 no_cursors (mkState f log rs)) as Hsame.
  rewrite Hscan in Hsame. destruct Hsame as [Hfs Hlog].
  destruct s1 as [f1 log1 rs1]. simpl in Hfs, Hlog. subst f1 log1. cbn [replies].
  pose proof (dcm_read_ne_write LIB rt) as Hne.
  unfold dcm_file_read, dcm_file_write in *.
  destruct (check_file_empty LIB _ (remote_name rt +:+ ".dcm~") f log rs1 Hread Hdir Hwrite)
    as (f0 & log0 & Hcheck0 & Hread0 & Hdir0 & Hwrite0 & Hins0).
  { intros E. apply Hne. by rewrite E at 1. }
  destruct (check_file_staging LIB (remote_name rt +:+ ".dcm~") f0 log0 rs1 Hwrite0 Hdir0)
    as (f' & log' & Hcheck & [c0 Hc0] & Hins).
  exists log'. unfold import_dcm. unfold dcm_file_read, dcm_file_write in *.
  unfold bind at 1. rewrite Hscan. cbn [fst snd].
  unfold bind at 1. rewrite bool_decide_eq_false_2 by done. cbn [ret].
  unfold bind at 1. rewrite Hcheck0.
  unfold bind at 1. rewrite Hcheck.
  rewrite (stream_run_empty _ _ _ _ f' log' rs1 c0).
  - rewrite (insert_insert_ne f') by done. rewrite Hins.
    rewrite (insert_insert_ne f0) by done. rewrite Hins0. done.
  - done.
  - rewrite node_at_join. by rewrite (staging_other f0 f' _ _ Hins).
  - by rewrite node_at_join.
Qed.

(** X21.  A symbol library that is missing or empty first receives the
    three lines of the template, in the library file itself and not in its
    staging file; the staging file then holds the template with the record
    of the archive, header block included, before the trailer. *)
Theorem X21_empty_symbol_library_receives_the_template
    device rt lib ls c f log rs :
  scan_lib device rt lib 0 no_cursors = inr (ls, c) ->
  index_end c <> None ->
  f !! lib_file_read LIB rt = None \/ f !! lib_file_read LIB rt = Some (File []) ->
  is_dir f LIB = true ->
  f !! lib_file_write LIB rt <> Some Dir ->
  exists log',
    import_lib LIB device rt lib (mkState f log rs) =
    (inr (lib_file_read LIB rt, lib_file_write LIB rt),
     mkState
       (<[lib_file_write LIB rt :=
            File (["EESchema-LIBRARY Version 2.4"; "#encoding utf-8"] ++
                  record_with_header ls c ++ ["# End Library"])]>
          (<[lib_file_read LIB rt := File lib_template]> f))
       log' rs).
Proof.
  intros Hscan Hend Hread Hdir Hwrite.
  destruct (import_lib_run_empty device rt lib ls c f log rs) as [log' E'];
    try done.
  exists log'. rewrite E', merge_lib_gen.
  change lib_template
    with (["EESchema-LIBRARY Version 2.4"; "#encoding utf-8"] ++
          "# End Library" :: []).
  by rewrite merge_append by (by repeat constructor).
Qed.

(** X22.  The same for a documentation library that is missing or empty:
    the library file receives the two lines of its template, and the
    staging file holds the first of them, the record of the archive with its
    header block, and the trailer. *)
Theorem X22_empty_documentation_library_receives_the_template
    device rt dcm ls c f log rs s1 :
  scan_dcm device (bool_decide (is_Some dcm))
    (match dcm with Some l => l | None => default_dcm device end)
    0 no_cursors (mkState f log rs) = (inr (ls, c), s1) ->
  index_end c <> None ->
  f !! dcm_file_read LIB rt = None \/ f !! dcm_file_read LIB rt = Some (File []) ->
  is_dir f LIB = true ->
  f !! dcm_file_write LIB rt <> Some Dir ->
  exists log',
    import_dcm LIB device rt dcm (mkState f log rs) =
    (inr (dcm_file_read LIB rt, dcm_file_write LIB rt),
     mkState
       (<[dcm_file_write LIB rt :=
            File (["EESchema-DOCLIB  Version 2.0"] ++
                  record_with_header ls c ++ ["#End Doc Library"])]>
          (<[dcm_file_read LIB rt := File dcm_template]> f))
       log' (replies s1)).
Proof.
  intros Hscan Hend Hread Hdir Hwrite.
  destruct (import_dcm_run_empty device rt dcm ls c f log rs s1) as [log' E'];
    try done.
  exists log'. rewrite E', merge_dcm_gen.
  change dcm_template
    with (["EESchema-DOCLIB  Version 2.0"] ++ "#End Doc Library" :: []).
  by rewrite merge_append by (by repeat constructor).
Qed.

End EmptyLibrary.
Lemma X21_witness :
  exists log',
    import_lib Example.LIB "LM358" SAMACSYS Example.lm358_lib
      (mkState (list_to_map Example.dirs) [] []) =
    (inr (lib_file_read Example.LIB SAMACSYS, lib_file_write Example.LIB SAMACSYS),
     mkState
       (<[lib_file_write Example.LIB SAMACSYS :=
            File (["EESchema-LIBRARY Version 2.4"; "#encoding utf-8"] ++
                  record_with_header Example.lm358_lines Example.lm358_cursors ++
                  ["# End Library"])]>
          (<[lib_file_read Example.LIB SAMACSYS := File lib_template]>
             (list_to_map Example.dirs)))
       log' []).
Proof.
  apply (X21_empty_symbol_library_receives_the_template Example.LIB "LM358"
           SAMACSYS Example.lm358_lib Example.lm358_lines Example.lm358_cursors
           (list_to_map Example.dirs) [] []).
  - vm_compute. reflexivity.
  - vm_compute. discriminate.
  - left. vm_compute. reflexivity.
  - vm_compute. reflexivity.
  - vm_compute. discriminate.
Defined.

Lemma X22_witness :
  exists log',
    import_dcm Example.LIB "LM358" SAMACSYS (Some Example.lm358_dcm)
      (mkState (list_to_map Example.dirs) [] [""]) =
    (inr (dcm_file_read Example.LIB SAMACSYS, dcm_file_write Example.LIB SAMACSYS),
     mkState
       (<[dcm_file_write Example.LIB SAMACSYS :=
            File (["EESchema-DOCLIB  Version 2.0"] ++
                  record_with_header Example.lm358_dcm
                    (mkCursors (Some 2) (Some 6) (Some 1)) ++
                  ["#End Doc Library"])]>
          (<[dcm_file_read Example.LIB SAMACSYS := File dcm_template]>
             (list_to_map Example.dirs)))
       log' (replies (mkState (list_to_map Example.dirs) [] []))).
Proof.
  apply (X22_empty_documentation_library_receives_the_template Example.LIB
           "LM358" SAMACSYS (Some Example.lm358_dcm) Example.lm358_dcm
           (mkCursors (Some 2) (Some 6) (Some 1))
           (list_to_map Example.dirs) [] [""]
           (mkState (list_to_map Example.dirs) [] [])).
  - vm_compute. reflexivity.
  - vm_compute. discriminate.
  - left. vm_compute. reflexivity.
  - vm_compute. reflexivity.
  - vm_compute. discriminate.
Defined.

(** ** An archive without a documentation file *)

Lemma prefix_empty s : String.prefix "" s = true.
Proof. by destruct s. Qed.

Lemma prefix_refl s : String.prefix s s = true.
Proof.
  induction s as [|a s IH]; [done|]. cbn. by destruct (ascii_dec a a).
Qed.

Lemma scan_default_dcm device f log r rs :
  PyStr.strip device = device ->
  scan_dcm device false (default_dcm device) 0 no_cursors (mkState f log (r :: rs)) =
  (inr (["#"; "# " +:+ device; "#"; "$CMP " +:+ device;
         (if decide (r = "") then "D" else "D " +:+ r); "F"; "$ENDCMP"],
        mkCursors (Some 3) (Some 7) (Some 0)),
   mkState f log rs).
Proof.
  intros Hdev. unfold default_dcm.
  rewrite scan_dcm_cons. unfold bind at 1.
  change (dcm_step device false "#" 0 no_cursors (mkState f log (r :: rs)))
    with (@inr exn _ ("#", mkCursors None None (Some 0)), mkState f log (r :: rs)).
  cbn [fst snd].
  unfold bind at 1. rewrite scan_dcm_cons. unfold bind at 1.
  assert (E1 : dcm_step device false ("# " +:+ device) 1
                 (mkCursors None None (Some 0)) (mkState f log (r :: rs)) =
               (inr ("# " +:+ device, mkCursors None None (Some 0)),
                mkState f log (r :: rs))).
  { unfold dcm_step. cbn [index_start index_end].
    change (PyStr.startswith ("# " +:+ device) "#") with true. cbn iota.
    unfold comment_line. cbn [index_header_start]. by rewrite andb_false_r. }
  rewrite E1. cbn [fst snd].
  unfold bind at 1. rewrite scan_dcm_cons. unfold bind at 1.
  change (dcm_step device false "#" 2 (mkCursors None None (Some 0))
            (mkState f log (r :: rs)))
    with (@inr exn _ ("#", mkCursors None None (Some 0)), mkState f log (r :: rs)).
  cbn [fst snd].
  unfold bind at 1. rewrite scan_dcm_cons. unfold bind at 1.
  assert (E3 : dcm_step device false ("$CMP " +:+ device) 3
                 (mkCursors None None (Some 0)) (mkState f log (r :: rs)) =
               (inr ("$CMP " +:+ device, mkCursors (Some 3) None (Some 0)),
                mkState f log (r :: rs))).
  { unfold dcm_step. cbn [index_start index_end].
    change (PyStr.startswith ("$CMP " +:+ device) "#") with false. cbn iota.
    change (PyStr.startswith ("$CMP " +:+ device) "$CMP ")
      with (String.prefix "" device).
    rewrite prefix_empty.
    change (PyStr.drop 5 ("$CMP " +:+ device)) with device.
    rewrite Hdev. unfold PyStr.startswith. rewrite prefix_refl. cbn [negb].
    by rewrite replace1_same. }
  rewrite E3. cbn [fst snd].
  unfold bind at 1. rewrite scan_dcm_cons. unfold bind at 1.
  assert (E4 : dcm_step device false "D" 4
                 (mkCursors (Some 3) None (Some 0)) (mkState f log (r :: rs)) =
               (inr (if decide (r = "") then "D" else "D " +:+ r,
                     mkCursors (Some 3) None (Some 0)),
                mkState f log rs)).
  { unfold dcm_step. cbn [index_start index_end].
    change (PyStr.startswith "D" "$CMP ") with false.
    change (PyStr.startswith "D" "$ENDCMP") with false.
    change (PyStr.startswith "D" "D") with true. cbn iota.
    change (PyStr.strip (PyStr.drop 2 "D")) with "". mrun.
    unfold or_default. destruct (decide (r = "")) as [->|Hr]; [done|].
    by rewrite bool_decide_eq_false_2. }
  rewrite E4. cbn [fst snd].
  unfold bind at 1. rewrite scan_dcm_cons. unfold bind at 1.
  change (dcm_step device false "F" 5 (mkCursors (Some 3) None (Some 0))
            (mkState f log rs))
    with (@inr exn _ ("F", mkCursors (Some 3) None (Some 0)), mkState f log rs).
  cbn [fst snd].
  unfold bind at 1. rewrite scan_dcm_cons. unfold bind at 1.
  change (dcm_step device false "$ENDCMP" 6 (mkCursors (Some 3) None (Some 0))
            (mkState f log rs))
    with (@inr exn _ ("$ENDCMP", mkCursors (Some 3) (Some 7) (Some 0)),
          mkState f log rs).
  cbn [fst snd]. unfold bind. cbn [scan_dcm]. unfold ret. cbn [fst snd]. done.
Qed.

Section DefaultRecord.

Variable LIB : path.

(** X23.  When the archive has no documentation file, [import_dcm] makes up
    a record of seven lines for the device (a name without blanks at its
    ends): a header block, [$CMP] with the device name, a [D] line with the
    description the operator types, an [F] line without a data sheet, and
    [$ENDCMP].  It is merged like a record read from an archive: into a
    library that ends with its trailer and has no record of the device, it
    goes before the trailer. *)
Theorem X23_missing_documentation_gets_a_default_record
    device rt f log r rs pre t :
  PyStr.strip device = device ->
  f !! dcm_file_read LIB rt = Some (File (pre ++ [t])) ->
  is_dir f LIB = true ->
  f !! dcm_file_write LIB rt <> Some Dir ->
  Forall (fun l => passes (classify_dcm device l) = true) pre ->
  PyStr.match_end t = true ->
  exists log',
    import_dcm LIB device rt None (mkState f log (r :: rs)) =
    (inr (dcm_file_read LIB rt, dcm_file_write LIB rt),
     mkState
       (<[dcm_file_write LIB rt :=
            File (pre ++
                  ["#"; "# " +:+ device; "#"; "$CMP " +:+ device;
                   (if decide (r = "") then "D" else "D " +:+ r); "F"; "$ENDCMP"] ++
                  [t])]> f)
       log' rs).
Proof.
  intros Hdev Hread Hdir Hwrite Hpre Ht.
  destruct (import_dcm_appends LIB device rt None _ _ f log (r :: rs) _ pre t
              (scan_default_dcm device f log r rs Hdev)) as [log' E]; try done.
  by exists log'.
Qed.

End DefaultRecord.

Lemma X23_witness :
  exists log',
    import_dcm Example.LIB "LM358" SAMACSYS None
      (mkState (Example.fs_of lib_template) [] ["Dual op-amp"]) =
    (inr (dcm_file_read Example.LIB SAMACSYS, dcm_file_write Example.LIB SAMACSYS),
     mkState
       (<[dcm_file_write Example.LIB SAMACSYS :=
            File (["EESchema-DOCLIB  Version 2.0"; "#"; "$CMP NE555"; "D Timer";
                   "$ENDCMP"] ++
                  ["#"; "# " +:+ "LM358"; "#"; "$CMP " +:+ "LM358";
                   (if decide ("Dual op-amp" = "") then "D"
                    else "D " +:+ "Dual op-amp"); "F"; "$ENDCMP"] ++
                  ["#End Doc Library"])]> (Example.fs_of lib_template))
       log' []).
Proof.
  apply (X23_missing_documentation_gets_a_default_record Example.LIB "LM358"
           SAMACSYS (Example.fs_of lib_template) [] "Dual op-amp" []
           ["EESchema-DOCLIB  Version 2.0"; "#"; "$CMP NE555"; "D Timer"; "$ENDCMP"]
           "#End Doc Library").
  - vm_compute. reflexivity.
  - vm_compute. reflexivity.
  - vm_compute. reflexivity.
  - vm_compute. discriminate.
  - repeat constructor.
  - vm_compute. reflexivity.
Defined.
(** ** Libraries without a trailer, and lines after it *)

Section Trailer.

Variable LIB : path.

(** X24.  A symbol library that has no trailer line, and no record of the
    device, is copied line by line and the record of the archive is never
    written: the stage returns as after an import, with a staging file equal
    to the library. *)
Theorem X24_library_without_trailer_gets_no_record
    device rt lib ls c f log rs T :
  scan_lib device rt lib 0 no_cursors = inr (ls, c) ->
  index_end c <> None ->
  f !! lib_file_read LIB rt = Some (File T) -> T <> [] ->
  is_dir f LIB = true ->
  f !! lib_file_write LIB rt <> Some Dir ->
  Forall (fun l => passes (classify_lib device l) = true) T ->
  exists log',
    import_lib LIB device rt lib (mkState f log rs) =
    (inr (lib_file_read LIB rt, lib_file_write LIB rt),
     mkState (<[lib_file_write LIB rt := File T]> f) log' rs).
Proof.
  intros Hscan Hend Hread HT Hdir Hw Hpass.
  destruct (import_lib_run LIB device rt lib ls c f log rs T) as [log' E];
    try done.
  exists log'. rewrite E, merge_lib_gen.
  rewrite <- (app_nil_r T) at 1 2 3.
  rewrite merge_copy by done. cbn [merge_gen emit ended written replies_left].
  by rewrite !app_nil_r.
Qed.

(** X25.  The pass over the library ends at the first line that matches the
    trailer pattern: the lines of the library after that line, whatever they
    are, are not in the staging file. *)
Theorem X25_lines_after_the_trailer_are_dropped
    device rt lib ls c f log rs pre t rest :
  scan_lib device rt lib 0 no_cursors = inr (ls, c) ->
  index_end c <> None ->
  f !! lib_file_read LIB rt = Some (File (pre ++ t :: rest)) ->
  is_dir f LIB = true ->
  f !! lib_file_write LIB rt <> Some Dir ->
  Forall (fun l => passes (classify_lib device l) = true) pre ->
  PyStr.match_end t = true ->
  exists log',
    import_lib LIB device rt lib (mkState f log rs) =
    (inr (lib_file_read LIB rt, lib_file_write LIB rt),
     mkState (<[lib_file_write LIB rt :=
                  File (pre ++ record_with_header ls c ++ [t])]> f) log' rs).
Proof.
  intros Hscan Hend Hread Hdir Hw Hpre Ht.
  destruct (import_lib_run LIB device rt lib ls c f log rs (pre ++ t :: rest))
    as [log' E]; try done.
  { by destruct pre. }
  exists log'. rewrite E, merge_lib_gen.
  by rewrite merge_append by auto using classify_lib_trailer.
Qed.

End Trailer.

Lemma X24_witness :
  exists log',
    import_lib Example.LIB "LM358" SAMACSYS Example.lm358_lib
      (mkState (Example.fs_of ["EESchema-LIBRARY Version 2.4"; "#encoding utf-8"])
         [] []) =
    (inr (lib_file_read Example.LIB SAMACSYS, lib_file_write Example.LIB SAMACSYS),
     mkState
       (<[lib_file_write Example.LIB SAMACSYS :=
            File ["EESchema-LIBRARY Version 2.4"; "#encoding utf-8"]]>
          (Example.fs_of ["EESchema-LIBRARY Version 2.4"; "#encoding utf-8"]))
       log' []).
Proof.
  apply (X24_library_without_trailer_gets_no_record Example.LIB "LM358" SAMACSYS
           Example.lm358_lib Example.lm358_lines Example.lm358_cursors
           (Example.fs_of ["EESchema-LIBRARY Version 2.4"; "#encoding utf-8"]) [] []
           ["EESchema-LIBRARY Version 2.4"; "#encoding utf-8"]).
  - vm_compute. reflexivity.
  - vm_compute. discriminate.
  - vm_compute. reflexivity.
  - discriminate.
  - vm_compute. reflexivity.
  - vm_compute. discriminate.
  - repeat constructor.
Defined.

Lemma X25_witness :
  exists log',
    import_lib Example.LIB "LM358" SAMACSYS Example.lm358_lib
      (mkState
         (Example.fs_of
            (["EESchema-LIBRARY Version 2.4"] ++
             "# end of the passive parts" ::
             ["DEF NE555 U 0 40 Y Y 1 F N"; "ENDDEF"; "# End Library"]))
         [] []) =
    (inr (lib_file_read Example.LIB SAMACSYS, lib_file_write Example.LIB SAMACSYS),
     mkState
       (<[lib_file_write Example.LIB SAMACSYS :=
            File (["EESchema-LIBRARY Version 2.4"] ++
                  record_with_header Example.lm358_lines Example.lm358_cursors ++
                  ["# end of the passive parts"])]>
          (Example.fs_of
             (["EESchema-LIBRARY Version 2.4"] ++
              "# end of the passive parts" ::
              ["DEF NE555 U 0 40 Y Y 1 F N"; "ENDDEF"; "# End Library"])))
       log' []).
Proof.
  apply (X25_lines_after_the_trailer_are_dropped Example.LIB "LM358" SAMACSYS
           Example.lm358_lib Example.lm358_lines Example.lm358_cursors
           (Example.fs_of
              (["EESchema-LIBRARY Version 2.4"] ++
               "# end of the passive parts" ::
               ["DEF NE555 U 0 40 Y Y 1 F N"; "ENDDEF"; "# End Library"]))
           [] [] ["EESchema-LIBRARY Version 2.4"] "# end of the passive parts"
           ["DEF NE555 U 0 40 Y Y 1 F N"; "ENDDEF"; "# End Library"]).
  - vm_compute. reflexivity.
  - vm_compute. discriminate.
  - vm_compute. reflexivity.
  - vm_compute. reflexivity.
  - vm_compute. discriminate.
  - repeat constructor.
  - vm_compute. reflexivity.
Defined.

(** ** The device name *)

Lemma length_append a b :
  String.length (a +:+ b) = String.length a + String.length b.
Proof. induction a as [|c a IH]; [done|]. cbn. by rewrite <- IH. Qed.

Lemma take_append a b : PyStr.take (String.length a) (a +:+ b) = a.
Proof.
  induction a as [|c a IH]; [by destruct b|].
  change (String c (PyStr.take (String.length a) (a +:+ b)) = String c a).
  by rewrite IH.
Qed.

(** X26.  The device name is the name of the archive without its last four
    characters, whatever these are; [import_all] does not look for a
    [.zip] ending. *)
Theorem X26_device_is_the_name_less_four_characters device ending :
  String.length ending = 4 ->
  device_of (device +:+ ending) = device.
Proof.
  intros H. unfold device_of. rewrite length_append, H.
  replace (String.length device + 4 - 4) with (String.length device) by lia.
  apply take_append.
Qed.

Lemma X26_witness : device_of ("LM358" +:+ ".ZIP") = "LM358".
Proof.
  apply (X26_device_is_the_name_less_four_characters "LM358" ".ZIP").
  reflexivity.
Defined.
(** ** [import_all] *)

Section Run.

Variables LIB FPS M3D : path.

Lemma import_footprint_none rt items found s :
  Forall (fun item : string * list string => is_footprint_name item.1 = false) items ->
  import_footprint FPS rt (inr items) found s = (inr None, s).
Proof.
  intros H. unfold import_footprint. cbn [lift]. unfold bind at 1, ret at 1.
  induction H as [|[n fp] items Hn _ IH]; [done|].
  cbn [import_footprint_items]. unfold is_footprint_name in Hn. cbn [fst] in Hn.
  by rewrite Hn.
Qed.

(** X27.  When the footprint directory of the archive has no entry whose
    name ends with [.kicad_mod] or [.mod], [import_footprint] returns no
    paths, and a run in which the other stages return ends with
    [AttributeError] at the second promotion: the documentation library has
    been replaced by its staging file by then, the symbol library has not. *)
Theorem X27_no_footprint_fails_after_dcm_promotion
    zip info items st d s1 m s2 l s4 :
  is_zipfile zip = true ->
  get_remote_info zip = inr info ->
  footprint_path info = inr items ->
  Forall (fun item : string * list string => is_footprint_name item.1 = false) items ->
  import_dcm LIB (device_of (zip_name zip)) (remote_type info) (dcm_path info) st
    = (inr d, s1) ->
  import_model M3D (model_path info) (zf zip) s1 = (inr m, s2) ->
  import_lib LIB (device_of (zip_name zip)) (remote_type info) (lib_path info) s2
    = (inr l, s4) ->
  ~ dcm_file_read LIB (remote_type info) `prefix_of` M3D ->
  ~ dcm_file_write LIB (remote_type info) `prefix_of` M3D ->
  exists c,
    fs s1 !! dcm_file_write LIB (remote_type info) = Some (File c) /\
    import_all LIB FPS M3D zip st =
    (inl AttributeError,
     mkState (<[dcm_file_read LIB (remote_type info) := File c]>
                (delete (dcm_file_write LIB (remote_type info)) (fs s4)))
             (modified_objects s4) (replies s4)).
Proof.
  intros Hzip Hinfo Hitems Hnone Hdcm Hmodel Hlib HrM3D HwM3D.
  set (rt := remote_type info) in *. set (device := device_of (zip_name zip)) in *.
  destruct (import_dcm_inr LIB _ _ _ _ _ _ Hdcm) as (-> & [c1 Hc1] & [c2 Hc2]).
  destruct (library_names rt ".dcm") as (_ & Hstep & _); [repeat constructor|].
  assert (Hkeep : forall q,
            q = dcm_file_read LIB rt \/ q = dcm_file_write LIB rt ->
            fs s4 !! q = fs s1 !! q).
  { intros q Hq.
    assert (fs s2 !! q = fs s1 !! q) as H2.
    { pose proof (leaves_import_model M3D q (model_path info) (zf zip)) as L.
      assert (~ q `prefix_of` M3D) as A by (by destruct Hq; subst q).
      assert (forall n, PyStr.endswith n ".step" = true -> q <> path_join M3D n) as B.
      { intros n Hn E. destruct Hq; subst q; apply path_join_inj in E as [_ E].
        - congruence.
        - change (remote_name rt +:+ ".dcm~")
            with (remote_name rt +:+ (".dcm" +:+ "~")) in E.
          rewrite append_assoc_tilde in E.
          rewrite <- E, tilde_not_step in Hn. done. }
      specialize (L A B s1). by rewrite Hmodel in L. }
    assert (fs s4 !! q = fs s2 !! q) as H4.
    { pose proof (leaves_import_lib LIB q device rt (lib_path info)) as L.
      assert (~ q `prefix_of` lib_file_read LIB rt /\
              ~ q `prefix_of` lib_file_write LIB rt) as [A B].
      { destruct Hq; subst q; split; apply join_not_prefix; by destruct rt. }
      specialize (L A B s2). by rewrite Hlib in L. }
    congruence. }
  exists c2. split; [done|].
  unfold import_all. rewrite Hzip. cbn [negb].
  unfold bind at 1. rewrite Hinfo. cbn [lift ret].
  unfold bind at 1. fold rt device. rewrite Hdcm.
  unfold bind at 1. rewrite Hmodel.
  unfold bind at 1. rewrite Hitems, import_footprint_none by done.
  unfold bind at 1. rewrite Hlib.
  unfold bind at 1. cbn [fst snd].
  rewrite (replace_file _ _ c2 c1);
    [|unfold dcm_file_write, path_join; by destruct LIB
     |unfold dcm_file_read, path_join; by destruct LIB
     |rewrite Hkeep; auto
     |rewrite Hkeep; auto].
  done.
Qed.

(** X28.  [import_all] returns [None] exactly for a file that is not a zip
    file, and then it has changed nothing; whenever it returns for a zip
    file, it returns ['OK:']. *)
Theorem X28_none_is_returned_for_other_files_only zip s r s' :
  import_all LIB FPS M3D zip s = (inr r, s') ->
  (r = None /\ is_zipfile zip = false /\ s' = s) \/
  (r = Some "OK:" /\ is_zipfile zip = true).
Proof.
  destruct (is_zipfile zip) eqn:Hzip.
  - intros H. right. split; [|done]. destruct r as [r|].
    + apply import_all_response in H. by subst r.
    + revert H. unfold import_all. rewrite Hzip. cbn [negb]. intros E.
      repeat (unfold bind at 1 in E;
              match type of E with
              | context [match ?c ?s with _ => _ end] =>
                  destruct (c s) as [[?|?] ?]; [done|]
              end).
      revert E. unfold bind.
      repeat match goal with
        | |- context [match ?x with _ => _ end] => destruct x; try done
        end.
      unfold ret. by intros [=].
  - unfold import_all. rewrite Hzip. cbn [negb]. unfold ret.
    intros [= <- <-]. by left.
Qed.

End Run.

Lemma X28_witness :
  (@None string = None /\
   is_zipfile (mkArchive "notes.txt" false (inl AssertionError) Example.members) = false /\
   Example.run_start = Example.run_start) \/
  (@None string = Some "OK:" /\
   is_zipfile (mkArchive "notes.txt" false (inl AssertionError) Example.members) = true).
Proof.
  apply (X28_none_is_returned_for_other_files_only Example.LIB Example.FPS Example.M3D
           (mkArchive "notes.txt" false (inl AssertionError) Example.members)
           Example.run_start None Example.run_start).
  reflexivity.
Defined.
Lemma X27_witness :
  exists c,
    fs Example.after_dcm !! dcm_file_write Example.LIB SAMACSYS = Some (File c) /\
    import_all Example.LIB Example.FPS Example.M3D Sample.zip_without_footprint
      Example.run_start =
    (inl AttributeError,
     mkState
       (<[dcm_file_read Example.LIB SAMACSYS := File c]>
          (delete (dcm_file_write Example.LIB SAMACSYS)
             (fs (import_lib Example.LIB "LM358" SAMACSYS Example.lm358_lib
                    Example.after_model).2)))
       (modified_objects
          (import_lib Example.LIB "LM358" SAMACSYS Example.lm358_lib
             Example.after_model).2)
       (replies
          (import_lib Example.LIB "LM358" SAMACSYS Example.lm358_lib
             Example.after_model).2)).
Proof.
  apply (X27_no_footprint_fails_after_dcm_promotion Example.LIB Example.FPS
           Example.M3D Sample.zip_without_footprint
           (mkInfo (Some Example.lm358_dcm) Example.lm358_lib
              (inr [("readme.txt", ["no footprint here"])]) (inr []) SAMACSYS)
           [("readme.txt", ["no footprint here"])]
           Example.run_start
           (dcm_file_read Example.LIB SAMACSYS, dcm_file_write Example.LIB SAMACSYS)
           Example.after_dcm None Example.after_model
           (lib_file_read Example.LIB SAMACSYS, lib_file_write Example.LIB SAMACSYS)
           (import_lib Example.LIB "LM358" SAMACSYS Example.lm358_lib
              Example.after_model).2).
  - reflexivity.
  - reflexivity.
  - reflexivity.
  - repeat constructor.
  - vm_compute. reflexivity.
  - vm_compute. reflexivity.
  - vm_compute. reflexivity.
  - apply (bool_decide_unpack _). by vm_compute.
  - apply (bool_decide_unpack _). by vm_compute.
Defined.
Section FootprintDeclined.

Variable FPS : path.

(** X29.  With a model installed and the footprint file in the library
    already, the operator is asked; on a reply that is no consent the stage
    returns the pair of paths of that footprint at once, with files and
    ledger as they were: the footprint is not written, no staging file is
    made, and the footprint files that follow in the archive are not looked
    at. *)
Theorem X29_declined_footprint_ends_the_stage
    rt name footprint rest model old f log r rs :
  is_footprint_name name = true ->
  f !! footprint_file_read FPS rt name = Some old ->
  dcm_yes r = false ->
  import_footprint FPS rt (inr ((name, footprint) :: rest)) (Some model)
    (mkState f log (r :: rs)) =
  (inr (Some (footprint_file_read FPS rt name, footprint_file_write FPS rt name)),
   mkState f log rs).
Proof.
  intros Hname Hold Hno. unfold import_footprint. cbn [lift].
  unfold bind at 1, ret at 1. cbn [import_footprint_items].
  unfold is_footprint_name in Hname. rewrite Hname.
  unfold footprint_file_read in *. frun. rewrite node_at_join, Hold. frun.
  unfold dcm_yes in Hno. by rewrite Hno.
Qed.

End FootprintDeclined.

Lemma X29_witness :
  import_footprint Example.FPS SAMACSYS
    (inr [Example.fp1; ("FP2.kicad_mod", ["(module FP2"; ")"])]) (Some "part.step")
    (mkState Example.fs_with_footprint [] ["no"]) =
  (inr (Some (footprint_file_read Example.FPS SAMACSYS "FP1.kicad_mod",
              footprint_file_write Example.FPS SAMACSYS "FP1.kicad_mod")),
   mkState Example.fs_with_footprint [] []).
Proof.
  apply (X29_declined_footprint_ends_the_stage Example.FPS SAMACSYS
           "FP1.kicad_mod" ["(module FP1"; "  (fp_text reference REF**)"; ")"]
           [("FP2.kicad_mod", ["(module FP2"; ")"])] "part.step"
           (File Example.old_footprint) Example.fs_with_footprint [] "no" []);
    vm_compute; reflexivity.
Defined.
